(** * GifCompose: a shallow embedding of [GifCompose/main.cpp]

    The program loads two directories of PNG images into GPU textures,
    flattens the backgrounds into one template, draws every frame over
    that template and streams the result into a GIF encoder.

    The embedding follows the source function by function.  The calls the
    program makes into Direct2D, Direct3D, the file system and the WinRT
    bitmap encoder are recorded, oldest first, in a log carried by the
    state; the pixel memory of the GPU is a store of surfaces indexed by
    texture, so that a bitmap created from a texture aliases it.

    What the platform does is taken as follows.  A path resolves to what
    the file system of the run says, its canonical form is the one the
    file system gives and names the same node, and a file decodes to what
    the file system says; these are the only calls that can fail for
    reasons outside the program.  Creating the device, a texture, the
    output file or the encoder succeeds, and so do the calls on the
    encoder; a drawing call fails only when it is made outside a draw pass
    or on a missing resource, and [EndDraw] reports it.  The statements
    below are therefore about runs in which the platform does not fail
    after the images are loaded; nothing is said about how the program
    ends when it does.  How two texels blend is left open: the program is
    parametrised by the blend function, and a statement that needs more of
    it says so. *)

From Stdlib Require Import ZArith QArith Qround String Ascii.
From stdpp Require Import base tactics decidable option list numbers sorting.

Local Open Scope Z_scope.

(** ** Wide strings

    [std::wstring] is a sequence of [wchar_t] code units; [operator==]
    compares them unit by unit and [operator<] lexicographically. *)

Abbreviation wchar_t := N (only parsing).
Abbreviation wstring := (list N) (only parsing).

(** [L"..."]: a wide literal whose characters are all in the ASCII range. *)
Definition L (s : string) : wstring :=
  (fun c : ascii => N_of_ascii c) <$> list_ascii_of_string s.

(** The newline character of a C literal. *)
Definition nl : string := String (ascii_of_nat 10) EmptyString.

(** [std::basic_string::operator<]. *)
Fixpoint wstring_lt (a b : wstring) : bool :=
  match a, b with
  | _, [] => false
  | [], _ :: _ => true
  | x :: a', y :: b' =>
      if (x <? y)%N then true
      else if (y <? x)%N then false
      else wstring_lt a' b'
  end.

(** The order [std::sort] arranges its range in: [b] never comes strictly
    before [a]. *)
Definition wstring_le (a b : wstring) : Prop := wstring_lt b a = false.

#[global] Instance wstring_le_dec (a b : wstring) : Decision (wstring_le a b).
Proof. unfold wstring_le. apply _. Defined.

(** [std::sort(first, last)] on a vector of wide strings. *)
Definition std_sort (files : list wstring) : list wstring :=
  merge_sort wstring_le files.

(** ** [std::filesystem::path]

    Only single path components (the names of directory entries) are
    decomposed; [extension] follows the C++17 rule: the part of the
    filename from its last period on, unless the filename is [.] or [..]
    or its only period is its first character. *)

Definition period : N := 46%N.

(** Index of the last period of [name] that is not its first character. *)
Fixpoint find_extension (i : nat) (name : wstring) : option nat :=
  match name with
  | [] => None
  | c :: rest =>
      match find_extension (S i) rest with
      | Some j => Some j
      | None => if bool_decide (c = period) && negb (Nat.eqb i 0)
                then Some i else None
      end
  end.

Definition extension (name : wstring) : wstring :=
  if bool_decide (name = [period; period]) then []
  else match find_extension 0 name with
       | Some j => drop j name
       | None => []
       end.

Definition has_extension (name : wstring) : bool :=
  negb (bool_decide (extension name = [])).

(** ** Pixels and surfaces *)

(** One [B8G8R8A8_UNORM] texel, colour premultiplied by alpha. *)
Record Pixel := mkPixel { px_b : Z; px_g : Z; px_r : Z; px_a : Z }.

#[global] Instance Pixel_eq_dec : EqDecision Pixel.
Proof. solve_decision. Defined.

(** The pixel memory of a texture, row after row.  [width] and [height]
    are the [UINT32] fields of [D2D1_SIZE_U]; the program only copies and
    compares them. *)
Record Surface := mkSurface {
  width : nat;
  height : nat;
  pixels : list Pixel
}.

#[global] Instance Surface_eq_dec : EqDecision Surface.
Proof. solve_decision. Defined.

(** [D2D1_COLOR_F]: four floating-point channels, here rationals. *)
Record D2D1_COLOR_F := mkColor { r : Q; g : Q; b : Q; a : Q }.

(** A unit-range channel as an 8-bit normalised integer. *)
Definition unorm8 (q : Q) : Z :=
  Z.max 0 (Z.min 255 (Qfloor (q * 255 + (1 # 2))%Q)).

(** The texel [Clear] fills a premultiplied target with. *)
Definition color_pixel (c : D2D1_COLOR_F) : Pixel :=
  {| px_b := unorm8 (b c * a c)%Q;
     px_g := unorm8 (g c * a c)%Q;
     px_r := unorm8 (r c * a c)%Q;
     px_a := unorm8 (a c) |}.

(** ** The file system the program reads

    A directory holds named children; a regular file carries what the PNG
    decoder makes of it ([None]: the decoder rejects the file). *)
#[local] Unset Elimination Schemes.
Inductive FsNode :=
| RegularFile (image : option Surface)
| Folder (children : list (wstring * FsNode))
| OtherNode.
#[local] Set Elimination Schemes.

(** What a path resolves to, if anything, and the canonical form of a
    path: the absolute path, free of links and dots, that
    [std::filesystem::canonical] computes.  It names the same node. *)
Record FileSystem := mkFileSystem {
  lookup :> wstring -> option FsNode;
  canonical_form : wstring -> wstring;
  canonical_form_same : forall path, lookup (canonical_form path) = lookup path
}.

Definition is_regular_file (n : FsNode) : bool :=
  match n with RegularFile _ => true | _ => false end.

(** ** Handles *)

(** An [ID3D11Texture2D] is named by its index in the device's store. *)
Abbreviation ID3D11Texture2D := nat (only parsing).

(** An [ID2D1Bitmap1] made by [CreateBitmapFromDxgiSurface] is a view of a
    texture: it has no pixels of its own. *)
Record ID2D1Bitmap1 := mkBitmap { dxgiSurface : ID3D11Texture2D }.

#[global] Instance ID2D1Bitmap1_eq_dec : EqDecision ID2D1Bitmap1.
Proof. solve_decision. Defined.

(** ** Values passed to the platform *)

Inductive D2D1_DEBUG_LEVEL :=
| D2D1_DEBUG_LEVEL_NONE
| D2D1_DEBUG_LEVEL_INFORMATION.

Inductive D3D11_USAGE := D3D11_USAGE_DEFAULT | D3D11_USAGE_STAGING.
Inductive DXGI_FORMAT := DXGI_FORMAT_UNKNOWN | DXGI_FORMAT_B8G8R8A8_UNORM.

Definition D3D11_BIND_SHADER_RESOURCE : Z := 8.
Definition D3D11_BIND_RENDER_TARGET : Z := 32.
Definition D3D11_CPU_ACCESS_READ : Z := 131072.
Definition D3D11_CREATE_DEVICE_DEBUG : Z := 2.
Definition D3D11_CREATE_DEVICE_BGRA_SUPPORT : Z := 32.

Record D3D11_TEXTURE2D_DESC := mkDesc {
  Width : nat;
  Height : nat;
  MipLevels : Z;
  ArraySize : Z;
  Format : DXGI_FORMAT;
  SampleDesc_Count : Z;
  Usage : D3D11_USAGE;
  BindFlags : Z;
  CPUAccessFlags : Z
}.

Inductive FileAccessMode := Read | ReadWrite.
Inductive BitmapPixelFormat := Unknown | Rgba16 | Rgba8 | Bgra8.
Inductive BitmapAlphaMode := Premultiplied | Straight | Ignore.

(** [BitmapTypedValue]: a property value together with its declared type. *)
Inductive BitmapTypedValue :=
| UInt16 (value : Z)
| UInt8Array (value : list Z).

(** ** The log of platform calls *)

Inductive Event :=
| EvPrintf (text : wstring)
| EvCreateD3DDevice
| EvCreateD2DFactory (debugLevel : D2D1_DEBUG_LEVEL)
| EvCreateD2DDevice
| EvCreateDeviceContext
| EvCanonical (path : wstring)
| EvDirectoryIterator (path : wstring)
| EvGetFolderFromPath (path : wstring)
| EvGetFile (filename : wstring)
| EvLoadTextureFromStream (filename : wstring)
| EvCreateBitmapFromDxgiSurface (texture : ID3D11Texture2D)
| EvCreateStorageFileFromPath (path : wstring)
| EvCreateTexture2D (desc : D3D11_TEXTURE2D_DESC)
| EvSetTarget (bitmap : ID2D1Bitmap1)
| EvBeginDraw
| EvClear (color : D2D1_COLOR_F)
| EvDrawBitmap (bitmap : ID2D1Bitmap1)
| EvEndDraw
| EvCopyResource (dst src : ID3D11Texture2D)
| EvCopyBytesFromTexture (texture : ID3D11Texture2D)
| EvOpenAsync (mode : FileAccessMode)
| EvCreateEncoder
| EvSetContainerProperties (props : list (wstring * BitmapTypedValue))
| EvSetFrameProperties (props : list (wstring * BitmapTypedValue))
| EvSetPixelData (format : BitmapPixelFormat) (alpha : BitmapAlphaMode)
    (w h : nat) (dpiX dpiY : Q) (bytes : list Z)
| EvGoToNextFrame
| EvFlush.

(** ** State, exceptions and the monad the program runs in *)

Record World := mkWorld {
  textures : list Surface;        (* pixel memory, one surface per texture *)
  target : option ID2D1Bitmap1;   (* what the device context draws into *)
  drawing : bool;                 (* between [BeginDraw] and [EndDraw] *)
  faulted : bool;                 (* a drawing call failed in this pass *)
  log : list Event                (* platform calls so far, oldest first *)
}.

Definition initial_world : World :=
  {| textures := []; target := None; drawing := false; faulted := false;
     log := [] |}.

Inductive Exn :=
| hresult_invalid_argument (message : wstring)
| filesystem_error (path : wstring)
| hresult_error (what : string)
| out_of_range (index : Z)
| assertion_failed
| out_of_fuel.

Inductive Res (A : Type) :=
| Val (a : A)
| Throw (e : Exn).
Arguments Val {A} a.
Arguments Throw {A} e.

Definition M (A : Type) : Type := World -> Res A * World.

#[global] Instance M_ret : MRet M := fun A a w => (Val a, w).

#[global] Instance M_bind : MBind M := fun A B f m w =>
  match m w with
  | (Val a, w') => f a w'
  | (Throw e, w') => (Throw e, w')
  end.

Definition throw {A} (e : Exn) : M A := fun w => (Throw e, w).

Definition emit (e : Event) : M unit := fun w =>
  (Val tt,
   {| textures := textures w; target := target w; drawing := drawing w;
      faulted := faulted w; log := log w ++ [e] |}).

Definition get_world : M World := fun w => (Val w, w).

Definition set_textures (t : list Surface) : M unit := fun w =>
  (Val tt,
   {| textures := t; target := target w; drawing := drawing w;
      faulted := faulted w; log := log w |}).

Definition set_context (tg : option ID2D1Bitmap1) (d f : bool) : M unit :=
  fun w =>
  (Val tt,
   {| textures := textures w; target := tg; drawing := d; faulted := f;
      log := log w |}).

(** [for (auto&& x : xs) body(x);] *)
Fixpoint for_each {A} (xs : list A) (body : A -> M unit) : M unit :=
  match xs with
  | [] => mret tt
  | x :: rest => body x;; for_each rest body
  end.

(** [winrt::check_hresult]. *)
Definition check_hresult (ok : bool) (what : string) : M unit :=
  if ok then mret tt else throw (hresult_error what).

(** ** Machine integers *)

(** Conversion to [size_t] (64 bits), to [int] (32 bits, two's complement)
    and to [uint16_t]. *)
Definition to_size_t (i : Z) : Z := i mod 2 ^ 64.
Definition to_int (i : Z) : Z := (i + 2 ^ 31) mod 2 ^ 32 - 2 ^ 31.
Definition to_uint16 (v : Z) : Z := v mod 2 ^ 16.
Definition INT_MAX : Z := 2 ^ 31 - 1.

(** [v.size()]. *)
Definition size {A} (v : list A) : Z := Z.of_nat (length v).

(** [v[i]] for an index already converted to [size_t]; an index outside the
    vector has no defined result in C++ and ends the run here. *)
Definition vector_at {A} (v : list A) (i : Z) : M A :=
  match v !! Z.to_nat i with
  | Some x => if 0 <=? i then mret x else throw (out_of_range i)
  | None => throw (out_of_range i)
  end.

(** ** Pixel operations of the platform *)

Definition transparent_black : Pixel := mkPixel 0 0 0 0.

(** A texture created without initial data. *)
Definition blank (w h : nat) : Surface :=
  mkSurface w h (replicate (w * h)%nat transparent_black).

(** [Clear]: every texel of the target becomes the clear colour. *)
Definition clear_surface (c : D2D1_COLOR_F) (dst : Surface) : Surface :=
  mkSurface (width dst) (height dst)
            (replicate (length (pixels dst)) (color_pixel c)).

(** [util::CopyBytesFromTexture]: the texels as B, G, R, A bytes. *)
Definition pixel_bytes (p : Pixel) : list Z := [px_b p; px_g p; px_r p; px_a p].
Definition surface_bytes (s : Surface) : list Z := pixels s ≫= pixel_bytes.

Section Program.

(** Source-over blending of one premultiplied texel ([src]) onto another
    ([dst]), as the graphics device computes it. *)
Variable blend : Pixel -> Pixel -> Pixel.

(** The file system of the run. *)
Variable fs : FileSystem.

(** The texel of [src] that lands on texel [i] of a target [w] texels wide
    when [src] is drawn at the origin, unscaled. *)
Definition source_texel (src : Surface) (w i : nat) : option Pixel :=
  let x := (i mod w)%nat in
  let y := (i / w)%nat in
  if (x <? width src)%nat && (y <? height src)%nat
  then pixels src !! (y * width src + x)%nat
  else None.

(** [DrawBitmap(src)] with its default arguments, onto [dst]. *)
Definition draw_bitmap (src dst : Surface) : Surface :=
  mkSurface (width dst) (height dst)
    (imap (fun i d => match source_texel src (width dst) i with
                      | Some s => blend s d
                      | None => d
                      end) (pixels dst)).

(** *** Direct3D *)

Definition CreateTexture2D (desc : D3D11_TEXTURE2D_DESC) : M ID3D11Texture2D :=
  emit (EvCreateTexture2D desc);;
  w ← get_world;
  set_textures (textures w ++ [blank (Width desc) (Height desc)]);;
  mret (length (textures w)).

(** [CopyResource(dst, src)]: ignored by the device unless both resources
    exist and have the same dimensions. *)
Definition CopyResource (dst src : ID3D11Texture2D) : M unit :=
  emit (EvCopyResource dst src);;
  w ← get_world;
  match textures w !! dst, textures w !! src with
  | Some d, Some s =>
      if bool_decide (width d = width s ∧ height d = height s)
      then set_textures (<[dst := s]> (textures w))
      else mret tt
  | _, _ => mret tt
  end.

Definition CopyBytesFromTexture (texture : ID3D11Texture2D) : M (list Z) :=
  emit (EvCopyBytesFromTexture texture);;
  w ← get_world;
  match textures w !! texture with
  | Some s => mret (surface_bytes s)
  | None => throw (hresult_error "Map")
  end.

(** *** Direct2D device context *)

Definition GetPixelSize (bitmap : ID2D1Bitmap1) : M (nat * nat) :=
  w ← get_world;
  match textures w !! dxgiSurface bitmap with
  | Some s => mret (width s, height s)
  | None => mret (O, O)
  end.

Definition SetTarget (bitmap : ID2D1Bitmap1) : M unit :=
  emit (EvSetTarget bitmap);;
  w ← get_world;
  set_context (Some bitmap) (drawing w) (faulted w).

Definition BeginDraw : M unit :=
  emit EvBeginDraw;;
  w ← get_world;
  set_context (target w) true (drawing w).

(** A drawing call changes the target's texture; outside a draw pass, or
    when a resource is missing, it only marks the pass as failed. *)
Definition draw_on_target (f : Surface -> option Surface) : M unit :=
  w ← get_world;
  match (if drawing w then target w else None) with
  | Some tg =>
      match textures w !! dxgiSurface tg ≫= f with
      | Some s' => set_textures (<[dxgiSurface tg := s']> (textures w))
      | None => set_context (target w) (drawing w) true
      end
  | None => set_context (target w) (drawing w) true
  end.

Definition Clear (c : D2D1_COLOR_F) : M unit :=
  emit (EvClear c);;
  draw_on_target (fun dst => Some (clear_surface c dst)).

Definition DrawBitmap (bitmap : ID2D1Bitmap1) : M unit :=
  emit (EvDrawBitmap bitmap);;
  w ← get_world;
  draw_on_target (fun dst =>
    (fun src => draw_bitmap src dst) <$> textures w !! dxgiSurface bitmap).

(** [EndDraw] closes the pass and reports whether it went well. *)
Definition EndDraw : M bool :=
  emit EvEndDraw;;
  w ← get_world;
  set_context (target w) false false;;
  mret (drawing w && negb (faulted w)).

(** *** File system and storage *)

(** [std::filesystem::canonical]: the canonical form of a path that
    exists; fails on a path that does not. *)
Definition canonical (path : wstring) : M wstring :=
  emit (EvCanonical path);;
  match fs path with
  | Some _ => mret (canonical_form fs path)
  | None => throw (filesystem_error path)
  end.

Definition is_directory (path : wstring) : bool :=
  match fs path with
  | Some (Folder _) => true
  | _ => false
  end.

(** [std::filesystem::directory_iterator]: the direct children only. *)
Definition directory_iterator (path : wstring) : M (list (wstring * FsNode)) :=
  emit (EvDirectoryIterator path);;
  match fs path with
  | Some (Folder children) => mret children
  | _ => throw (filesystem_error path)
  end.

(** [folder.GetFileAsync(filename)] followed by [OpenReadAsync]. *)
Definition GetFileAsync (folder : list (wstring * FsNode)) (filename : wstring)
  : M (option Surface) :=
  emit (EvGetFile filename);;
  match list_find (fun c => c.1 = filename) folder with
  | Some (_, (_, RegularFile image)) => mret image
  | _ => throw (hresult_error "GetFileAsync")
  end.

(** [util::LoadTextureFromStreamAsync]: decode into a new texture. *)
Definition LoadTextureFromStreamAsync (filename : wstring)
    (image : option Surface) : M ID3D11Texture2D :=
  emit (EvLoadTextureFromStream filename);;
  match image with
  | Some s =>
      w ← get_world;
      set_textures (textures w ++ [s]);;
      mret (length (textures w))
  | None => throw (hresult_error "LoadTextureFromStreamAsync")
  end.

(** ** The program *)

Definition CreateBitmapFromTexture (texture : ID3D11Texture2D) : M ID2D1Bitmap1 :=
  emit (EvCreateBitmapFromDxgiSurface texture);;
  w ← get_world;
  check_hresult (bool_decide (is_Some (textures w !! texture)))
                "CreateBitmapFromDxgiSurface";;
  mret (mkBitmap texture).

(** The first loop of [LoadBitmapsAsync]: the names of the regular files
    whose extension is [.png], in the order the directory lists them. *)
Fixpoint collect_files (entries : list (wstring * FsNode))
    (files : list wstring) : list wstring :=
  match entries with
  | [] => files
  | (name, node) :: rest =>
      if is_regular_file node && has_extension name
      then if bool_decide (extension name = L ".png")
           then collect_files rest (files ++ [name])
           else collect_files rest files
      else collect_files rest files
  end.

(** The second loop of [LoadBitmapsAsync]. *)
Fixpoint load_files (folder : list (wstring * FsNode)) (files : list wstring)
    (bitmaps : list ID2D1Bitmap1) : M (list ID2D1Bitmap1) :=
  match files with
  | [] => mret bitmaps
  | filename :: rest =>
      image ← GetFileAsync folder filename;
      texture ← LoadTextureFromStreamAsync filename image;
      bitmap ← CreateBitmapFromTexture texture;
      load_files folder rest (bitmaps ++ [bitmap])
  end.

Definition LoadBitmapsAsync (path : wstring) : M (list ID2D1Bitmap1) :=
  fullPath ← canonical path;
  if negb (is_directory fullPath)
  then throw (hresult_invalid_argument (L "Path was not a folder!"))
  else
    entries ← directory_iterator fullPath;
    let files := collect_files entries [] in
    let files := std_sort files in
    emit (EvGetFolderFromPath fullPath);;
    load_files entries files [].

(** [WINRT_VERIFY(cond)]: an assertion. *)
Definition WINRT_VERIFY (cond : bool) : M unit :=
  if cond then mret tt else throw assertion_failed.

Definition CreateGifEncoderAsync : M unit :=
  (* Setup our encoder *)
  emit EvCreateEncoder;;
  (* Write the application block *)
  let text := "NETSCAPE2.0"%string in
  let chars :=
    (fun c : ascii => Z.of_N (N_of_ascii c)) <$> list_ascii_of_string text in
  WINRT_VERIFY (size chars =? 11);;
  emit (EvSetContainerProperties
          [ (L "/appext/application", UInt8Array chars);
            (* The first value is the size of the block, which is the fixed
               value 3.  The second value is the looping extension, which is
               the fixed value 1.  The third and fourth values comprise an
               unsigned 2-byte integer (little endian); the value of 0 means
               to loop infinitely.  The final value is the block terminator,
               which is the fixed value 0. *)
            (L "/appext/data", UInt8Array [3; 1; 0; 0; 0]) ]).

(** The test both validation loops of [MainAsync] make:
    [size.width != frameSize.width || size.height != frameSize.height]. *)
Definition size_differs (size frameSize : nat * nat) : bool :=
  negb (Nat.eqb size.1 frameSize.1) || negb (Nat.eqb size.2 frameSize.2).

(** The [for] loop of [MainAsync] over the frames, from counter value [i]
    on.  [i] is an [int]; it is compared with [frames.size()] after
    conversion to [size_t], and incremented with wrap-around.  [fuel]
    bounds the number of iterations left; [encode_frames_ok] shows that one
    more than the number of frames is enough as long as the counter cannot
    wrap. *)
Fixpoint encode_frames (fuel : nat) (i : Z)
    (frames : list ID2D1Bitmap1) (frameSize : nat * nat) (frameDelay : Z)
    (backgroundTemplate : ID2D1Bitmap1)
    (renderTargetTexture stagingTexture : ID3D11Texture2D) : M unit :=
  match fuel with
  | O => throw out_of_fuel
  | S fuel' =>
      if to_size_t i <? size frames then
        frame ← vector_at frames (to_size_t i);
        (* Render the frame *)
        BeginDraw;;
        DrawBitmap backgroundTemplate;;
        DrawBitmap frame;;
        ok ← EndDraw;
        check_hresult ok "EndDraw";;
        CopyResource stagingTexture renderTargetTexture;;
        (* Get the bytes out of the render target *)
        bytes ← CopyBytesFromTexture stagingTexture;
        (* Write our frame delay *)
        emit (EvSetFrameProperties
                [ (L "/grctlext/Delay", UInt16 (to_uint16 frameDelay)) ]);;
        emit (EvSetPixelData Bgra8 Premultiplied frameSize.1 frameSize.2
                             1 1 bytes);;
        (if to_size_t i <? to_size_t (size frames - 1)
         then emit EvGoToNextFrame
         else mret tt);;
        encode_frames fuel' (to_int (i + 1)) frames frameSize frameDelay
                      backgroundTemplate renderTargetTexture stagingTexture
      else mret tt
  end.

Definition MainAsync (useDebugLayer : bool)
    (framesPath backgroundPath outputPath : wstring) : M unit :=
  (* Initialize D3D *)
  let flags := D3D11_CREATE_DEVICE_BGRA_SUPPORT in
  let flags := if useDebugLayer
               then Z.lor flags D3D11_CREATE_DEVICE_DEBUG else flags in
  emit EvCreateD3DDevice;;
  (* Initialize D2D *)
  let debugLevel := if useDebugLayer
                    then D2D1_DEBUG_LEVEL_INFORMATION
                    else D2D1_DEBUG_LEVEL_NONE in
  emit (EvCreateD2DFactory debugLevel);;
  emit EvCreateD2DDevice;;
  emit EvCreateDeviceContext;;
  (* Load all frames *)
  frames ← LoadBitmapsAsync framesPath;
  if bool_decide (frames = []) then
    emit (EvPrintf (L ("No frames found, exiting..." ++ nl)))
  else
    (* Make sure all the frames are the same size *)
    frame0 ← vector_at frames 0;
    frameSize ← GetPixelSize frame0;
    for_each frames (fun frame =>
      size ← GetPixelSize frame;
      if size_differs size frameSize
      then throw (hresult_invalid_argument
                    (L "All frames must be of the same size!"))
      else mret tt);;
    (* Load the backgrounds *)
    backgrounds ← LoadBitmapsAsync backgroundPath;
    for_each backgrounds (fun background =>
      size ← GetPixelSize background;
      if size_differs size frameSize
      then throw (hresult_invalid_argument
                    (L "All backgrounds must be of the same size as the frames!"))
      else mret tt);;
    (* Create our output file *)
    emit (EvCreateStorageFileFromPath outputPath);;
    (* Create our render target *)
    let desc :=
      {| Width := frameSize.1; Height := frameSize.2;
         MipLevels := 1; ArraySize := 1;
         Format := DXGI_FORMAT_B8G8R8A8_UNORM;
         SampleDesc_Count := 1;
         Usage := D3D11_USAGE_DEFAULT;
         BindFlags := Z.lor D3D11_BIND_RENDER_TARGET D3D11_BIND_SHADER_RESOURCE;
         CPUAccessFlags := 0 |} in
    renderTargetTexture ← CreateTexture2D desc;
    renderTarget ← CreateBitmapFromTexture renderTargetTexture;
    (* Create our background template *)
    backgroundTemplateTexture ← CreateTexture2D desc;
    backgroundTemplate ← CreateBitmapFromTexture backgroundTemplateTexture;
    (* Create our staging texture *)
    let desc :=
      {| Width := Width desc; Height := Height desc;
         MipLevels := MipLevels desc; ArraySize := ArraySize desc;
         Format := Format desc;
         SampleDesc_Count := SampleDesc_Count desc;
         Usage := D3D11_USAGE_STAGING;
         BindFlags := 0;
         CPUAccessFlags := D3D11_CPU_ACCESS_READ |} in
    stagingTexture ← CreateTexture2D desc;
    (* Draw our background template *)
    SetTarget backgroundTemplate;;
    let clearColor := mkColor 1 1 1 1 in
    BeginDraw;;
    Clear clearColor;;
    for_each backgrounds (fun background => DrawBitmap background);;
    ok ← EndDraw;
    check_hresult ok "EndDraw";;
    (* Iterate through each frame and compose it with the background
       template. After that, extract the image and encode it as a frame. *)
    let frameDelay := 13 in
    SetTarget renderTarget;;
    emit (EvOpenAsync ReadWrite);;
    CreateGifEncoderAsync;;
    encode_frames (S (length frames)) 0 frames frameSize frameDelay
                  backgroundTemplate renderTargetTexture stagingTexture;;
    emit EvFlush;;
    emit (EvPrintf (L ("Done!" ++ nl))).

(** *** Command line *)

Record Options := mkOptions {
  UseDebugLayer : bool;
  FramesPath : wstring;
  BackgroundPath : wstring;
  OutputPath : wstring
}.

Inductive CliResult := Valid | Invalid | Help.

(** The helpers of [robmikh::common::wcli::impl], which [ParseOptions]
    calls with one flag, or with a flag and its alias. *)
Variable GetFlag : list wstring -> wstring -> bool.
Variable GetFlag_alias : list wstring -> wstring -> wstring -> bool.
Variable GetFlagValue : list wstring -> wstring -> wstring -> wstring.

Definition PrintHelp : M unit :=
  emit (EvPrintf (L ("GifCompose.exe" ++ nl)));;
  emit (EvPrintf (L ("An application that creates gifs from files." ++ nl)));;
  emit (EvPrintf (L nl));;
  emit (EvPrintf (L ("Arguments:" ++ nl)));;
  emit (EvPrintf (L ("  -f <frames path>         (required) Path to the frame images." ++ nl)));;
  emit (EvPrintf (L ("  -b <backgrounds path>    (required) Path to the background images." ++ nl)));;
  emit (EvPrintf (L ("  -o <output path>         (required) Path to the output image that will be created." ++ nl)));;
  emit (EvPrintf (L nl));;
  emit (EvPrintf (L ("Flags:" ++ nl)));;
  emit (EvPrintf (L ("  -dxDebug           (optional) Use the DirectX and DirectML debug layers." ++ nl)));;
  emit (EvPrintf (L nl)).

(** [options] is the value of the caller's [Options], returned changed only
    when the result is [Valid]. *)
Definition ParseOptions (args : list wstring) (options : Options)
  : M (CliResult * Options) :=
  if GetFlag args (L "-help") || GetFlag args (L "/?") then
    PrintHelp;;
    mret (Help, options)
  else
    let framesPath := GetFlagValue args (L "-f") (L "/f") in
    if bool_decide (framesPath = []) then
      emit (EvPrintf (L ("Invalid frames path! Use '-help' for help." ++ nl)));;
      mret (Invalid, options)
    else
      let backgroundPath := GetFlagValue args (L "-b") (L "/b") in
      if bool_decide (backgroundPath = []) then
        emit (EvPrintf (L ("Invalid background path! Use '-help' for help." ++ nl)));;
        mret (Invalid, options)
      else
        let outputPath := GetFlagValue args (L "-o") (L "/o") in
        if bool_decide (outputPath = []) then
          emit (EvPrintf (L ("Invalid output path! Use '-help' for help." ++ nl)));;
          mret (Invalid, options)
        else
          let useDebugLayer := GetFlag_alias args (L "-dxDebug") (L "/dxDebug") in
          mret (Valid,
                {| UseDebugLayer := useDebugLayer;
                   FramesPath := framesPath;
                   BackgroundPath := backgroundPath;
                   OutputPath := outputPath |}).

(** How the process ends: [wmain] returns a code, or an exception leaves
    it uncaught. *)
Inductive ProcessEnd :=
| Exit (code : Z)
| Uncaught (e : Exn).

Definition wmain (argv : list wstring) : World -> ProcessEnd * World :=
  fun w =>
  (* CLI *)
  let args := drop 1 argv in
  let options := mkOptions false [] [] [] in
  match ParseOptions args options w with
  | (Throw e, w') => (Uncaught e, w')
  | (Val (cliResult, options), w') =>
      match cliResult with
      | Help => (Exit 0, w')
      | Invalid => (Exit 1, w')
      | Valid =>
          match MainAsync (UseDebugLayer options) (FramesPath options)
                          (BackgroundPath options) (OutputPath options) w' with
          | (Val _, w'') => (Exit 0, w'')
          | (Throw e, w'') => (Uncaught e, w'')
          end
      end
  end.

End Program.

(** ** Reading a run

    The definitions below do not belong to the program: they name the
    inputs, the pixel results and the stretches of the log that the
    statements about a run talk about. *)

(** The error taxonomy of the specification, read off the exceptions the
    program throws: a path that [canonical] or the folder test rejects, a
    size check of [MainAsync] that fails, a platform call that fails. *)
Inductive ErrorClass :=
| InvalidPathError
| DimensionMismatchError
| PlatformError
| Unclassified.

Definition classify (e : Exn) : ErrorClass :=
  match e with
  | filesystem_error _ => InvalidPathError
  | hresult_invalid_argument message =>
      if bool_decide (message = L "Path was not a folder!")
      then InvalidPathError
      else if bool_decide (message = L "All frames must be of the same size!")
      then DimensionMismatchError
      else if bool_decide
           (message = L "All backgrounds must be of the same size as the frames!")
      then DimensionMismatchError
      else Unclassified
  | hresult_error _ => PlatformError
  | out_of_range _ | assertion_failed | out_of_fuel => Unclassified
  end.

(** *** Inputs *)

Definition surface_size (s : Surface) : nat * nat := (width s, height s).

(** The entries [LoadBitmapsAsync] keeps. *)
Definition png_entry (entry : wstring * FsNode) : bool :=
  is_regular_file entry.2 && bool_decide (extension entry.1 = L ".png").

(** The file names [LoadBitmapsAsync] decodes, in the order it decodes
    them. *)
Definition files_of (entries : list (wstring * FsNode)) : list wstring :=
  std_sort (collect_files entries []).

(** What opening and decoding the child called [filename] gives. *)
Definition image_of (folder : list (wstring * FsNode)) (filename : wstring)
  : option Surface :=
  match list_find (fun c => c.1 = filename) folder with
  | Some (_, (_, RegularFile image)) => image
  | _ => None
  end.

(** The images of a directory when every kept file decodes. *)
Definition load_images (entries : list (wstring * FsNode))
  : option (list Surface) :=
  mapM (image_of entries) (files_of entries).

(** Bitmaps over the [k] consecutive textures from number [n] on. *)
Definition bitmaps_from (n k : nat) : list ID2D1Bitmap1 := mkBitmap <$> seq n k.

(** The body of either validation loop of [MainAsync], which differ in
    the message they throw. *)
Definition check_size (message : wstring) (frameSize : nat * nat)
    (bitmap : ID2D1Bitmap1) : M unit :=
  size ← GetPixelSize bitmap;
  if size_differs size frameSize
  then throw (hresult_invalid_argument message)
  else mret tt.

(** *** Pixel results *)

Definition white : D2D1_COLOR_F := mkColor 1 1 1 1.

Definition white_canvas (w h : nat) : Surface :=
  mkSurface w h (replicate (w * h)%nat (mkPixel 255 255 255 255)).

(** The backgrounds drawn one after the other onto [canvas]. *)
Definition flatten (blend : Pixel -> Pixel -> Pixel)
    (backgrounds : list Surface) (canvas : Surface) : Surface :=
  fold_left (fun canvas background => draw_bitmap blend background canvas)
            backgrounds canvas.

(** What source-over blending of premultiplied texels does whatever the
    rounding of the device: an opaque texel covers what is under it, and
    a fully transparent one leaves it as it is. *)
Definition source_over (blend : Pixel -> Pixel -> Pixel) : Prop :=
  (∀ s d, px_a s = 255 → blend s d = s)
  ∧ (∀ d, blend transparent_black d = d).

(** The texel [under] once texel [i] of [background], if it has one, is
    blended onto it. *)
Definition over_at (blend : Pixel -> Pixel -> Pixel) (i : nat)
    (under : Pixel) (background : Surface) : Pixel :=
  match pixels background !! i with
  | Some s => blend s under
  | None => under
  end.

(** Texel [i] of the backgrounds blended one after the other, in the order
    of the list, onto the texel [under]. *)
Definition composite_at (blend : Pixel -> Pixel -> Pixel)
    (backgrounds : list Surface) (i : nat) (under : Pixel) : Pixel :=
  fold_left (over_at blend i) backgrounds under.

(** One pass of the frame loop over the render target. *)
Definition render (blend : Pixel -> Pixel -> Pixel)
    (template frame target : Surface) : Surface :=
  draw_bitmap blend frame (draw_bitmap blend template target).

Definition render_all (blend : Pixel -> Pixel -> Pixel) (template : Surface)
    (frames : list Surface) (target : Surface) : Surface :=
  fold_left (fun target frame => render blend template frame target)
            frames target.

(** The render target after each pass, in frame order. *)
Fixpoint rendered_frames (blend : Pixel -> Pixel -> Pixel) (template : Surface)
    (frames : list Surface) (target : Surface) : list Surface :=
  match frames with
  | [] => []
  | frame :: rest =>
      let target' := render blend template frame target in
      target' :: rendered_frames blend template rest target'
  end.

(** *** Stretches of the log *)

Definition startup_events (useDebugLayer : bool) : list Event :=
  [EvCreateD3DDevice;
   EvCreateD2DFactory (if useDebugLayer then D2D1_DEBUG_LEVEL_INFORMATION
                       else D2D1_DEBUG_LEVEL_NONE);
   EvCreateD2DDevice; EvCreateDeviceContext].

(** The calls the second loop of [LoadBitmapsAsync] makes for [files] when
    the first new texture is number [n]. *)
Fixpoint load_events (files : list wstring) (n : nat) : list Event :=
  match files with
  | [] => []
  | filename :: rest =>
      [EvGetFile filename; EvLoadTextureFromStream filename;
       EvCreateBitmapFromDxgiSurface n] ++ load_events rest (S n)
  end.

Definition loading_log (fs : FileSystem) (path : wstring)
    (entries : list (wstring * FsNode)) (n : nat) : list Event :=
  [EvCanonical path; EvDirectoryIterator (canonical_form fs path);
   EvGetFolderFromPath (canonical_form fs path)]
  ++ load_events (files_of entries) n.

Definition target_desc (frameSize : nat * nat) : D3D11_TEXTURE2D_DESC :=
  mkDesc frameSize.1 frameSize.2 1 1 DXGI_FORMAT_B8G8R8A8_UNORM 1
         D3D11_USAGE_DEFAULT 40 0.

Definition staging_desc (frameSize : nat * nat) : D3D11_TEXTURE2D_DESC :=
  mkDesc frameSize.1 frameSize.2 1 1 DXGI_FORMAT_B8G8R8A8_UNORM 1
         D3D11_USAGE_STAGING 0 131072.

(** Everything up to the creation of the three textures; [rtT] is the
    number of the render target's texture, the template's and the staging
    texture's follow it. *)
Definition setup_events (fs : FileSystem) (useDebugLayer : bool)
    (framesPath backgroundPath outputPath : wstring)
    (fentries bentries : list (wstring * FsNode)) (N rtT : nat)
    (frameSize : nat * nat) : list Event :=
  startup_events useDebugLayer
  ++ loading_log fs framesPath fentries 0
  ++ loading_log fs backgroundPath bentries N
  ++ [EvCreateStorageFileFromPath outputPath;
      EvCreateTexture2D (target_desc frameSize);
      EvCreateBitmapFromDxgiSurface rtT;
      EvCreateTexture2D (target_desc frameSize);
      EvCreateBitmapFromDxgiSurface (S rtT);
      EvCreateTexture2D (staging_desc frameSize)].

(** The draw pass that builds the background template out of the [M]
    backgrounds, whose textures start at number [N]. *)
Definition template_events (N M : nat) : list Event :=
  [EvSetTarget (mkBitmap (S (N + M))); EvBeginDraw; EvClear white]
  ++ (EvDrawBitmap <$> bitmaps_from N M)
  ++ [EvEndDraw].

Definition netscape_properties : list (wstring * BitmapTypedValue) :=
  [ (L "/appext/application",
     UInt8Array [78; 69; 84; 83; 67; 65; 80; 69; 50; 46; 48]);
    (L "/appext/data", UInt8Array [3; 1; 0; 0; 0]) ].

Definition encoder_events (rtT : nat) : list Event :=
  [EvSetTarget (mkBitmap rtT); EvOpenAsync ReadWrite;
   EvCreateEncoder; EvSetContainerProperties netscape_properties].

(** The render pass of the frame whose bitmap is [frame]. *)
Definition pass_events (tmplT rtT stT : nat) (frame : ID2D1Bitmap1)
  : list Event :=
  [EvBeginDraw; EvDrawBitmap (mkBitmap tmplT); EvDrawBitmap frame; EvEndDraw;
   EvCopyResource stT rtT; EvCopyBytesFromTexture stT].

(** The two calls that hand one frame to the encoder. *)
Definition write_events (frameSize : nat * nat) (bytes : list Z) : list Event :=
  [EvSetFrameProperties [(L "/grctlext/Delay", UInt16 13)];
   EvSetPixelData Bgra8 Premultiplied frameSize.1 frameSize.2 1 1 bytes].

(** The log of the frame loop from frame number [i] on, the render target
    holding [target] when it starts. *)
Fixpoint encode_events (blend : Pixel -> Pixel -> Pixel) (template : Surface)
    (tmplT rtT stT : nat) (frameSize : nat * nat) (i : nat)
    (frames : list Surface) (target : Surface) : list Event :=
  match frames with
  | [] => []
  | frame :: rest =>
      let target' := render blend template frame target in
      pass_events tmplT rtT stT (mkBitmap i)
      ++ write_events frameSize (surface_bytes target')
      ++ (if bool_decide (rest = []) then [] else [EvGoToNextFrame])
      ++ encode_events blend template tmplT rtT stT frameSize (S i) rest target'
  end.

Definition closing_events : list Event :=
  [EvFlush; EvPrintf (L ("Done!" ++ nl))].

(** The texture store at the end of a run that encodes [frames] over
    [backgrounds]. *)
Definition final_textures (blend : Pixel -> Pixel -> Pixel)
    (frames backgrounds : list Surface) (frameSize : nat * nat)
  : list Surface :=
  let rtT := (length frames + length backgrounds)%nat in
  let canvas := blank frameSize.1 frameSize.2 in
  let template := flatten blend backgrounds (clear_surface white canvas) in
  let rendered := render_all blend template frames canvas in
  <[S (S rtT) := rendered]>
    (<[rtT := rendered]>
       (<[S rtT := template]>
          (frames ++ backgrounds ++ [canvas; canvas; canvas]))).

(** The log of a run that encodes [frames] over [backgrounds]. *)
Definition run_log (blend : Pixel -> Pixel -> Pixel) (fs : FileSystem)
    (useDebugLayer : bool)
    (framesPath backgroundPath outputPath : wstring)
    (fentries bentries : list (wstring * FsNode))
    (frames backgrounds : list Surface) (frameSize : nat * nat) : list Event :=
  let N := length frames in
  let M := length backgrounds in
  let canvas := blank frameSize.1 frameSize.2 in
  let template := flatten blend backgrounds (clear_surface white canvas) in
  setup_events fs useDebugLayer framesPath backgroundPath outputPath
               fentries bentries N (N + M) frameSize
  ++ template_events N M
  ++ encoder_events (N + M)
  ++ encode_events blend template (S (N + M)) (N + M) (S (S (N + M)))
                   frameSize 0 frames canvas
  ++ closing_events.

(** *** Projections of the log *)

(** Calls that draw, copy or read back pixels. *)
Definition is_render_event (e : Event) : bool :=
  match e with
  | EvSetTarget _ | EvBeginDraw | EvClear _ | EvDrawBitmap _ | EvEndDraw
  | EvCopyResource _ _ | EvCopyBytesFromTexture _ => true
  | _ => false
  end.

(** Calls on the encoder or its property sets. *)
Definition is_encoder_event (e : Event) : bool :=
  match e with
  | EvCreateEncoder | EvSetContainerProperties _ | EvSetFrameProperties _
  | EvSetPixelData _ _ _ _ _ _ _ | EvGoToNextFrame | EvFlush => true
  | _ => false
  end.

(** Calls that allocate what the run renders into or writes to. *)
Definition is_output_event (e : Event) : bool :=
  match e with
  | EvCreateStorageFileFromPath _ | EvCreateTexture2D _ | EvOpenAsync _ => true
  | _ => false
  end.

(** Calls made while the device is set up and the images are loaded. *)
Definition is_loading_event (e : Event) : bool :=
  match e with
  | EvCreateD3DDevice | EvCreateD2DFactory _ | EvCreateD2DDevice
  | EvCreateDeviceContext | EvCanonical _ | EvDirectoryIterator _
  | EvGetFolderFromPath _ | EvGetFile _ | EvLoadTextureFromStream _
  | EvCreateBitmapFromDxgiSurface _ => true
  | _ => false
  end.

(** The kinds of call found in [setup_events]. *)
Definition is_setup_event (e : Event) : bool :=
  is_loading_event e || is_output_event e.

Definition is_container_event (e : Event) : bool :=
  match e with
  | EvCreateEncoder | EvSetContainerProperties _ => true
  | _ => false
  end.

Definition is_write_event (e : Event) : bool :=
  match e with
  | EvSetFrameProperties _ | EvSetPixelData _ _ _ _ _ _ _ => true
  | _ => false
  end.

Definition is_advance (e : Event) : bool :=
  match e with EvGoToNextFrame => true | _ => false end.

Definition is_flush (e : Event) : bool :=
  match e with EvFlush => true | _ => false end.

Definition count (p : Event -> bool) (l : list Event) : nat :=
  length (List.filter p l).

(** The calls of a run before its first render, encoder or output call:
    the run has not begun to render iff this is the whole log. *)
Definition not_rendering (e : Event) : Prop :=
  is_render_event e = false ∧ is_encoder_event e = false
  ∧ is_output_event e = false.

(** The encoder calls that make up the frame sequence. *)
Inductive EncoderCall := Metadata | Pixels | Advance | Finish.

Definition encoder_call (e : Event) : option EncoderCall :=
  match e with
  | EvSetFrameProperties _ => Some Metadata
  | EvSetPixelData _ _ _ _ _ _ _ => Some Pixels
  | EvGoToNextFrame => Some Advance
  | EvFlush => Some Finish
  | _ => None
  end.

Definition schedule (l : list Event) : list EncoderCall := omap encoder_call l.

(** Metadata then pixels for each frame, an advance between two frames. *)
Fixpoint frames_schedule (n : nat) : list EncoderCall :=
  match n with
  | O => []
  | S n' =>
      [Metadata; Pixels]
      ++ match n' with
         | O => []
         | S _ => Advance :: frames_schedule n'
         end
  end.

(** The bitmap the device context was first pointed at, and the surface
    behind it: the background template of a run of [MainAsync]. *)
Definition first_target (l : list Event) : option ID2D1Bitmap1 :=
  head (omap (fun e => match e with EvSetTarget bitmap => Some bitmap
                                  | _ => None end) l).

Definition template_of (w : World) : option Surface :=
  first_target (log w) ≫= fun bitmap => textures w !! dxgiSurface bitmap.

(** *** Reading the command line, the loader and the pixels *)

(** What [PrintHelp] prints. *)
Definition help_events : list Event := log (PrintHelp initial_world).2.

Definition is_printf (e : Event) : bool :=
  match e with EvPrintf _ => true | _ => false end.

(** The line [ParseOptions] prints for a required path that is missing. *)
Definition invalid_path_line (what : string) : Event :=
  EvPrintf (L ("Invalid " ++ what ++ " path! Use '-help' for help." ++ nl)).

(** The exceptions [LoadBitmapsAsync] can throw on [path]. *)
Definition loader_exception (path : wstring) (e : Exn) : Prop :=
  e = filesystem_error path
  ∨ e = hresult_invalid_argument (L "Path was not a folder!")
  ∨ ∃ what, e = hresult_error what.

(** The three ways a run of [MainAsync] can end. *)
Inductive Outcome :=
| Aborted (e : Exn)
| NoFrames (fentries : list (wstring * FsNode))
| Encoded (fentries bentries : list (wstring * FsNode))
          (frames backgrounds : list Surface) (frameSize : nat * nat).

(** The outcome [rw] of a computation, had it started with the calls [l]
    already in the log. *)
Definition relog {A} (l : list Event) (rw : Res A * World) : Res A * World :=
  (rw.1,
   mkWorld (textures rw.2) (target rw.2) (drawing rw.2) (faulted rw.2)
           (l ++ log rw.2)).

(** A computation that only ever appends to the log: what it does and
    returns does not depend on the calls made before it. *)
Definition log_blind {A} (m : M A) : Prop :=
  ∀ t tg d f l, m (mkWorld t tg d f l) = relog l (m (mkWorld t tg d f [])).

(** The debug level [MainAsync] asks the Direct2D factory for. *)
Definition debug_level (useDebugLayer : bool) : D2D1_DEBUG_LEVEL :=
  if useDebugLayer then D2D1_DEBUG_LEVEL_INFORMATION else D2D1_DEBUG_LEVEL_NONE.

(** Two listings of a directory with the same regular [.png] files, in
    whatever order and among whatever other entries, no name listed
    twice. *)
Definition same_pngs (entries entries' : list (wstring * FsNode)) : Prop :=
  NoDup entries.*1 ∧ NoDup entries'.*1
  ∧ filter (fun e => Is_true (png_entry e)) entries
      ≡ₚ filter (fun e => Is_true (png_entry e)) entries'.

(** Two file systems in which [path] has the same canonical form and
    that hold there nothing, something that is not a directory, or
    directories with the same regular [.png] files. *)
Definition agree_on (fs fs' : FileSystem) (path : wstring) : Prop :=
  canonical_form fs path = canonical_form fs' path
  ∧ match fs path, fs' path with
    | Some (Folder entries), Some (Folder entries') =>
        same_pngs entries entries'
    | Some (Folder _), _ | _, Some (Folder _) => False
    | Some _, Some _ | None, None => True
    | _, _ => False
    end.

(** The pixel buffer a call hands to the encoder. *)
Definition pixel_data (e : Event) : option (list Z) :=
  match e with
  | EvSetPixelData _ _ _ _ _ _ bytes => Some bytes
  | _ => None
  end.

(** Width, height and buffer of a [SetPixelData] call. *)
Definition pixel_call (e : Event) : option (nat * nat * list Z) :=
  match e with
  | EvSetPixelData _ _ w h _ _ bytes => Some (w, h, bytes)
  | _ => None
  end.

Definition opaque (s : Surface) : Prop :=
  Forall (fun p => px_a p = 255) (pixels s).

(** A surface whose pixel memory has the size its dimensions say. *)
Definition well_formed (W H : nat) (s : Surface) : Prop :=
  surface_size s = (W, H) ∧ length (pixels s) = (W * H)%nat.

(** What one call does to the draw state of the device context, [None]
    when the call comes at the wrong time: passes are not nested, [Clear]
    and [DrawBitmap] come inside a pass, and the target is changed and
    textures are copied or read back outside of one. *)
Definition draw_step (drawing : bool) (e : Event) : option bool :=
  match e with
  | EvBeginDraw => if drawing then None else Some true
  | EvEndDraw => if drawing then Some false else None
  | EvClear _ | EvDrawBitmap _ => if drawing then Some true else None
  | EvSetTarget _ | EvCopyResource _ _ | EvCopyBytesFromTexture _ =>
      if drawing then None else Some false
  | _ => Some drawing
  end.

(** The draw state after the calls of [l], when each comes at the right
    time. *)
Fixpoint draw_state (drawing : bool) (l : list Event) : option bool :=
  match l with
  | [] => Some drawing
  | e :: l => draw_step drawing e ≫= fun drawing' => draw_state drawing' l
  end.

(** ** Sample inputs

    A blend function and a few directories on which the statements below
    are evaluated. *)

(** Source-over on premultiplied 8-bit channels. *)
Definition premultiplied_over (src dst : Pixel) : Pixel :=
  let k := 255 - px_a src in
  mkPixel (px_b src + px_b dst * k / 255) (px_g src + px_g dst * k / 255)
          (px_r src + px_r dst * k / 255) (px_a src + px_a dst * k / 255).

(** A 2x1 image of one colour, and a 1x1 one. *)
Definition image_2x1 (p : Pixel) : Surface := mkSurface 2 1 [p; p].
Definition image_1x1 (p : Pixel) : Surface := mkSurface 1 1 [p].

Definition red : Pixel := mkPixel 0 0 255 255.
Definition half_blue : Pixel := mkPixel 128 0 0 128.
Definition clear_px : Pixel := mkPixel 0 0 0 0.
Definition grey : Pixel := mkPixel 100 100 100 255.

(** A frames directory listed out of order, with entries the loader must
    skip: a subdirectory, a file whose only period comes first, a file
    with an upper-case extension. *)
Definition frames_dir : list (wstring * FsNode) :=
  [ (L "b.png", RegularFile (Some (image_2x1 red)));
    (L "sub.png", Folder [(L "z.png", RegularFile (Some (image_2x1 grey)))]);
    (L "a.png", RegularFile (Some (image_2x1 clear_px)));
    (L ".png", RegularFile None);
    (L "c.PNG", RegularFile None) ].

Definition backgrounds_dir : list (wstring * FsNode) :=
  [ (L "bg2.png", RegularFile (Some (image_2x1 half_blue)));
    (L "bg1.png", RegularFile (Some (image_2x1 grey))) ].

(** Frames of two different sizes. *)
Definition uneven_dir : list (wstring * FsNode) :=
  [ (L "a.png", RegularFile (Some (image_2x1 red)));
    (L "b.png", RegularFile (Some (image_1x1 red))) ].

Definition single_dir : list (wstring * FsNode) :=
  [ (L "only.png", RegularFile (Some (image_2x1 red))) ].

Definition empty_dir : list (wstring * FsNode) :=
  [ (L "notes.txt", RegularFile None) ].

(** The directory the sample runs start in, and a path as it reads from
    there: relative paths are taken from that directory, and a path that
    starts with it is absolute already. *)
Definition cwd : wstring := L "/tmp/gc/".

Definition from_cwd (path : wstring) : wstring :=
  if bool_decide (take (length cwd) path = cwd)
  then drop (length cwd) path
  else path.

(** The file system that holds [tree] in that directory.  The canonical
    form of a path starts with the directory, so it reads from there as
    the path does. *)
Definition rooted (tree : wstring -> option FsNode) : FileSystem :=
  {| lookup := fun path => tree (from_cwd path);
     canonical_form := fun path => cwd ++ from_cwd path;
     canonical_form_same := fun path => eq_refl |}.

Definition sample_tree (path : wstring) : option FsNode :=
  if bool_decide (path = L "frames") then Some (Folder frames_dir)
  else if bool_decide (path = L "backgrounds") then Some (Folder backgrounds_dir)
  else if bool_decide (path = L "uneven") then Some (Folder uneven_dir)
  else if bool_decide (path = L "single") then Some (Folder single_dir)
  else if bool_decide (path = L "empty") then Some (Folder empty_dir)
  else if bool_decide (path = L "file.txt") then Some (RegularFile None)
  else None.

Definition sample_fs : FileSystem := rooted sample_tree.

(** What the sample directories load to. *)
Definition sample_frames : list Surface := [image_2x1 clear_px; image_2x1 red].
Definition sample_backgrounds : list Surface :=
  [image_2x1 grey; image_2x1 half_blue].

(** Command-line helpers with the behaviour their names suggest. *)
Definition sample_GetFlag (args : list wstring) (flag : wstring) : bool :=
  bool_decide (flag ∈ args).

Definition sample_GetFlag_alias (args : list wstring) (flag alias : wstring)
  : bool :=
  sample_GetFlag args flag || sample_GetFlag args alias.

Fixpoint sample_GetFlagValue (args : list wstring) (flag alias : wstring)
  : wstring :=
  match args with
  | [] => []
  | x :: rest =>
      if bool_decide (x = flag) || bool_decide (x = alias)
      then match rest with v :: _ => v | [] => [] end
      else sample_GetFlagValue rest flag alias
  end.

Definition sample_argv (frames backgrounds : string) : list wstring :=
  [L "GifCompose.exe"; L "-f"; L frames; L "-b"; L backgrounds;
   L "-o"; L "out.gif"].

(** The frames directory again, with only its two images, listed in the
    other order, and the file system that holds it in place of the first. *)
Definition tidy_frames_dir : list (wstring * FsNode) :=
  [ (L "a.png", RegularFile (Some (image_2x1 clear_px)));
    (L "b.png", RegularFile (Some (image_2x1 red))) ].

Definition tidy_fs : FileSystem :=
  rooted (fun path =>
            if bool_decide (path = L "frames")
            then Some (Folder tidy_frames_dir)
            else sample_tree path).

(** The state the run on the sample frames and backgrounds ends in. *)
Definition sample_end : World :=
  Eval vm_compute in
    (MainAsync premultiplied_over sample_fs false (L "frames")
               (L "backgrounds") (L "out.gif") initial_world).2.

(** Command lines that ask for help, and that leave a path out. *)
Definition help_argv : list wstring :=
  [L "GifCompose.exe"; L "-o"; L "out.gif"; L "/?"].

Definition no_background_argv : list wstring :=
  [L "GifCompose.exe"; L "-f"; L "frames"; L "-o"; L "out.gif"].

(** * Properties *)

(** ** The order of file names *)

Lemma wstring_lt_irrefl (name : wstring) : wstring_lt name name = false.
Proof.
  induction name as [|c name IH]; simpl; [done|].
  by rewrite N.ltb_irrefl.
Qed.

#[global] Instance wstring_le_total : Total wstring_le.
Proof.
  intros x. unfold wstring_le.
  induction x as [|c x IH]; intros [|c' y]; simpl; auto.
  destruct (N.ltb_spec c' c), (N.ltb_spec c c'); auto; lia.
Qed.

#[global] Instance wstring_le_antisymm : AntiSymm (=) wstring_le.
Proof.
  intros x. unfold wstring_le.
  induction x as [|c x IH]; intros [|c' y]; simpl; try done.
  destruct (N.ltb_spec c' c), (N.ltb_spec c c'); try done.
  intros ??. assert (c = c') by lia. f_equal; auto.
Qed.

#[global] Instance wstring_le_trans : Transitive wstring_le.
Proof.
  intros x. unfold wstring_le.
  induction x as [|c x IH]; intros [|c' y] [|c'' z]; simpl; try done.
  all: repeat match goal with
       | |- context [N.ltb ?u ?v] => destruct (N.ltb_spec u v)
       end; try done; try lia.
  apply IH.
Qed.

Lemma std_sort_Sorted files : Sorted wstring_le (std_sort files).
Proof. apply Sorted_merge_sort, _. Qed.

Lemma std_sort_Permutation files : std_sort files ≡ₚ files.
Proof. apply merge_sort_Permutation. Qed.

(** The sorted vector does not depend on the order the directory lists its
    entries in. *)
Lemma std_sort_order_free files files' :
  files ≡ₚ files' → std_sort files = std_sort files'.
Proof.
  intros E. apply (Sorted_unique wstring_le); try apply std_sort_Sorted.
  by rewrite !std_sort_Permutation.
Qed.

(** ** The files [LoadBitmapsAsync] keeps *)

Lemma png_has_extension name :
  extension name = L ".png" → has_extension name = true.
Proof. unfold has_extension. by intros ->. Qed.

Lemma collect_files_filter entries files :
  collect_files entries files =
    files ++ (filter (fun e => Is_true (png_entry e)) entries).*1.
Proof.
  revert files.
  induction entries as [|[name node] entries IH]; intros files; simpl.
  - by rewrite app_nil_r.
  - rewrite filter_cons.
    destruct (decide (Is_true (png_entry (name, node)))) as [Hpng|Hpng].
    + apply andb_True in Hpng as [Hreg Hext]. simpl in Hreg, Hext.
      apply Is_true_true in Hreg. apply bool_decide_unpack in Hext.
      rewrite Hreg, (png_has_extension _ Hext), bool_decide_true by done.
      simpl. rewrite IH. by rewrite <-app_assoc.
    + unfold png_entry in Hpng. simpl in Hpng.
      destruct (is_regular_file node); simpl in *; [|apply IH].
      case_bool_decide; [by destruct Hpng|].
      destruct (has_extension name); apply IH.
Qed.

(** ** Running the monad *)

Lemma bind_val {A B} (m : M A) (f : A → M B) w a w' :
  m w = (Val a, w') → (m ≫= f) w = f a w'.
Proof. unfold mbind, M_bind. by intros ->. Qed.

Lemma bind_throw {A B} (m : M A) (f : A → M B) w e w' :
  m w = (Throw e, w') → (m ≫= f) w = (Throw e, w').
Proof. unfold mbind, M_bind. by intros ->. Qed.

(** [mrun tac]: run the first action of a sequence, [tac] proving what it
    returns; [mfail tac]: the same when it throws. *)
Tactic Notation "mrun" tactic3(tac) := erewrite bind_val; [|tac].
Tactic Notation "mfail" tactic3(tac) := erewrite bind_throw; [|tac].

Lemma emit_eq e t tg d f l :
  emit e (mkWorld t tg d f l) = (Val tt, mkWorld t tg d f (l ++ [e])).
Proof. done. Qed.

(** ** The loader *)

Lemma image_of_GetFileAsync folder filename s t tg d f l :
  image_of folder filename = Some s →
  GetFileAsync folder filename (mkWorld t tg d f l) =
    (Val (Some s), mkWorld t tg d f (l ++ [EvGetFile filename])).
Proof.
  unfold image_of, GetFileAsync. intros H.
  destruct (list_find _ folder) as [[? [? [image| |]]]|]; try done.
  simpl in H. by subst.
Qed.

Lemma LoadTextureFromStreamAsync_ok filename s t tg d f l :
  LoadTextureFromStreamAsync filename (Some s) (mkWorld t tg d f l) =
    (Val (length t),
     mkWorld (t ++ [s]) tg d f (l ++ [EvLoadTextureFromStream filename])).
Proof. done. Qed.

Lemma CreateBitmapFromTexture_ok texture t tg d f l :
  is_Some (t !! texture) →
  CreateBitmapFromTexture texture (mkWorld t tg d f l) =
    (Val (mkBitmap texture),
     mkWorld t tg d f (l ++ [EvCreateBitmapFromDxgiSurface texture])).
Proof.
  intros H. unfold CreateBitmapFromTexture.
  mrun apply emit_eq. mrun reflexivity. simpl.
  by rewrite bool_decide_true.
Qed.

Lemma lookup_new_texture (t : list Surface) (s : Surface) :
  is_Some ((t ++ [s]) !! length t).
Proof. rewrite lookup_app_r, Nat.sub_diag by lia. by eexists. Qed.

Lemma load_files_ok folder files : ∀ images bitmaps t tg d f l,
  mapM (image_of folder) files = Some images →
  load_files folder files bitmaps (mkWorld t tg d f l) =
    (Val (bitmaps ++ bitmaps_from (length t) (length images)),
     mkWorld (t ++ images) tg d f (l ++ load_events files (length t))).
Proof.
  induction files as [|filename files IH]; intros images bitmaps t tg d f l Hm.
  - injection Hm as <-. simpl. unfold bitmaps_from. simpl.
    by rewrite !app_nil_r.
  - simpl in Hm. destruct (image_of folder filename) as [s|] eqn:Hs; [|done].
    simpl in Hm. destruct (mapM _ files) as [images'|] eqn:Hm'; [|done].
    injection Hm as <-. cbn [load_files].
    mrun (by apply image_of_GetFileAsync).
    mrun apply LoadTextureFromStreamAsync_ok.
    mrun (apply CreateBitmapFromTexture_ok, lookup_new_texture).
    rewrite (IH images'); [|done].
    rewrite length_app. simpl. rewrite Nat.add_1_r.
    unfold bitmaps_from. simpl.
    by rewrite <-!app_assoc.
Qed.

(** A file that cannot be opened or decoded ends the load with the
    platform's error. *)
Lemma load_files_fail folder files : ∀ bitmaps t tg d f l,
  mapM (image_of folder) files = None →
  ∃ what w', load_files folder files bitmaps (mkWorld t tg d f l) =
               (Throw (hresult_error what), w').
Proof.
  induction files as [|filename files IH]; intros bitmaps t tg d f l Hm; [done|].
  simpl in Hm. cbn [load_files].
  destruct (image_of folder filename) as [s|] eqn:Hs.
  - simpl in Hm. destruct (mapM _ files) eqn:Hm'; [done|].
    mrun (by apply image_of_GetFileAsync).
    mrun apply LoadTextureFromStreamAsync_ok.
    mrun (apply CreateBitmapFromTexture_ok, lookup_new_texture).
    by apply IH.
  - unfold image_of in Hs.
    destruct (list_find _ folder) as [[? [? [image| |]]]|] eqn:Hfind;
      simpl in Hs; subst.
    1: mrun (unfold GetFileAsync; mrun apply emit_eq; by rewrite Hfind).
    2-4: mfail (unfold GetFileAsync; mrun apply emit_eq; by rewrite Hfind).
    1: mfail reflexivity.
    all: by eexists _, _.
Qed.

Lemma canonical_ok (fs : FileSystem) path node t tg d f l :
  fs path = Some node →
  canonical fs path (mkWorld t tg d f l) =
    (Val (canonical_form fs path),
     mkWorld t tg d f (l ++ [EvCanonical path])).
Proof. intros Hfs. unfold canonical. mrun apply emit_eq. by rewrite Hfs. Qed.

Lemma LoadBitmapsAsync_ok (fs : FileSystem) path entries images t tg d f l :
  fs path = Some (Folder entries) →
  load_images entries = Some images →
  LoadBitmapsAsync fs path (mkWorld t tg d f l) =
    (Val (bitmaps_from (length t) (length images)),
     mkWorld (t ++ images) tg d f
             (l ++ loading_log fs path entries (length t))).
Proof.
  intros Hfs Him. unfold LoadBitmapsAsync.
  mrun (by eapply canonical_ok).
  unfold is_directory. rewrite canonical_form_same, Hfs. simpl.
  mrun (unfold directory_iterator; mrun apply emit_eq;
        by rewrite canonical_form_same, Hfs).
  mrun apply emit_eq.
  erewrite load_files_ok by exact Him.
  unfold loading_log. simpl. by rewrite <-!app_assoc.
Qed.

Lemma LoadBitmapsAsync_undecodable (fs : FileSystem) path entries t tg d f l :
  fs path = Some (Folder entries) →
  load_images entries = None →
  ∃ what w', LoadBitmapsAsync fs path (mkWorld t tg d f l) =
               (Throw (hresult_error what), w').
Proof.
  intros Hfs Him. unfold LoadBitmapsAsync.
  mrun (by eapply canonical_ok).
  unfold is_directory. rewrite canonical_form_same, Hfs. simpl.
  mrun (unfold directory_iterator; mrun apply emit_eq;
        by rewrite canonical_form_same, Hfs).
  mrun apply emit_eq.
  by apply load_files_fail.
Qed.

Lemma LoadBitmapsAsync_missing (fs : FileSystem) path t tg d f l :
  fs path = None →
  LoadBitmapsAsync fs path (mkWorld t tg d f l) =
    (Throw (filesystem_error path), mkWorld t tg d f (l ++ [EvCanonical path])).
Proof.
  intros Hfs. unfold LoadBitmapsAsync.
  mfail (unfold canonical; mrun apply emit_eq; by rewrite Hfs). done.
Qed.

Lemma LoadBitmapsAsync_not_folder (fs : FileSystem) path node t tg d f l :
  fs path = Some node → (∀ children, node ≠ Folder children) →
  LoadBitmapsAsync fs path (mkWorld t tg d f l) =
    (Throw (hresult_invalid_argument (L "Path was not a folder!")),
     mkWorld t tg d f (l ++ [EvCanonical path])).
Proof.
  intros Hfs Hnode. unfold LoadBitmapsAsync.
  mrun (by eapply canonical_ok).
  unfold is_directory. rewrite canonical_form_same, Hfs.
  destruct node as [?|children|]; try done. by destruct (Hnode children).
Qed.

(** ** The size checks *)

Lemma GetPixelSize_eq bitmap t tg d f l :
  GetPixelSize bitmap (mkWorld t tg d f l) =
    (Val (from_option surface_size (O, O) (t !! dxgiSurface bitmap)),
     mkWorld t tg d f l).
Proof. unfold GetPixelSize. mrun reflexivity. simpl. by destruct (_ !! _). Qed.

Lemma size_differs_false size frameSize :
  size_differs size frameSize = false ↔ size = frameSize.
Proof.
  destruct size as [w h], frameSize as [w' h']. unfold size_differs. simpl.
  rewrite orb_false_iff, !negb_false_iff, !Nat.eqb_eq.
  split; [intros [-> ->]|intros [= -> ->]]; done.
Qed.

Section SizeChecks.
Context (message : wstring) (frameSize : nat * nat).

Local Abbreviation check := (check_size message frameSize).

Lemma check_sizes_ok images : ∀ n t tg d f l,
  (∀ j s, images !! j = Some s → t !! (n + j)%nat = Some s) →
  Forall (fun s => surface_size s = frameSize) images →
  for_each (bitmaps_from n (length images)) check (mkWorld t tg d f l) =
    (Val tt, mkWorld t tg d f l).
Proof.
  induction images as [|s images IH]; intros n t tg d f l Ht Hall; [done|].
  apply Forall_cons in Hall as [Hs Hall'].
  unfold bitmaps_from. simpl.
  mrun (unfold check_size; mrun apply GetPixelSize_eq; simpl;
        rewrite <-(Nat.add_0_r n), (Ht O s) by done; simpl;
        by rewrite (proj2 (size_differs_false _ _) Hs)).
  apply IH; [|done]. intros j s' Hj.
  replace (S n + j)%nat with (n + S j)%nat by lia. by apply Ht.
Qed.

Lemma check_sizes_fail images : ∀ n t tg d f l,
  (∀ j s, images !! j = Some s → t !! (n + j)%nat = Some s) →
  Exists (fun s => surface_size s ≠ frameSize) images →
  for_each (bitmaps_from n (length images)) check (mkWorld t tg d f l) =
    (Throw (hresult_invalid_argument message), mkWorld t tg d f l).
Proof.
  induction images as [|s images IH]; intros n t tg d f l Ht Hex.
  { by apply Exists_nil in Hex. }
  unfold bitmaps_from. simpl.
  assert (Hs0 : t !! n = Some s) by (rewrite <-(Nat.add_0_r n); by apply Ht).
  destruct (size_differs (surface_size s) frameSize) eqn:Hd.
  - mfail (unfold check_size; mrun apply GetPixelSize_eq; simpl;
           rewrite Hs0; simpl; by rewrite Hd). done.
  - mrun (unfold check_size; mrun apply GetPixelSize_eq; simpl;
          rewrite Hs0; simpl; by rewrite Hd).
    apply IH.
    + intros j s' Hj.
      replace (S n + j)%nat with (n + S j)%nat by lia. by apply Ht.
    + apply Exists_cons in Hex as [Hex|Hex]; [|done].
      by apply size_differs_false in Hd.
Qed.
End SizeChecks.

(** ** Drawing and copying *)

Lemma CreateTexture2D_eq desc t tg d f l :
  CreateTexture2D desc (mkWorld t tg d f l) =
    (Val (length t),
     mkWorld (t ++ [blank (Width desc) (Height desc)]) tg d f
             (l ++ [EvCreateTexture2D desc])).
Proof. done. Qed.

Lemma SetTarget_eq bitmap t tg d f l :
  SetTarget bitmap (mkWorld t tg d f l) =
    (Val tt, mkWorld t (Some bitmap) d f (l ++ [EvSetTarget bitmap])).
Proof. done. Qed.

Lemma BeginDraw_eq t tg d f l :
  BeginDraw (mkWorld t tg d f l) =
    (Val tt, mkWorld t tg true d (l ++ [EvBeginDraw])).
Proof. done. Qed.

Lemma EndDraw_eq t tg d f l :
  EndDraw (mkWorld t tg d f l) =
    (Val (d && negb f), mkWorld t tg false false (l ++ [EvEndDraw])).
Proof. done. Qed.

Lemma Clear_ok c tT dst t f l :
  t !! tT = Some dst →
  Clear c (mkWorld t (Some (mkBitmap tT)) true f l) =
    (Val tt, mkWorld (<[tT := clear_surface c dst]> t) (Some (mkBitmap tT))
                     true f (l ++ [EvClear c])).
Proof.
  intros Ht. unfold Clear. mrun apply emit_eq.
  unfold draw_on_target. mrun reflexivity. simpl. by rewrite Ht.
Qed.

Lemma DrawBitmap_ok blend bitmap src tT dst t f l :
  t !! tT = Some dst → t !! dxgiSurface bitmap = Some src →
  DrawBitmap blend bitmap (mkWorld t (Some (mkBitmap tT)) true f l) =
    (Val tt, mkWorld (<[tT := draw_bitmap blend src dst]> t)
                     (Some (mkBitmap tT)) true f (l ++ [EvDrawBitmap bitmap])).
Proof.
  intros Ht Hsrc. unfold DrawBitmap. mrun apply emit_eq. mrun reflexivity.
  unfold draw_on_target. mrun reflexivity. simpl. by rewrite Ht, Hsrc.
Qed.

Lemma CopyResource_ok dst src d0 s t tg d f l :
  t !! dst = Some d0 → t !! src = Some s →
  surface_size d0 = surface_size s →
  CopyResource dst src (mkWorld t tg d f l) =
    (Val tt, mkWorld (<[dst := s]> t) tg d f (l ++ [EvCopyResource dst src])).
Proof.
  intros Hd Hs [= Hw Hh]. unfold CopyResource. mrun apply emit_eq.
  mrun reflexivity. simpl. rewrite Hd, Hs. by rewrite bool_decide_true.
Qed.

Lemma CopyBytesFromTexture_ok texture s t tg d f l :
  t !! texture = Some s →
  CopyBytesFromTexture texture (mkWorld t tg d f l) =
    (Val (surface_bytes s),
     mkWorld t tg d f (l ++ [EvCopyBytesFromTexture texture])).
Proof.
  intros Hs. unfold CopyBytesFromTexture. mrun apply emit_eq.
  mrun reflexivity. simpl. by rewrite Hs.
Qed.

Lemma draw_bitmap_size blend src dst :
  surface_size (draw_bitmap blend src dst) = surface_size dst.
Proof. done. Qed.

(** The loop that draws the backgrounds into the template: the texture
    behind the target ends up holding the backgrounds flattened onto what
    it held, and no other texture changes. *)
Lemma draw_backgrounds_ok blend tT backgrounds : ∀ n t canvas f l,
  (∀ j s, backgrounds !! j = Some s → t !! (n + j)%nat = Some s) →
  t !! tT = Some canvas →
  (tT < n ∨ n + length backgrounds ≤ tT)%nat →
  for_each (bitmaps_from n (length backgrounds))
           (fun background => DrawBitmap blend background)
           (mkWorld t (Some (mkBitmap tT)) true f l) =
    (Val tt,
     mkWorld (<[tT := flatten blend backgrounds canvas]> t)
             (Some (mkBitmap tT)) true f
             (l ++ (EvDrawBitmap <$> bitmaps_from n (length backgrounds)))).
Proof.
  induction backgrounds as [|s backgrounds IH]; intros n t canvas f l Ht HtT Hn.
  - simpl. by rewrite list_insert_id, app_nil_r.
  - unfold bitmaps_from. simpl in *.
    mrun (eapply DrawBitmap_ok; [exact HtT|]; simpl;
          rewrite <-(Nat.add_0_r n); by apply Ht).
    unfold bitmaps_from in IH. erewrite IH.
    + rewrite list_insert_insert_eq. by rewrite <-app_assoc.
    + intros j s' Hj. pose proof (lookup_lt_Some _ _ _ Hj).
      rewrite list_lookup_insert_ne by lia.
      replace (S n + j)%nat with (n + S j)%nat by lia. by apply Ht.
    + apply list_lookup_insert_eq. by eapply lookup_lt_Some.
    + lia.
Qed.

(** ** The frame loop *)

Lemma to_size_t_small i : 0 ≤ i < 2 ^ 64 → to_size_t i = i.
Proof. intros. unfold to_size_t. by apply Z.mod_small. Qed.

Lemma to_int_small i : - 2 ^ 31 ≤ i ≤ INT_MAX → to_int i = i.
Proof. unfold to_int, INT_MAX. intros. rewrite Z.mod_small; lia. Qed.

Lemma size_bitmaps_from n k : size (bitmaps_from n k) = Z.of_nat k.
Proof. unfold size, bitmaps_from. by rewrite length_fmap, length_seq. Qed.

Lemma vector_at_bitmaps_from n k i w :
  (i < k)%nat →
  vector_at (bitmaps_from n k) (Z.of_nat i) w = (Val (mkBitmap (n + i)), w).
Proof.
  intros Hi. unfold vector_at, bitmaps_from.
  rewrite Nat2Z.id, list_lookup_fmap, lookup_seq_lt by done. simpl.
  by rewrite (proj2 (Z.leb_le _ _)) by lia.
Qed.

Section EncodeLoop.
Context (blend : Pixel → Pixel → Pixel) (frames : list Surface).
Context (n tmplT rtT stT : nat) (template : Surface) (frameSize : nat * nat).
Context (Hmax : size frames ≤ INT_MAX).
Context (Hrt : tmplT ≠ rtT) (Hst : stT ≠ rtT) (Hts : stT ≠ tmplT).
Context (Hframes : ∀ j, (j < length frames)%nat →
                        (n + j)%nat ≠ rtT ∧ (n + j)%nat ≠ stT).

(** From counter value [k] on, with enough fuel, the loop renders and
    hands over the remaining frames one by one; only the render target
    and the staging texture change. *)
Lemma encode_frames_ok : ∀ rest k fuel t rt st l,
  drop k frames = rest → (k ≤ length frames)%nat →
  (length rest < fuel)%nat →
  (∀ j s, frames !! j = Some s → t !! (n + j)%nat = Some s) →
  t !! tmplT = Some template → t !! rtT = Some rt → t !! stT = Some st →
  surface_size st = surface_size rt →
  encode_frames blend fuel (Z.of_nat k) (bitmaps_from n (length frames))
                frameSize 13 (mkBitmap tmplT) rtT stT
                (mkWorld t (Some (mkBitmap rtT)) false false l) =
    (Val tt,
     mkWorld (<[stT := if rest is [] then st
                       else render_all blend template rest rt]>
                (<[rtT := render_all blend template rest rt]> t))
             (Some (mkBitmap rtT)) false false
             (l ++ encode_events blend template tmplT rtT stT frameSize
                                 (n + k) rest rt)).
Proof using Hmax Hrt Hst Hts Hframes.
  unfold size, INT_MAX in Hmax.
  induction rest as [|frame rest IH]; intros k fuel t rt st l Hdrop Hle Hfuel
    Ht Htmpl Hrtl Hstl Hsz.
  - destruct fuel as [|fuel]; [simpl in Hfuel; lia|]. simpl.
    rewrite size_bitmaps_from, to_size_t_small by lia.
    assert (length frames ≤ k)%nat.
    { apply (f_equal length) in Hdrop. rewrite length_drop in Hdrop.
      simpl in Hdrop. lia. }
    rewrite (proj2 (Z.ltb_ge _ _)) by lia.
    simpl. by rewrite !list_insert_id, app_nil_r by
      (done || by rewrite list_lookup_insert_ne).
  - assert (Hk : (k + S (length rest) = length frames)%nat).
    { apply (f_equal length) in Hdrop. rewrite length_drop in Hdrop.
      simpl in Hdrop. lia. }
    assert (Hfk : frames !! k = Some frame).
    { rewrite <-(Nat.add_0_r k), <-lookup_drop, Hdrop. done. }
    destruct fuel as [|fuel]; [simpl in Hfuel; lia|].
    cbn [encode_frames].
    rewrite size_bitmaps_from, !to_size_t_small by lia.
    rewrite (proj2 (Z.ltb_lt _ _)) by lia.
    mrun (apply vector_at_bitmaps_from; lia).
    mrun apply BeginDraw_eq.
    mrun (by eapply DrawBitmap_ok).
    mrun (eapply DrawBitmap_ok;
          [apply list_lookup_insert_eq; by eapply lookup_lt_Some
          |simpl;
           rewrite list_lookup_insert_ne by (apply not_eq_sym, Hframes; lia);
           by apply Ht]).
    rewrite list_insert_insert_eq.
    mrun apply EndDraw_eq. simpl.
    mrun reflexivity.
    mrun (eapply CopyResource_ok;
          [rewrite list_lookup_insert_ne by done; exact Hstl
          |apply list_lookup_insert_eq; by eapply lookup_lt_Some
          |by rewrite !draw_bitmap_size]).
    mrun (apply CopyBytesFromTexture_ok, list_lookup_insert_eq;
          rewrite length_insert; by eapply lookup_lt_Some).
    mrun apply emit_eq. mrun apply emit_eq.
    fold (render blend template frame rt).
    set (rt' := render blend template frame rt).
    assert (Hnext : to_int (Z.of_nat k + 1) = Z.of_nat (S k)).
    { rewrite to_int_small; unfold INT_MAX; lia. }
    rewrite Hnext.
    assert (Hdrop' : drop (S k) frames = rest).
    { replace (S k) with (k + 1)%nat by lia. by rewrite <-drop_drop, Hdrop. }
    assert (HX : (if rest is [] then rt'
                  else render_all blend template rest rt') =
                 render_all blend template rest rt') by (by destruct rest).
    assert (Hgo : (if Z.of_nat k <? Z.of_nat (length frames) - 1
                   then emit EvGoToNextFrame else mret tt) =
                  (if bool_decide (rest = [])
                   then mret tt else emit EvGoToNextFrame)).
    { destruct rest; simpl in Hk.
      - by rewrite (proj2 (Z.ltb_ge _ _)) by lia.
      - by rewrite (proj2 (Z.ltb_lt _ _)) by lia. }
    rewrite Hgo.
    pose proof (lookup_lt_Some _ _ _ Hrtl).
    pose proof (lookup_lt_Some _ _ _ Hstl).
    assert (Hgoal : ∀ l',
      encode_frames blend fuel (Z.of_nat (S k))
        (bitmaps_from n (length frames)) frameSize 13
        (mkBitmap tmplT) rtT stT
        (mkWorld (<[stT:=rt']> (<[rtT:=rt']> t))
                 (Some (mkBitmap rtT)) false false l') =
      (Val tt,
       mkWorld (<[stT:=render_all blend template rest rt']>
                  (<[rtT:=render_all blend template rest rt']> t))
               (Some (mkBitmap rtT)) false false
               (l' ++ encode_events blend template tmplT rtT stT frameSize
                                    (n + S k) rest rt'))).
    { intros l'. rewrite (IH (S k) fuel _ rt' rt' l'); try done; try lia.
      - rewrite HX. do 2 f_equal.
        rewrite (list_insert_insert_ne _ rtT stT) by done.
        by rewrite !list_insert_insert_eq.
      - simpl in Hfuel. lia.
      - intros j s Hj. pose proof (lookup_lt_Some _ _ _ Hj).
        rewrite !list_lookup_insert_ne by (apply not_eq_sym, Hframes; lia).
        by apply Ht.
      - by rewrite !list_lookup_insert_ne.
      - rewrite list_lookup_insert_ne by done.
        by apply list_lookup_insert_eq.
      - apply list_lookup_insert_eq. by rewrite length_insert. }
    cbn [encode_events]. fold rt'.
    replace (S (n + k)) with (n + S k)%nat by lia.
    unfold pass_events, write_events.
    case_bool_decide.
    + mrun reflexivity. rewrite Hgoal.
      repeat (progress (cbn [app]; rewrite <-?app_assoc)). done.
    + mrun apply emit_eq. rewrite Hgoal.
      repeat (progress (cbn [app]; rewrite <-?app_assoc)). done.
Qed.
End EncodeLoop.

(** ** Runs of [MainAsync] *)

Section Run.
Context (blend : Pixel → Pixel → Pixel) (fs : FileSystem).
Context (useDebugLayer : bool).
Context (framesPath backgroundPath outputPath : wstring).
Context (fentries : list (wstring * FsNode)) (frames : list Surface).
Context (Hfs : fs framesPath = Some (Folder fentries)).
Context (Hframes : load_images fentries = Some frames).

(** No frame: the run stops after its message. *)
Lemma MainAsync_no_frames :
  frames = [] →
  MainAsync blend fs useDebugLayer framesPath backgroundPath outputPath
            initial_world =
    (Val tt,
     mkWorld [] None false false
             (startup_events useDebugLayer
              ++ loading_log fs framesPath fentries 0
              ++ [EvPrintf (L ("No frames found, exiting..." ++ nl))])).
Proof using Hfs Hframes.
  intros ->. unfold MainAsync, initial_world.
  do 4 mrun apply emit_eq.
  mrun (by eapply LoadBitmapsAsync_ok).
  rewrite bool_decide_true by done. rewrite emit_eq.
  unfold startup_events. by rewrite <-app_assoc.
Qed.

Context (frameSize : nat * nat).
Context (Hhead : surface_size <$> head frames = Some frameSize).

Lemma frames_nonempty : (0 < length frames)%nat.
Proof using Hhead.
  generalize Hhead. clear. by destruct frames; simpl; [|lia].
Qed.

Lemma first_frame_size :
  from_option surface_size (O, O) (frames !! O) = frameSize.
Proof using Hhead.
  generalize Hhead. clear. destruct frames; simpl; [done|].
  by intros [= <-].
Qed.

(** A frame of another size than the first: the run throws before it
    looks at the backgrounds. *)
Lemma MainAsync_frame_mismatch :
  Exists (fun s => surface_size s ≠ frameSize) frames →
  MainAsync blend fs useDebugLayer framesPath backgroundPath outputPath
            initial_world =
    (Throw (hresult_invalid_argument
              (L "All frames must be of the same size!")),
     mkWorld frames None false false
             (startup_events useDebugLayer
              ++ loading_log fs framesPath fentries 0)).
Proof using Hfs Hframes Hhead.
  intros Hex. pose proof frames_nonempty as HN.
  unfold MainAsync, initial_world.
  do 4 mrun apply emit_eq.
  mrun (by eapply LoadBitmapsAsync_ok). rewrite app_nil_l. cbn [length].
  rewrite bool_decide_false.
  2:{ unfold bitmaps_from. destruct (length frames); [lia|done]. }
  mrun (by apply (vector_at_bitmaps_from 0 _ 0)).
  mrun apply GetPixelSize_eq.
  assert (Hsz : from_option surface_size (O, O)
                  (frames !! dxgiSurface (mkBitmap (0 + 0))) = frameSize)
    by apply first_frame_size.
  rewrite Hsz.
  by mfail (by apply (check_sizes_fail _ frameSize frames 0)).
Qed.

Context (bentries : list (wstring * FsNode)) (backgrounds : list Surface).
Context (Hfsize : Forall (fun s => surface_size s = frameSize) frames).
Context (Hbs : fs backgroundPath = Some (Folder bentries)).
Context (Hbackgrounds : load_images bentries = Some backgrounds).

(** A background of another size than the frames: the run throws once
    the backgrounds are loaded. *)
Lemma MainAsync_background_mismatch :
  Exists (fun s => surface_size s ≠ frameSize) backgrounds →
  MainAsync blend fs useDebugLayer framesPath backgroundPath outputPath
            initial_world =
    (Throw (hresult_invalid_argument
              (L "All backgrounds must be of the same size as the frames!")),
     mkWorld (frames ++ backgrounds) None false false
             (startup_events useDebugLayer
              ++ loading_log fs framesPath fentries 0
              ++ loading_log fs backgroundPath bentries (length frames))).
Proof using Hfs Hframes Hhead Hfsize Hbs Hbackgrounds.
  intros Hex. pose proof frames_nonempty as HN.
  unfold MainAsync, initial_world.
  do 4 mrun apply emit_eq.
  mrun (by eapply LoadBitmapsAsync_ok). rewrite app_nil_l. cbn [length].
  rewrite bool_decide_false.
  2:{ unfold bitmaps_from. destruct (length frames); [lia|done]. }
  mrun (by apply (vector_at_bitmaps_from 0 _ 0)).
  mrun apply GetPixelSize_eq.
  assert (Hsz : from_option surface_size (O, O)
                  (frames !! dxgiSurface (mkBitmap (0 + 0))) = frameSize)
    by apply first_frame_size.
  rewrite Hsz.
  mrun (by apply (check_sizes_ok _ frameSize frames 0)).
  mrun (by eapply LoadBitmapsAsync_ok).
  mfail (apply (check_sizes_fail _ frameSize backgrounds (length frames));
         [|done];
         intros j s Hj;
         by rewrite lookup_app_r, Nat.add_comm, Nat.add_sub by lia).
  unfold startup_events. by rewrite <-!app_assoc.
Qed.

Context (Hmax : size frames ≤ INT_MAX).
Context (Hbsize : Forall (fun s => surface_size s = frameSize) backgrounds).

(** All sizes agree: the run goes through, and its final state is the
    one this lemma writes out. *)
Lemma MainAsync_ok :
  MainAsync blend fs useDebugLayer framesPath backgroundPath outputPath
            initial_world =
    (Val tt,
     mkWorld (final_textures blend frames backgrounds frameSize)
             (Some (mkBitmap (length frames + length backgrounds)))
             false false
             (run_log blend fs useDebugLayer framesPath backgroundPath
                      outputPath fentries bentries frames backgrounds
                      frameSize)).
Proof using All.
  pose proof frames_nonempty as HN.
  unfold final_textures, run_log. cbv zeta.
  set (N := length frames) in *. set (M := length backgrounds).
  set (rtT := (N + M)%nat). set (tmplT := S rtT). set (stT := S tmplT).
  set (canvas := blank frameSize.1 frameSize.2).
  set (template := flatten blend backgrounds (clear_surface white canvas)).
  unfold MainAsync, initial_world.
  do 4 mrun apply emit_eq.
  mrun (by eapply LoadBitmapsAsync_ok). rewrite app_nil_l. cbn [length].
  fold N.
  rewrite bool_decide_false.
  2:{ unfold bitmaps_from. destruct N; [lia|done]. }
  mrun (by apply (vector_at_bitmaps_from 0 N 0)).
  mrun apply GetPixelSize_eq.
  assert (Hsz : from_option surface_size (O, O)
                  (frames !! dxgiSurface (mkBitmap (0 + 0))) = frameSize)
    by apply first_frame_size.
  rewrite Hsz. clear Hsz.
  mrun (by apply (check_sizes_ok _ frameSize frames 0)).
  mrun (by eapply LoadBitmapsAsync_ok). fold N M.
  mrun (apply (check_sizes_ok _ frameSize backgrounds N); [|done];
        intros j s Hj;
        by rewrite lookup_app_r, Nat.add_comm, Nat.add_sub by (fold N; lia)).
  mrun apply emit_eq.
  set (T0 := frames ++ backgrounds ++ [canvas; canvas; canvas]).
  assert (HT0f : ∀ j s, frames !! j = Some s → T0 !! (0 + j)%nat = Some s).
  { intros j s Hj. subst T0. by rewrite (lookup_app_l_Some _ _ _ _ Hj). }
  assert (HT0b : ∀ j s, backgrounds !! j = Some s →
                        T0 !! (N + j)%nat = Some s).
  { intros j s Hj. subst T0.
    rewrite lookup_app_r by (fold N; lia). fold N.
    replace (N + j - N)%nat with j by lia. by apply lookup_app_l_Some. }
  assert (HT0t : ∀ i, (i < 3)%nat → T0 !! (rtT + i)%nat = Some canvas).
  { intros i Hi. subst T0. rewrite app_assoc.
    rewrite lookup_app_r by (rewrite length_app; fold N M rtT; lia).
    rewrite length_app. fold N M rtT.
    replace (rtT + i - rtT)%nat with i by lia.
    by destruct i as [|[|[|]]]; [..|lia]. }
  assert (HT0len : length T0 = (rtT + 3)%nat).
  { subst T0. rewrite !length_app. simpl. fold N M rtT. lia. }
  pose proof (HT0t 0%nat ltac:(lia)) as Hrt0.
  pose proof (HT0t 1%nat ltac:(lia)) as Htm0.
  pose proof (HT0t 2%nat ltac:(lia)) as Hst0.
  rewrite Nat.add_0_r in Hrt0.
  replace (rtT + 1)%nat with tmplT in Htm0 by (unfold tmplT; lia).
  replace (rtT + 2)%nat with stT in Hst0 by (unfold stT, tmplT; lia).
  mrun apply CreateTexture2D_eq. rewrite length_app. fold N M rtT.
  mrun (apply CreateBitmapFromTexture_ok;
        replace rtT with (length (frames ++ backgrounds))
          by (by rewrite length_app);
        apply lookup_new_texture).
  mrun apply CreateTexture2D_eq.
  replace (length ((frames ++ backgrounds) ++ [blank _ _])) with tmplT
    by (rewrite !length_app; simpl; fold N M rtT; unfold tmplT; lia).
  mrun (apply CreateBitmapFromTexture_ok;
        replace tmplT with (length ((frames ++ backgrounds) ++ [canvas]))
          by (rewrite !length_app; simpl; fold N M rtT; unfold tmplT; lia);
        apply lookup_new_texture).
  cbn [Width Height MipLevels ArraySize Format SampleDesc_Count].
  mrun apply CreateTexture2D_eq.
  rewrite <-!app_assoc. cbn [app].
  cbn [Width Height]. fold canvas. fold T0.
  replace (length (frames ++ backgrounds ++ [canvas; canvas])) with stT
    by (rewrite !length_app; simpl; fold N M; unfold stT, tmplT, rtT; lia).
  mrun apply SetTarget_eq. mrun apply BeginDraw_eq.
  mrun (apply Clear_ok; by apply Htm0).
  mrun (apply (draw_backgrounds_ok blend tmplT backgrounds N);
        [ intros j s Hj; pose proof (lookup_lt_Some _ _ _ Hj);
          rewrite list_lookup_insert_ne by (unfold tmplT, rtT, M; lia);
          by apply HT0b
        | apply list_lookup_insert_eq; unfold tmplT; lia
        | unfold tmplT, rtT; fold M; lia ]).
  rewrite list_insert_insert_eq. fold white. fold template.
  mrun apply EndDraw_eq. cbn [andb negb].
  mrun reflexivity.
  mrun apply SetTarget_eq. mrun apply emit_eq.
  mrun (unfold CreateGifEncoderAsync; mrun apply emit_eq; apply emit_eq).
  mrun (apply (encode_frames_ok blend frames 0 tmplT rtT stT template
                 frameSize Hmax) with (rest := frames) (k := O)
                 (rt := canvas) (st := canvas);
        [ unfold tmplT; lia | unfold stT, tmplT; lia | unfold stT; lia
        | intros j Hj; fold N in Hj; unfold rtT, stT, tmplT; lia
        | done | lia
        | unfold bitmaps_from; rewrite length_fmap, length_seq; fold N; lia
        | intros j s Hj; pose proof (lookup_lt_Some _ _ _ Hj);
          rewrite list_lookup_insert_ne by (unfold tmplT, rtT, N; lia);
          by apply HT0f
        | apply list_lookup_insert_eq; unfold tmplT; lia
        | rewrite list_lookup_insert_ne by (unfold tmplT; lia); done
        | rewrite list_lookup_insert_ne by (unfold stT; lia); done
        | done ]).
  mrun apply emit_eq.
  rewrite emit_eq. f_equal. f_equal.
  - by destruct frames.
  - unfold setup_events, template_events, encoder_events, closing_events,
      startup_events.
    repeat (progress (cbn [app]; rewrite <-?app_assoc)). reflexivity.
Qed.
End Run.

(** ** Reading the log of a run *)

Lemma filter_none (p : Event → bool) l :
  Forall (fun e => p e = false) l → List.filter p l = [].
Proof.
  induction 1 as [|e l He _ IH]; simpl; [done|]. by rewrite He.
Qed.

Lemma omap_none {B} (g : Event → option B) l :
  Forall (fun e => g e = None) l → omap g l = [].
Proof.
  induction 1 as [|e l He _ IH]; simpl; [done|]. by rewrite He.
Qed.

Lemma count_app p l1 l2 : count p (l1 ++ l2) = (count p l1 + count p l2)%nat.
Proof. unfold count. by rewrite List.filter_app, length_app. Qed.

Lemma loading_not_rendering e : is_loading_event e = true → not_rendering e.
Proof. by destruct e. Qed.

Lemma loading_is_setup e : is_loading_event e = true → is_setup_event e = true.
Proof. unfold is_setup_event. by intros ->. Qed.

Lemma load_events_loading files : ∀ n,
  Forall (fun e => is_loading_event e = true) (load_events files n).
Proof.
  induction files as [|f files IH]; intros n; simpl; [done|].
  repeat constructor. apply IH.
Qed.

Lemma loading_log_loading fs path entries n :
  Forall (fun e => is_loading_event e = true)
         (loading_log fs path entries n).
Proof.
  unfold loading_log. apply Forall_app. split; [by repeat constructor|].
  apply load_events_loading.
Qed.

Lemma startup_events_loading dbg :
  Forall (fun e => is_loading_event e = true) (startup_events dbg).
Proof. by repeat constructor. Qed.

Lemma setup_events_setup fs dbg fp bp op fe be N rtT fsz :
  Forall (fun e => is_setup_event e = true)
         (setup_events fs dbg fp bp op fe be N rtT fsz).
Proof.
  unfold setup_events. rewrite !Forall_app. split_and!.
  - eapply Forall_impl; [apply startup_events_loading|apply loading_is_setup].
  - eapply Forall_impl; [apply loading_log_loading|apply loading_is_setup].
  - eapply Forall_impl; [apply loading_log_loading|apply loading_is_setup].
  - by repeat constructor.
Qed.

Lemma setup_kind_filter (p : Event → bool) fs dbg fp bp op fe be N rtT fsz :
  (∀ e, is_setup_event e = true → p e = false) →
  List.filter p (setup_events fs dbg fp bp op fe be N rtT fsz) = [].
Proof.
  intros Hp. apply filter_none.
  eapply Forall_impl; [apply setup_events_setup|done].
Qed.

Lemma setup_kind_omap {B} (g : Event → option B) fs dbg fp bp op fe be N rtT fsz :
  (∀ e, is_setup_event e = true → g e = None) →
  omap g (setup_events fs dbg fp bp op fe be N rtT fsz) = [].
Proof.
  intros Hp. apply omap_none.
  eapply Forall_impl; [apply setup_events_setup|done].
Qed.

Lemma filter_DrawBitmap (p : Event → bool) bitmaps :
  (∀ bitmap, p (EvDrawBitmap bitmap) = true) →
  List.filter p (EvDrawBitmap <$> bitmaps) = EvDrawBitmap <$> bitmaps.
Proof.
  intros Hp. induction bitmaps as [|x bitmaps IH]; [done|].
  rewrite fmap_cons. cbn [List.filter]. by rewrite Hp, IH.
Qed.

Lemma filter_DrawBitmap_none (p : Event → bool) bitmaps :
  (∀ bitmap, p (EvDrawBitmap bitmap) = false) →
  List.filter p (EvDrawBitmap <$> bitmaps) = [].
Proof.
  intros Hg. apply filter_none, Forall_fmap, Forall_forall. intros ??. apply Hg.
Qed.

Lemma omap_DrawBitmap {B} (g : Event → option B) bitmaps :
  (∀ bitmap, g (EvDrawBitmap bitmap) = None) →
  omap g (EvDrawBitmap <$> bitmaps) = [].
Proof.
  intros Hg. apply omap_none, Forall_fmap, Forall_forall. intros ??. apply Hg.
Qed.

Section EncodeEvents.
Context (blend : Pixel → Pixel → Pixel) (template : Surface).
Context (tmplT rtT stT : nat) (frameSize : nat * nat).

Local Abbreviation events :=
  (encode_events blend template tmplT rtT stT frameSize).

Lemma encode_events_render frames : ∀ i target,
  List.filter is_render_event (events i frames target) =
    bitmaps_from i (length frames) ≫= pass_events tmplT rtT stT.
Proof.
  induction frames as [|frame frames IH]; intros i target; [done|].
  unfold bitmaps_from.
  cbn [encode_events length seq fmap list_fmap mbind list_bind].
  rewrite !List.filter_app, IH.
  unfold pass_events, write_events. simpl.
  by case_bool_decide.
Qed.

Lemma encode_events_write frames : ∀ i target,
  List.filter is_write_event (events i frames target) =
    (surface_bytes <$> rendered_frames blend template frames target)
      ≫= write_events frameSize.
Proof.
  induction frames as [|frame frames IH]; intros i target; [done|].
  cbn [encode_events rendered_frames fmap list_fmap mbind list_bind].
  rewrite !List.filter_app, IH.
  unfold pass_events, write_events. simpl.
  by case_bool_decide.
Qed.

Lemma encode_events_schedule frames : ∀ i target,
  schedule (events i frames target) = frames_schedule (length frames).
Proof.
  unfold schedule.
  induction frames as [|frame frames IH]; intros i target; [done|].
  cbn [encode_events length]. rewrite !omap_app, IH.
  unfold pass_events, write_events. simpl.
  by destruct frames.
Qed.

Lemma encode_events_advance frames : ∀ i target,
  length (List.filter is_advance (events i frames target)) =
    (length frames - 1)%nat.
Proof.
  induction frames as [|frame frames IH]; intros i target; [done|].
  cbn [encode_events length]. rewrite !List.filter_app, !length_app, IH.
  unfold pass_events, write_events.
  destruct frames; simpl; [done|]. lia.
Qed.

Lemma encode_events_other (p : Event → bool) frames : ∀ i target,
  (∀ e, is_render_event e = true → p e = false) →
  (∀ e, is_write_event e = true → p e = false) →
  p EvGoToNextFrame = false →
  List.filter p (events i frames target) = [].
Proof.
  intros i target Hr Hw Ha. revert i target.
  induction frames as [|frame frames IH]; intros i target; [done|].
  cbn [encode_events]. rewrite !List.filter_app, IH.
  unfold pass_events, write_events. simpl.
  rewrite !Hr, !Hw by done. case_bool_decide; simpl; [done|].
  by rewrite Ha.
Qed.

Lemma rendered_frames_length : ∀ frames target,
  length (rendered_frames blend template frames target) = length frames.
Proof. induction frames; intros; simpl; auto. Qed.
End EncodeEvents.

(** ** Pixel facts *)

Lemma flatten_size blend backgrounds : ∀ canvas,
  surface_size (flatten blend backgrounds canvas) = surface_size canvas.
Proof.
  induction backgrounds as [|s backgrounds IH]; intros canvas; [done|].
  simpl. by rewrite IH.
Qed.

Lemma clear_blank w h : clear_surface white (blank w h) = white_canvas w h.
Proof.
  unfold clear_surface, blank, white_canvas. simpl.
  by rewrite length_replicate.
Qed.

Lemma flatten_snoc blend earlier last canvas :
  flatten blend (earlier ++ [last]) canvas =
    draw_bitmap blend last (flatten blend earlier canvas).
Proof. unfold flatten. by rewrite fold_left_app. Qed.

(** Where the surface drawn is opaque, and the device's blend lets an
    opaque texel cover what is under it, the result shows that surface. *)
Lemma draw_bitmap_opaque blend src dst i p :
  (∀ s d, px_a s = 255 → blend s d = s) →
  surface_size src = surface_size dst →
  length (pixels src) = (width src * height src)%nat →
  length (pixels dst) = length (pixels src) →
  pixels src !! i = Some p → px_a p = 255 →
  pixels (draw_bitmap blend src dst) !! i = Some p.
Proof.
  intros Hblend [= Hw Hh] Hlen Hdst Hi Hp.
  pose proof (lookup_lt_Some _ _ _ Hi) as Hlt.
  destruct (lookup_lt_is_Some_2 (pixels dst) i) as [d Hd]; [lia|].
  unfold draw_bitmap. cbn [pixels].
  rewrite list_lookup_imap, Hd. simpl.
  unfold source_texel. rewrite <-Hw.
  assert (width src ≠ 0)%nat by (intros Hz; rewrite Hz in Hlen; simpl in *; lia).
  assert (Hx : (i mod width src < width src)%nat) by (by apply Nat.mod_upper_bound).
  assert (Hy : (i / width src < height src)%nat).
  { apply Nat.Div0.div_lt_upper_bound. lia. }
  rewrite (proj2 (Nat.ltb_lt _ _) Hx), (proj2 (Nat.ltb_lt _ _) Hy). simpl.
  replace (i / width src * width src + i mod width src)%nat with i
    by (rewrite (Nat.div_mod_eq i (width src)) at 1; lia).
  by rewrite Hi, Hblend.
Qed.

Lemma flatten_length blend backgrounds : ∀ canvas,
  length (pixels (flatten blend backgrounds canvas)) = length (pixels canvas).
Proof.
  induction backgrounds as [|s backgrounds IH]; intros canvas; [done|].
  simpl. rewrite IH. simpl. apply length_imap.
Qed.

(** The background drawn last covers the earlier ones wherever it is
    opaque. *)
Lemma last_background_on_top blend earlier last w h i p :
  (∀ s d, px_a s = 255 → blend s d = s) →
  surface_size last = (w, h) →
  length (pixels last) = (w * h)%nat →
  pixels last !! i = Some p → px_a p = 255 →
  pixels (flatten blend (earlier ++ [last]) (white_canvas w h)) !! i = Some p.
Proof.
  intros Hblend Hsz Hlen Hi Hp. rewrite flatten_snoc.
  injection Hsz as Hw Hh.
  apply draw_bitmap_opaque; try done.
  - rewrite flatten_size. unfold surface_size. simpl. by rewrite Hw, Hh.
  - by rewrite Hw, Hh.
  - rewrite flatten_length. simpl. by rewrite length_replicate.
Qed.

(** Texel by texel: a surface of the size of the target, drawn at the
    origin, lands texel on texel. *)
Lemma draw_bitmap_lookup blend W H src dst i d :
  surface_size src = (W, H) → width dst = W →
  (i < W * H)%nat → pixels dst !! i = Some d →
  pixels (draw_bitmap blend src dst) !! i = Some (over_at blend i d src).
Proof.
  intros [= Hw Hh] Hwd Hi Hd.
  unfold draw_bitmap. cbn [pixels].
  rewrite list_lookup_imap, Hd. simpl. f_equal.
  unfold source_texel, over_at. rewrite Hwd, Hw, Hh.
  assert (W ≠ 0)%nat by (intros ->; lia).
  assert (Hx : (i mod W < W)%nat) by (by apply Nat.mod_upper_bound).
  assert (Hy : (i / W < H)%nat)
    by (apply Nat.Div0.div_lt_upper_bound; lia).
  rewrite (proj2 (Nat.ltb_lt _ _) Hx), (proj2 (Nat.ltb_lt _ _) Hy). simpl.
  replace (i / W * W + i mod W)%nat with i
    by (rewrite (Nat.div_mod_eq i W) at 1; lia).
  done.
Qed.

Lemma flatten_lookup blend W H backgrounds i :
  Forall (fun s => surface_size s = (W, H)) backgrounds →
  (i < W * H)%nat →
  ∀ canvas d,
    width canvas = W → pixels canvas !! i = Some d →
    pixels (flatten blend backgrounds canvas) !! i =
      Some (composite_at blend backgrounds i d).
Proof.
  intros Hsize Hi.
  induction Hsize as [|background backgrounds Hs _ IH]; intros canvas d Hw Hd;
    [done|].
  cbn [flatten composite_at fold_left].
  apply (IH (draw_bitmap blend background canvas)); [done|].
  by apply (draw_bitmap_lookup blend W H).
Qed.

Lemma composite_at_app blend earlier later i under :
  composite_at blend (earlier ++ later) i under =
    composite_at blend later i (composite_at blend earlier i under).
Proof. unfold composite_at. by rewrite fold_left_app. Qed.

(** ** The files of a directory *)

Lemma files_of_kept entries :
  files_of entries =
    std_sort (filter (fun e => Is_true (png_entry e)) entries).*1.
Proof. unfold files_of. by rewrite collect_files_filter. Qed.

Lemma files_of_order_free entries entries' :
  entries ≡ₚ entries' → files_of entries' = files_of entries.
Proof.
  intros E. rewrite !files_of_kept. apply std_sort_order_free.
  by rewrite E.
Qed.

Lemma load_images_nil entries :
  load_images entries = Some [] → files_of entries = [].
Proof.
  unfold load_images. intros H. apply length_mapM in H.
  by destruct (files_of entries).
Qed.

Lemma bitmaps_from_view (t images : list Surface) :
  Forall2 (fun bitmap image => (t ++ images) !! dxgiSurface bitmap = Some image)
          (bitmaps_from (length t) (length images)) images.
Proof.
  apply Forall2_same_length_lookup. split.
  { unfold bitmaps_from. by rewrite length_fmap, length_seq. }
  intros i bitmap image Hb Hi. unfold bitmaps_from in Hb.
  rewrite list_lookup_fmap in Hb.
  destruct (seq _ _ !! i) as [j|] eqn:Hj; [|done].
  apply lookup_seq in Hj as [-> _]. injection Hb as <-. simpl.
  by rewrite lookup_app_r, Nat.add_comm, Nat.add_sub by lia.
Qed.

(** ** Runs that stop at a size check *)

Section Mismatch.
Context (blend : Pixel → Pixel → Pixel) (fs : FileSystem).
Context (useDebugLayer : bool).
Context (framesPath backgroundPath outputPath : wstring).
Context (fentries bentries : list (wstring * FsNode)).
Context (frames backgrounds : list Surface) (frame0 : Surface).
Context (Hfs : fs framesPath = Some (Folder fentries)).
Context (Hframes : load_images fentries = Some frames).
Context (Hhead : head frames = Some frame0).
Context (Hbs : fs backgroundPath = Some (Folder bentries)).
Context (Hbackgrounds : load_images bentries = Some backgrounds).

Lemma size_check_throws :
  Exists (fun s => surface_size s ≠ surface_size frame0)
         (frames ++ backgrounds) →
  ∃ message w',
    MainAsync blend fs useDebugLayer framesPath backgroundPath outputPath
              initial_world =
      (Throw (hresult_invalid_argument message), w')
    ∧ classify (hresult_invalid_argument message) = DimensionMismatchError
    ∧ Forall not_rendering (log w').
Proof using All.
  intros Hex.
  assert (Hh : surface_size <$> head frames = Some (surface_size frame0))
    by (by rewrite Hhead).
  destruct (decide (Exists (fun s => surface_size s ≠ surface_size frame0)
                           frames)) as [Hf|Hf].
  - eexists _, _. split; [by eapply MainAsync_frame_mismatch|].
    split; [done|]. cbn [log].
    eapply Forall_impl; [|apply loading_not_rendering].
    apply Forall_app; auto using startup_events_loading, loading_log_loading.
  - apply Exists_app in Hex as [Hex|Hex]; [done|].
    apply not_Exists_Forall in Hf; [|intros ?; apply _].
    eexists _, _. split.
    { eapply MainAsync_background_mismatch; try done.
      eapply Forall_impl; [exact Hf|]. simpl. intros s Hs.
      by destruct (decide (surface_size s = surface_size frame0)). }
    split; [done|]. cbn [log].
    eapply Forall_impl; [|apply loading_not_rendering].
    rewrite !Forall_app.
    auto using startup_events_loading, loading_log_loading.
Qed.
End Mismatch.

(** ** Runs that encode *)

Section EncodedRun.
Context (blend : Pixel → Pixel → Pixel) (fs : FileSystem).
Context (useDebugLayer : bool).
Context (framesPath backgroundPath outputPath : wstring).
Context (fentries bentries : list (wstring * FsNode)).
Context (frames backgrounds : list Surface) (W H : nat).
Context (Hfs : fs framesPath = Some (Folder fentries)).
Context (Hframes : load_images fentries = Some frames).
Context (Hne : frames ≠ []).
Context (Hfsize : Forall (fun s => surface_size s = (W, H)) frames).
Context (Hbs : fs backgroundPath = Some (Folder bentries)).
Context (Hbackgrounds : load_images bentries = Some backgrounds).
Context (Hbsize : Forall (fun s => surface_size s = (W, H)) backgrounds).
Context (Hmax : size frames ≤ INT_MAX).

Local Abbreviation run :=
  (MainAsync blend fs useDebugLayer framesPath backgroundPath outputPath
             initial_world).
Local Abbreviation N := (length frames).
Local Abbreviation M := (length backgrounds).
Local Abbreviation the_log :=
  (run_log blend fs useDebugLayer framesPath backgroundPath outputPath
           fentries bentries frames backgrounds (W, H)).
Local Abbreviation template :=
  (flatten blend backgrounds (white_canvas W H)).

Lemma encoded_run :
  run = (Val tt,
         mkWorld (final_textures blend frames backgrounds (W, H))
                 (Some (mkBitmap (N + M))) false false the_log).
Proof using All.
  eapply MainAsync_ok; try done.
  destruct frames as [|f0 ?]; [done|].
  by apply Forall_cons in Hfsize as [<- _].
Qed.

Lemma the_log_filter (p : Event → bool) :
  (∀ e, is_setup_event e = true → p e = false) →
  List.filter p the_log =
    List.filter p (template_events N M)
    ++ List.filter p (encoder_events (N + M))
    ++ List.filter p
         (encode_events blend
            (flatten blend backgrounds (clear_surface white (blank W H)))
            (S (N + M)) (N + M) (S (S (N + M))) (W, H) 0 frames (blank W H))
    ++ List.filter p closing_events.
Proof using Type.
  intros Hp. unfold run_log. cbv zeta.
  by rewrite !List.filter_app, setup_kind_filter.
Qed.

Lemma the_log_render :
  List.filter is_render_event the_log =
    template_events N M
    ++ [EvSetTarget (mkBitmap (N + M))]
    ++ (bitmaps_from 0 N ≫= pass_events (S (N + M)) (N + M) (S (S (N + M)))).
Proof using Type.
  rewrite the_log_filter by (by intros []).
  rewrite encode_events_render.
  unfold template_events. rewrite !List.filter_app, filter_DrawBitmap by done.
  simpl. by rewrite app_nil_r.
Qed.

Lemma the_log_schedule :
  schedule the_log = frames_schedule N ++ [Finish].
Proof using Type.
  unfold schedule, run_log. cbv zeta.
  rewrite !omap_app, setup_kind_omap by (by intros []).
  fold (schedule (encode_events blend
            (flatten blend backgrounds (clear_surface white (blank W H)))
            (S (N + M)) (N + M) (S (S (N + M))) (W, H) 0 frames (blank W H))).
  rewrite encode_events_schedule.
  unfold template_events. rewrite !omap_app, omap_DrawBitmap by done.
  done.
Qed.

Lemma the_log_first_target :
  first_target the_log = Some (mkBitmap (S (N + M))).
Proof using Type.
  unfold first_target, run_log. cbv zeta.
  by rewrite !omap_app, setup_kind_omap by (by intros []).
Qed.

Lemma final_template :
  final_textures blend frames backgrounds (W, H) !! S (N + M) = Some template.
Proof using Type.
  unfold final_textures. cbv zeta. cbn [fst snd].
  rewrite clear_blank.
  rewrite !list_lookup_insert_ne by lia.
  apply list_lookup_insert_eq. rewrite !length_app. simpl. lia.
Qed.

Lemma final_frames i frame :
  frames !! i = Some frame →
  final_textures blend frames backgrounds (W, H) !! i = Some frame.
Proof using Type.
  intros Hi. pose proof (lookup_lt_Some _ _ _ Hi).
  unfold final_textures. cbv zeta.
  rewrite !list_lookup_insert_ne by lia.
  by apply lookup_app_l_Some.
Qed.

(** C1.  Whatever the backgrounds (none included) and the frame size
    [(W, H)], with a device that blends source-over the run goes through
    and the background template, the surface behind the first target of
    the device context, still holds at the end of the run a [W] by [H]
    image.  It is the opaque white canvas when there is no background.
    Otherwise each of its texels is the white texel with the texels of the
    backgrounds at that place blended onto it one after the other, in the
    order of the loaded vector (the order of the sorted file names).  So a
    later background hides the earlier ones, and the white, wherever it is
    opaque: the texel only shows that background's and what the
    backgrounds after it make of it; and where a background is fully
    transparent the backgrounds before it show as if it were not there. *)
Theorem background_template :
  source_over blend →
  ∃ w' tmpl,
    run = (Val tt, w')
    ∧ template_of w' = Some tmpl
    ∧ width tmpl = W ∧ height tmpl = H
    ∧ length (pixels tmpl) = (W * H)%nat
    ∧ (backgrounds = [] → tmpl = white_canvas W H)
    ∧ tmpl = fold_left (fun canvas background =>
                          draw_bitmap blend background canvas)
                       backgrounds (white_canvas W H)
    ∧ (∀ earlier last, backgrounds = earlier ++ [last] →
         tmpl = draw_bitmap blend last
                  (flatten blend earlier (white_canvas W H)))
    ∧ (∀ i, (i < W * H)%nat →
         pixels tmpl !! i =
           Some (composite_at blend backgrounds i (mkPixel 255 255 255 255)))
    ∧ (∀ earlier background later i p,
         backgrounds = earlier ++ background :: later →
         (i < W * H)%nat →
         pixels background !! i = Some p → px_a p = 255 →
         pixels tmpl !! i = Some (composite_at blend later i p))
    ∧ (∀ earlier background later i,
         backgrounds = earlier ++ background :: later →
         (i < W * H)%nat →
         pixels background !! i = Some transparent_black →
         pixels tmpl !! i =
           Some (composite_at blend (earlier ++ later) i
                              (mkPixel 255 255 255 255))).
Proof using All.
  intros [Hcover Hclear].
  eexists _, template. split; [apply encoded_run|].
  split.
  { unfold template_of. cbn [log textures].
    rewrite the_log_first_target. simpl. apply final_template. }
  pose proof (flatten_size blend backgrounds (white_canvas W H)) as [= Hw Hh].
  assert (Htexel : ∀ i, (i < W * H)%nat →
            pixels template !! i =
              Some (composite_at blend backgrounds i
                                 (mkPixel 255 255 255 255))).
  { intros i Hi. apply (flatten_lookup blend W H); try done.
    simpl. by apply lookup_replicate_2. }
  split_and!; try done.
  - rewrite flatten_length. simpl. apply length_replicate.
  - by intros ->.
  - intros earlier last ->. apply flatten_snoc.
  - intros earlier background later i p -> Hi Hp Ha.
    rewrite (Htexel i Hi). f_equal.
    rewrite composite_at_app. cbn [composite_at fold_left].
    unfold over_at at 2. by rewrite Hp, Hcover.
  - intros earlier background later i -> Hi Hp.
    rewrite (Htexel i Hi). f_equal.
    rewrite !composite_at_app. cbn [composite_at fold_left].
    unfold over_at at 2. by rewrite Hp, Hclear.
Qed.

(** C3.  In a run that reaches the encoder, the creation of the encoder is
    followed at once by one write of the container properties: the
    application block, the 11 ASCII codes of NETSCAPE2.0, and the data
    block 3, 1, 0, 0, 0.  No encoder call comes before them, so no frame
    has been written yet, and the container properties are not written
    again afterwards. *)
Theorem container_properties_once :
  ∃ w' before after,
    run = (Val tt, w')
    ∧ log w' =
        before
        ++ [EvCreateEncoder;
            EvSetContainerProperties
              [ (L "/appext/application",
                 UInt8Array ((fun c : ascii => Z.of_N (N_of_ascii c))
                               <$> list_ascii_of_string "NETSCAPE2.0"));
                (L "/appext/data", UInt8Array [3; 1; 0; 0; 0]) ]]
        ++ after
    ∧ length (list_ascii_of_string "NETSCAPE2.0") = 11%nat
    ∧ count is_encoder_event before = 0%nat
    ∧ count is_container_event after = 0%nat.
Proof using All.
  eexists _,
    (setup_events fs useDebugLayer framesPath backgroundPath outputPath
                  fentries bentries N (N + M) (W, H)
     ++ template_events N M
     ++ [EvSetTarget (mkBitmap (N + M)); EvOpenAsync ReadWrite]),
    (encode_events blend
       (flatten blend backgrounds (clear_surface white (blank W H)))
       (S (N + M)) (N + M) (S (S (N + M))) (W, H) 0 frames (blank W H)
     ++ closing_events).
  split; [apply encoded_run|]. split_and!.
  - cbn [log]. unfold run_log, encoder_events. cbv zeta.
    by rewrite <-!app_assoc.
  - done.
  - unfold count, template_events.
    rewrite !List.filter_app, setup_kind_filter by (by intros []).
    by rewrite filter_DrawBitmap_none.
  - unfold count.
    rewrite List.filter_app, encode_events_other by (done || by intros []).
    done.
Qed.

(** C4.  The calls that hand the frames to the encoder are, for each
    rendered frame in turn, one write of the frame properties that sets the
    delay to the 16-bit value 13, then one commit of the pixel data as
    BGRA8 with premultiplied alpha, the width and height of the frames,
    both DPI values 1, and the bytes of that rendered frame; there are as
    many such pairs as frames. *)
Theorem frame_delay_and_pixels :
  ∃ w' images,
    run = (Val tt, w')
    ∧ images = rendered_frames blend template frames (blank W H)
    ∧ length images = N
    ∧ List.filter is_write_event (log w') =
        images ≫= (fun image =>
          [ EvSetFrameProperties [(L "/grctlext/Delay", UInt16 13)];
            EvSetPixelData Bgra8 Premultiplied W H 1 1 (surface_bytes image) ])
    ∧ 0 ≤ 13 < 2 ^ 16.
Proof using All.
  eexists _, _. split; [apply encoded_run|]. split; [done|].
  split; [apply rendered_frames_length|]. split; [|lia].
  cbn [log]. rewrite the_log_filter by (by intros []).
  rewrite encode_events_write, clear_blank.
  unfold template_events.
  rewrite !List.filter_app, filter_DrawBitmap_none by done.
  simpl. rewrite app_nil_r.
  generalize (rendered_frames blend template frames (blank W H)).
  intros images. induction images as [|image images IH]; [done|].
  rewrite fmap_cons. cbn [mbind list_bind]. by rewrite IH.
Qed.

(** C5.  A run over [N] frames, [N] at least one, advances the encoder
    [N - 1] times and flushes it once; the encoder sees metadata then
    pixels for each frame, an advance between two frames and none after
    the last, and the flush after all of them. *)
Theorem frame_advance_and_flush :
  ∃ w',
    run = (Val tt, w')
    ∧ count is_advance (log w') = (N - 1)%nat
    ∧ count is_flush (log w') = 1%nat
    ∧ schedule (log w') = frames_schedule N ++ [Finish].
Proof using All.
  eexists. split; [apply encoded_run|]. cbn [log]. split_and!.
  - unfold count. rewrite the_log_filter by (by intros []).
    rewrite !length_app, encode_events_advance.
    unfold template_events.
    rewrite !List.filter_app, filter_DrawBitmap_none by done.
    simpl. lia.
  - unfold count. rewrite the_log_filter by (by intros []).
    rewrite encode_events_other by (done || by intros []).
    unfold template_events.
    rewrite !List.filter_app, filter_DrawBitmap_none by done.
    done.
  - apply the_log_schedule.
Qed.

(** C6.  After the template pass and the switch of the target to the
    render target, the drawing and copying calls of the run are, for the
    frames in ascending order, exactly: begin the pass, draw the template,
    draw the frame, end the pass, copy the render target to the staging
    texture, read the staging texture back.  The pass of a frame therefore
    begins only after the bytes of the frame before it were read.  The
    bitmap drawn first is the template and the [i]-th frame bitmap views
    the [i]-th loaded frame. *)
Theorem frame_render_sequence :
  ∃ w',
    run = (Val tt, w')
    ∧ List.filter is_render_event (log w') =
        template_events N M
        ++ [EvSetTarget (mkBitmap (N + M))]
        ++ (bitmaps_from 0 N ≫= fun frame =>
              [ EvBeginDraw;
                EvDrawBitmap (mkBitmap (S (N + M)));
                EvDrawBitmap frame;
                EvEndDraw;
                EvCopyResource (S (S (N + M))) (N + M);
                EvCopyBytesFromTexture (S (S (N + M))) ])
    ∧ first_target (log w') = Some (mkBitmap (S (N + M)))
    ∧ (∀ i frame, frames !! i = Some frame → textures w' !! i = Some frame).
Proof using All.
  eexists. split; [apply encoded_run|]. cbn [log textures]. split_and!.
  - apply the_log_render.
  - apply the_log_first_target.
  - apply final_frames.
Qed.
End EncodedRun.

(** ** The loader, the early return and the aborts *)

(** C7.  [LoadBitmapsAsync] on a path that does not exist, or that is not
    a directory, throws an error of the invalid-path class.  On a
    directory it keeps the names of the direct children that are regular
    files with the extension [.png], sorted in ascending lexicographic
    order of their code units, whatever the order the directory lists them
    in; when each of them decodes, it returns one bitmap per name, in that
    order, over the decoded image, having decoded them in that order, and
    when one does not it throws the platform's error. *)
Theorem LoadBitmapsAsync_contract (fs : FileSystem) (path : wstring)
    (w : World) :
  match fs path with
  | None =>
      ∃ w', LoadBitmapsAsync fs path w = (Throw (filesystem_error path), w')
            ∧ classify (filesystem_error path) = InvalidPathError
  | Some (Folder entries) =>
      let kept := (filter (fun e => Is_true (png_entry e)) entries).*1 in
      let files := files_of entries in
      files ≡ₚ kept
      ∧ Sorted wstring_le files
      ∧ (∀ entries', entries ≡ₚ entries' → files_of entries' = files)
      ∧ match mapM (image_of entries) files with
        | Some images =>
            ∃ bitmaps w',
              LoadBitmapsAsync fs path w = (Val bitmaps, w')
              ∧ Forall2 (fun bitmap image =>
                           textures w' !! dxgiSurface bitmap = Some image)
                        bitmaps images
              ∧ omap (fun e => match e with
                               | EvLoadTextureFromStream name => Some name
                               | _ => None
                               end) (drop (length (log w)) (log w')) = files
        | None =>
            ∃ what w',
              LoadBitmapsAsync fs path w = (Throw (hresult_error what), w')
        end
  | Some _ =>
      ∃ w', LoadBitmapsAsync fs path w =
              (Throw (hresult_invalid_argument (L "Path was not a folder!")), w')
            ∧ classify (hresult_invalid_argument (L "Path was not a folder!"))
              = InvalidPathError
  end.
Proof.
  destruct w as [t tg d f l].
  destruct (fs path) as [[image|entries|]|] eqn:Hfs.
  - eexists. split; [|done]. by eapply LoadBitmapsAsync_not_folder.
  - cbv zeta. split_and!.
    + rewrite files_of_kept. apply std_sort_Permutation.
    + apply std_sort_Sorted.
    + apply files_of_order_free.
    + destruct (mapM _ _) as [images|] eqn:Hm.
      * eexists _, _. split; [by eapply LoadBitmapsAsync_ok|].
        cbn [textures log]. split; [apply bitmaps_from_view|].
        rewrite drop_app_length. unfold loading_log.
        rewrite omap_app. simpl.
        generalize (length t). generalize (files_of entries). clear.
        induction l as [|name files IH]; intros n; simpl; [done|].
        by rewrite IH.
      * by eapply LoadBitmapsAsync_undecodable.
  - eexists. split; [|done]. by eapply LoadBitmapsAsync_not_folder.
  - eexists. split; [|done]. by eapply LoadBitmapsAsync_missing.
Qed.

Section CommandLine.
Context (blend : Pixel → Pixel → Pixel) (fs : FileSystem).
Context (GetFlag : list wstring → wstring → bool).
Context (GetFlag_alias : list wstring → wstring → wstring → bool).
Context (GetFlagValue : list wstring → wstring → wstring → wstring).

(** A command line that parses leaves no trace. *)
Lemma ParseOptions_Valid args options0 w options w' :
  ParseOptions GetFlag GetFlag_alias GetFlagValue args options0 w =
    (Val (Valid, options), w') →
  w' = w.
Proof using Type.
  assert (Hseq : ∀ (m : M unit) (a b : CliResult * Options) w1 w2,
            (m;; mret a) w1 = (Val b, w2) → a = b).
  { intros m a b w1 w2. unfold mbind, M_bind.
    destruct (m w1) as [[[]|e] w3]; by intros [= <- _]. }
  unfold ParseOptions.
  destruct (_ || _); [by intros [=]%Hseq|].
  destruct (bool_decide _); [by intros [=]%Hseq|].
  destruct (bool_decide _); [by intros [=]%Hseq|].
  destruct (bool_decide _); [by intros [=]%Hseq|].
  by intros [= _ <-].
Qed.

(** C8.  When the command line is valid and the frames directory holds no
    image to load, [MainAsync] returns without an exception and [wmain]
    exits with code 0; the last thing the run did is print the no-frames
    message, and it made no rendering, encoder or output call: no frame
    was written. *)
Theorem empty_frame_set_exits_normally argv options w0 entries :
  ParseOptions GetFlag GetFlag_alias GetFlagValue (drop 1 argv)
               (mkOptions false [] [] []) initial_world =
    (Val (Valid, options), w0) →
  fs (FramesPath options) = Some (Folder entries) →
  load_images entries = Some [] →
  ∃ w',
    wmain blend fs GetFlag GetFlag_alias GetFlagValue argv initial_world =
      (Exit 0, w')
    ∧ MainAsync blend fs (UseDebugLayer options) (FramesPath options)
                (BackgroundPath options) (OutputPath options) w0 =
        (Val tt, w')
    ∧ last (log w') = Some (EvPrintf (L ("No frames found, exiting..." ++ nl)))
    ∧ Forall not_rendering (log w').
Proof using Type.
  intros Hcli Hfs Hload.
  pose proof (ParseOptions_Valid _ _ _ _ _ Hcli) as ->.
  pose proof (MainAsync_no_frames blend fs (UseDebugLayer options)
                (FramesPath options) (BackgroundPath options)
                (OutputPath options) entries [] Hfs Hload eq_refl) as Hrun.
  eexists. split_and!.
  - unfold wmain. by rewrite Hcli, Hrun.
  - exact Hrun.
  - cbn [log]. by rewrite !app_assoc, last_snoc.
  - cbn [log]. rewrite !Forall_app. split_and!.
    + eapply Forall_impl; [apply startup_events_loading|].
      apply loading_not_rendering.
    + eapply Forall_impl; [apply loading_log_loading|].
      apply loading_not_rendering.
    + by repeat constructor.
Qed.
End CommandLine.

(** C10.  When the frames directory holds no image to load, the run ends
    normally after these calls only: the start-up of the device, the three
    file-system calls for the frames path (the second and the third on its
    canonical form), the message.  The backgrounds path is never looked
    at: the outcome is the same whatever the backgrounds path is, and in
    every file system that agrees on the frames path, whatever the
    backgrounds path resolves to there, nothing or a file included. *)
Theorem backgrounds_untouched_without_frames blend (fs : FileSystem)
    useDebugLayer framesPath backgroundPath outputPath entries :
  fs framesPath = Some (Folder entries) →
  load_images entries = Some [] →
  MainAsync blend fs useDebugLayer framesPath backgroundPath outputPath
            initial_world =
    (Val tt,
     mkWorld [] None false false
       (startup_events useDebugLayer
        ++ [EvCanonical framesPath;
            EvDirectoryIterator (canonical_form fs framesPath);
            EvGetFolderFromPath (canonical_form fs framesPath)]
        ++ [EvPrintf (L ("No frames found, exiting..." ++ nl))]))
  ∧ ∀ (fs' : FileSystem) (backgroundPath' : wstring),
      fs' framesPath = fs framesPath →
      canonical_form fs' framesPath = canonical_form fs framesPath →
      MainAsync blend fs' useDebugLayer framesPath backgroundPath' outputPath
                initial_world =
      MainAsync blend fs useDebugLayer framesPath backgroundPath outputPath
                initial_world.
Proof.
  intros Hfs Hload.
  assert (Hrun : ∀ (fs' : FileSystem) (backgroundPath' : wstring),
    fs' framesPath = fs framesPath →
    canonical_form fs' framesPath = canonical_form fs framesPath →
    MainAsync blend fs' useDebugLayer framesPath backgroundPath' outputPath
              initial_world =
    (Val tt,
     mkWorld [] None false false
       (startup_events useDebugLayer
        ++ [EvCanonical framesPath;
            EvDirectoryIterator (canonical_form fs framesPath);
            EvGetFolderFromPath (canonical_form fs framesPath)]
        ++ [EvPrintf (L ("No frames found, exiting..." ++ nl))]))).
  { intros fs' backgroundPath' Hfs' Hcanonical. rewrite Hfs in Hfs'.
    rewrite (MainAsync_no_frames blend fs' useDebugLayer framesPath
               backgroundPath' outputPath entries [] Hfs' Hload eq_refl).
    unfold loading_log.
    by rewrite (load_images_nil _ Hload), app_nil_r, Hcanonical. }
  split; [by apply Hrun|].
  intros fs' backgroundPath' Hfs' Hcanonical.
  by rewrite (Hrun fs' backgroundPath' Hfs' Hcanonical),
       (Hrun fs backgroundPath eq_refl eq_refl).
Qed.

(** C2.  When the frames and the backgrounds load, the frame set is not
    empty, and some frame has another size than the first frame or some
    background has another size than the first frame, the run throws the
    invalid-argument exception of a size check, an error of the
    dimension-mismatch class, before it has made any rendering, encoder or
    output call. *)
Theorem dimension_mismatch_aborts blend (fs : FileSystem) useDebugLayer
    framesPath backgroundPath outputPath fentries bentries
    frames backgrounds frame0 :
  fs framesPath = Some (Folder fentries) →
  load_images fentries = Some frames →
  head frames = Some frame0 →
  fs backgroundPath = Some (Folder bentries) →
  load_images bentries = Some backgrounds →
  (Exists (fun frame => surface_size frame ≠ surface_size frame0) frames
   ∨ Exists (fun background => surface_size background ≠ surface_size frame0)
            backgrounds) →
  ∃ message w',
    MainAsync blend fs useDebugLayer framesPath backgroundPath outputPath
              initial_world =
      (Throw (hresult_invalid_argument message), w')
    ∧ classify (hresult_invalid_argument message) = DimensionMismatchError
    ∧ Forall not_rendering (log w')
    ∧ count is_render_event (log w') = 0%nat
    ∧ count is_encoder_event (log w') = 0%nat.
Proof.
  intros Hfs Hframes Hhead Hbs Hbackgrounds Hex.
  destruct (size_check_throws blend fs useDebugLayer framesPath backgroundPath
              outputPath fentries bentries frames backgrounds frame0)
    as (message & w' & Hrun & Hclass & Hlog); try done.
  { apply Exists_app. tauto. }
  exists message, w'. split_and!; try done.
  - unfold count. rewrite filter_none; [done|].
    eapply Forall_impl; [exact Hlog|]. by intros ? (? & ? & ?).
  - unfold count. rewrite filter_none; [done|].
    eapply Forall_impl; [exact Hlog|]. by intros ? (? & ? & ?).
Qed.

(** C9, amended.  When the frames and the backgrounds load and the frame
    set is not empty: if some frame or background has another size than
    the first frame, the run throws an error of the dimension-mismatch
    class before any rendering, encoder or output call; a frame set of
    exactly one frame is no such error, and with backgrounds of its size
    the run goes through and encodes that one frame. *)
Theorem mismatch_aborts_single_frame_passes blend (fs : FileSystem)
    useDebugLayer framesPath backgroundPath outputPath fentries bentries
    frames backgrounds frame0 :
  fs framesPath = Some (Folder fentries) →
  load_images fentries = Some frames →
  head frames = Some frame0 →
  fs backgroundPath = Some (Folder bentries) →
  load_images bentries = Some backgrounds →
  (Exists (fun s => surface_size s ≠ surface_size frame0)
          (frames ++ backgrounds) →
   ∃ message w',
     MainAsync blend fs useDebugLayer framesPath backgroundPath outputPath
               initial_world =
       (Throw (hresult_invalid_argument message), w')
     ∧ classify (hresult_invalid_argument message) = DimensionMismatchError
     ∧ Forall not_rendering (log w'))
  ∧ (frames = [frame0] →
     Forall (fun s => surface_size s = surface_size frame0) backgrounds →
     ∃ w',
       MainAsync blend fs useDebugLayer framesPath backgroundPath outputPath
                 initial_world = (Val tt, w')
       ∧ schedule (log w') = [Metadata; Pixels; Finish]).
Proof.
  intros Hfs Hframes Hhead Hbs Hbackgrounds. split.
  - by eapply size_check_throws.
  - intros -> Hbsize.
    eexists. split.
    + apply (encoded_run blend fs useDebugLayer framesPath backgroundPath
               outputPath fentries bentries [frame0] backgrounds
               (width frame0) (height frame0)); try done.
      by repeat constructor.
    + cbn [log]. by rewrite the_log_schedule.
Qed.

(** ** The statements on the sample inputs *)

Lemma sample_frames_loaded : load_images frames_dir = Some sample_frames.
Proof. vm_compute. reflexivity. Qed.

Lemma sample_backgrounds_loaded :
  load_images backgrounds_dir = Some sample_backgrounds.
Proof. vm_compute. reflexivity. Qed.

Lemma sample_size_ok : size sample_frames ≤ INT_MAX.
Proof. vm_compute. discriminate. Qed.

Lemma premultiplied_over_covers s d :
  px_a s = 255 → premultiplied_over s d = s.
Proof.
  destruct s as [sb sg sr sa]. simpl. intros ->.
  unfold premultiplied_over. simpl. rewrite !Z.mul_0_r. simpl.
  by rewrite !Z.add_0_r.
Qed.

Lemma premultiplied_over_keeps_opaque s d :
  px_a d = 255 → px_a (premultiplied_over s d) = 255.
Proof.
  intros Hd. unfold premultiplied_over. cbv zeta. cbn [px_a]. rewrite Hd.
  rewrite (Z.mul_comm 255), Z.div_mul by done. lia.
Qed.

Lemma premultiplied_over_source_over : source_over premultiplied_over.
Proof.
  split; [exact premultiplied_over_covers|].
  intros [db dg dr da]. unfold premultiplied_over. simpl.
  by rewrite !Z.div_mul.
Qed.

Lemma background_template_witness :
  ∃ w' tmpl,
    MainAsync premultiplied_over sample_fs false (L "frames")
              (L "backgrounds") (L "out.gif") initial_world = (Val tt, w')
    ∧ template_of w' = Some tmpl
    ∧ tmpl = mkSurface 2 1 [mkPixel 177 49 49 255; mkPixel 177 49 49 255]
    ∧ pixels tmpl !! 0%nat =
        Some (premultiplied_over half_blue
                (premultiplied_over grey (mkPixel 255 255 255 255))).
Proof.
  destruct (background_template premultiplied_over sample_fs false
              (L "frames") (L "backgrounds") (L "out.gif")
              frames_dir backgrounds_dir sample_frames sample_backgrounds 2 1)
    as (w' & tmpl & Hrun & Htmpl & _ & _ & _ & _ & Hfold & _ & Htexel & _).
  - reflexivity.
  - exact sample_frames_loaded.
  - discriminate.
  - repeat constructor.
  - reflexivity.
  - exact sample_backgrounds_loaded.
  - repeat constructor.
  - exact sample_size_ok.
  - exact premultiplied_over_source_over.
  - exists w', tmpl. split; [assumption|]. split; [assumption|].
    split; [rewrite Hfold; vm_compute; reflexivity|].
    exact (Htexel 0%nat (Nat.lt_0_succ 1)).
Defined.

Lemma container_properties_once_witness :
  ∃ w' before after,
    MainAsync premultiplied_over sample_fs false (L "frames")
              (L "backgrounds") (L "out.gif") initial_world = (Val tt, w')
    ∧ log w' =
        before
        ++ [EvCreateEncoder;
            EvSetContainerProperties
              [ (L "/appext/application",
                 UInt8Array [78; 69; 84; 83; 67; 65; 80; 69; 50; 46; 48]);
                (L "/appext/data", UInt8Array [3; 1; 0; 0; 0]) ]]
        ++ after
    ∧ count is_encoder_event before = 0%nat
    ∧ count is_container_event after = 0%nat.
Proof.
  destruct (container_properties_once premultiplied_over sample_fs false
              (L "frames") (L "backgrounds") (L "out.gif")
              frames_dir backgrounds_dir sample_frames sample_backgrounds 2 1)
    as (w' & before & after & Hrun & Hlog & _ & Hbefore & Hafter).
  - reflexivity.
  - exact sample_frames_loaded.
  - discriminate.
  - repeat constructor.
  - reflexivity.
  - exact sample_backgrounds_loaded.
  - repeat constructor.
  - exact sample_size_ok.
  - exists w', before, after. repeat split; assumption.
Defined.

Lemma frame_delay_and_pixels_witness :
  ∃ w',
    MainAsync premultiplied_over sample_fs false (L "frames")
              (L "backgrounds") (L "out.gif") initial_world = (Val tt, w')
    ∧ List.filter is_write_event (log w') =
        [ EvSetFrameProperties [(L "/grctlext/Delay", UInt16 13)];
          EvSetPixelData Bgra8 Premultiplied 2 1 1 1
                         [177; 49; 49; 255; 177; 49; 49; 255];
          EvSetFrameProperties [(L "/grctlext/Delay", UInt16 13)];
          EvSetPixelData Bgra8 Premultiplied 2 1 1 1
                         [0; 0; 255; 255; 0; 0; 255; 255] ].
Proof.
  destruct (frame_delay_and_pixels premultiplied_over sample_fs false
              (L "frames") (L "backgrounds") (L "out.gif")
              frames_dir backgrounds_dir sample_frames sample_backgrounds 2 1)
    as (w' & images & Hrun & Himages & _ & Hlog & _).
  - reflexivity.
  - exact sample_frames_loaded.
  - discriminate.
  - repeat constructor.
  - reflexivity.
  - exact sample_backgrounds_loaded.
  - repeat constructor.
  - exact sample_size_ok.
  - exists w'. split; [assumption|].
    rewrite Hlog, Himages. vm_compute. reflexivity.
Defined.

Lemma frame_advance_and_flush_witness :
  ∃ w',
    MainAsync premultiplied_over sample_fs false (L "frames")
              (L "backgrounds") (L "out.gif") initial_world = (Val tt, w')
    ∧ count is_advance (log w') = 1%nat
    ∧ count is_flush (log w') = 1%nat
    ∧ schedule (log w') =
        [Metadata; Pixels; Advance; Metadata; Pixels; Finish].
Proof.
  apply (frame_advance_and_flush premultiplied_over sample_fs false
           (L "frames") (L "backgrounds") (L "out.gif")
           frames_dir backgrounds_dir sample_frames sample_backgrounds 2 1).
  - reflexivity.
  - exact sample_frames_loaded.
  - discriminate.
  - repeat constructor.
  - reflexivity.
  - exact sample_backgrounds_loaded.
  - repeat constructor.
  - exact sample_size_ok.
Defined.

Lemma frame_render_sequence_witness :
  ∃ w',
    MainAsync premultiplied_over sample_fs false (L "frames")
              (L "backgrounds") (L "out.gif") initial_world = (Val tt, w')
    ∧ List.filter is_render_event (log w') =
        [ EvSetTarget (mkBitmap 5); EvBeginDraw; EvClear white;
          EvDrawBitmap (mkBitmap 2); EvDrawBitmap (mkBitmap 3); EvEndDraw;
          EvSetTarget (mkBitmap 4);
          EvBeginDraw; EvDrawBitmap (mkBitmap 5); EvDrawBitmap (mkBitmap 0);
          EvEndDraw; EvCopyResource 6 4; EvCopyBytesFromTexture 6;
          EvBeginDraw; EvDrawBitmap (mkBitmap 5); EvDrawBitmap (mkBitmap 1);
          EvEndDraw; EvCopyResource 6 4; EvCopyBytesFromTexture 6 ].
Proof.
  destruct (frame_render_sequence premultiplied_over sample_fs false
              (L "frames") (L "backgrounds") (L "out.gif")
              frames_dir backgrounds_dir sample_frames sample_backgrounds 2 1)
    as (w' & Hrun & Hlog & _).
  - reflexivity.
  - exact sample_frames_loaded.
  - discriminate.
  - repeat constructor.
  - reflexivity.
  - exact sample_backgrounds_loaded.
  - repeat constructor.
  - exact sample_size_ok.
  - exists w'. split; assumption.
Defined.

Lemma LoadBitmapsAsync_contract_witness :
  files_of frames_dir = [L "a.png"; L "b.png"]
  ∧ (∃ bitmaps w',
       LoadBitmapsAsync sample_fs (L "frames") initial_world = (Val bitmaps, w')
       ∧ Forall2 (fun bitmap image =>
                    textures w' !! dxgiSurface bitmap = Some image)
                 bitmaps sample_frames)
  ∧ (∃ w', LoadBitmapsAsync sample_fs (L "missing") initial_world =
             (Throw (filesystem_error (L "missing")), w'))
  ∧ (∃ w', LoadBitmapsAsync sample_fs (L "file.txt") initial_world =
             (Throw (hresult_invalid_argument (L "Path was not a folder!")), w')).
Proof.
  split; [vm_compute; reflexivity|]. split_and!.
  - pose proof (LoadBitmapsAsync_contract sample_fs (L "frames") initial_world)
      as Hc.
    change (sample_fs (L "frames")) with (Some (Folder frames_dir)) in Hc.
    cbv zeta in Hc. destruct Hc as (_ & _ & _ & Hc).
    fold (load_images frames_dir) in Hc.
    rewrite sample_frames_loaded in Hc.
    destruct Hc as (bitmaps & w' & Hrun & Hview & _).
    exists bitmaps, w'. split; assumption.
  - pose proof (LoadBitmapsAsync_contract sample_fs (L "missing") initial_world)
      as Hc.
    change (sample_fs (L "missing")) with (@None FsNode) in Hc.
    destruct Hc as (w' & Hrun & _). exists w'. exact Hrun.
  - pose proof (LoadBitmapsAsync_contract sample_fs (L "file.txt")
                  initial_world) as Hc.
    change (sample_fs (L "file.txt")) with (Some (RegularFile None)) in Hc.
    destruct Hc as (w' & Hrun & _). exists w'. exact Hrun.
Defined.

Lemma sample_command_line :
  ParseOptions sample_GetFlag sample_GetFlag_alias sample_GetFlagValue
               (drop 1 (sample_argv "empty" "missing"))
               (mkOptions false [] [] []) initial_world =
    (Val (Valid, mkOptions false (L "empty") (L "missing") (L "out.gif")),
     initial_world).
Proof. vm_compute. reflexivity. Qed.

Lemma empty_frame_set_exits_normally_witness :
  ∃ w',
    wmain premultiplied_over sample_fs sample_GetFlag sample_GetFlag_alias
          sample_GetFlagValue (sample_argv "empty" "missing") initial_world =
      (Exit 0, w')
    ∧ last (log w') = Some (EvPrintf (L ("No frames found, exiting..." ++ nl)))
    ∧ Forall not_rendering (log w').
Proof.
  destruct (empty_frame_set_exits_normally premultiplied_over sample_fs
              sample_GetFlag sample_GetFlag_alias sample_GetFlagValue
              (sample_argv "empty" "missing")
              (mkOptions false (L "empty") (L "missing") (L "out.gif"))
              initial_world empty_dir)
    as (w' & Hmain & _ & Hlast & Hlog).
  - exact sample_command_line.
  - reflexivity.
  - vm_compute. reflexivity.
  - exists w'. repeat split; assumption.
Defined.

Lemma backgrounds_untouched_without_frames_witness :
  sample_fs (L "missing") = None
  ∧ MainAsync premultiplied_over sample_fs false (L "empty") (L "missing")
              (L "out.gif") initial_world =
      (Val tt,
       mkWorld [] None false false
         [ EvCreateD3DDevice; EvCreateD2DFactory D2D1_DEBUG_LEVEL_NONE;
           EvCreateD2DDevice; EvCreateDeviceContext;
           EvCanonical (L "empty"); EvDirectoryIterator (L "/tmp/gc/empty");
           EvGetFolderFromPath (L "/tmp/gc/empty");
           EvPrintf (L ("No frames found, exiting..." ++ nl)) ])
  ∧ MainAsync premultiplied_over sample_fs false (L "empty") (L "file.txt")
              (L "out.gif") initial_world =
    MainAsync premultiplied_over sample_fs false (L "empty") (L "missing")
              (L "out.gif") initial_world.
Proof.
  split; [reflexivity|].
  destruct (backgrounds_untouched_without_frames premultiplied_over sample_fs
              false (L "empty") (L "missing") (L "out.gif") empty_dir)
    as [Hrun Hsame].
  - reflexivity.
  - vm_compute. reflexivity.
  - split; [exact Hrun|].
    exact (Hsame sample_fs (L "file.txt") eq_refl eq_refl).
Defined.

Lemma uneven_frames_loaded :
  load_images uneven_dir = Some [image_2x1 red; image_1x1 red].
Proof. vm_compute. reflexivity. Qed.

Lemma dimension_mismatch_aborts_witness :
  ∃ message w',
    MainAsync premultiplied_over sample_fs false (L "uneven")
              (L "backgrounds") (L "out.gif") initial_world =
      (Throw (hresult_invalid_argument message), w')
    ∧ classify (hresult_invalid_argument message) = DimensionMismatchError
    ∧ count is_render_event (log w') = 0%nat
    ∧ count is_encoder_event (log w') = 0%nat.
Proof.
  destruct (dimension_mismatch_aborts premultiplied_over sample_fs false
              (L "uneven") (L "backgrounds") (L "out.gif")
              uneven_dir backgrounds_dir [image_2x1 red; image_1x1 red]
              sample_backgrounds (image_2x1 red))
    as (message & w' & Hrun & Hclass & _ & Hrender & Hencoder).
  - reflexivity.
  - exact uneven_frames_loaded.
  - reflexivity.
  - reflexivity.
  - exact sample_backgrounds_loaded.
  - left. apply Exists_cons_tl, Exists_cons_hd. discriminate.
  - exists message, w'. repeat split; assumption.
Defined.

Lemma single_frame_loaded : load_images single_dir = Some [image_2x1 red].
Proof. vm_compute. reflexivity. Qed.

Lemma mismatch_aborts_single_frame_passes_witness :
  (∃ message w',
     MainAsync premultiplied_over sample_fs false (L "frames") (L "uneven")
               (L "out.gif") initial_world =
       (Throw (hresult_invalid_argument message), w')
     ∧ classify (hresult_invalid_argument message) = DimensionMismatchError
     ∧ Forall not_rendering (log w'))
  ∧ (∃ w',
       MainAsync premultiplied_over sample_fs false (L "single")
                 (L "backgrounds") (L "out.gif") initial_world = (Val tt, w')
       ∧ schedule (log w') = [Metadata; Pixels; Finish]).
Proof.
  split.
  - apply (mismatch_aborts_single_frame_passes premultiplied_over sample_fs
             false (L "frames") (L "uneven") (L "out.gif")
             frames_dir uneven_dir sample_frames
             [image_2x1 red; image_1x1 red] (image_2x1 clear_px)).
    + reflexivity.
    + exact sample_frames_loaded.
    + reflexivity.
    + reflexivity.
    + exact uneven_frames_loaded.
    + do 3 apply Exists_cons_tl. apply Exists_cons_hd. discriminate.
  - apply (mismatch_aborts_single_frame_passes premultiplied_over sample_fs
             false (L "single") (L "backgrounds") (L "out.gif")
             single_dir backgrounds_dir [image_2x1 red]
             sample_backgrounds (image_2x1 red)).
    + reflexivity.
    + exact single_frame_loaded.
    + reflexivity.
    + reflexivity.
    + exact sample_backgrounds_loaded.
    + reflexivity.
    + repeat constructor.
Defined.

(** C9 as it is written says that a run over exactly one frame raises the
    dimension-mismatch error.  On the sample directory that holds a single
    frame the run raises nothing: it returns normally, having rendered and
    encoded that frame. *)
Lemma single_frame_run_raises_nothing :
  length <$> load_images single_dir = Some 1%nat
  ∧ ¬ (∃ e w',
         MainAsync premultiplied_over sample_fs false (L "single")
                   (L "backgrounds") (L "out.gif") initial_world =
           (Throw e, w')
         ∧ classify e = DimensionMismatchError)
  ∧ ∃ w',
      MainAsync premultiplied_over sample_fs false (L "single")
                (L "backgrounds") (L "out.gif") initial_world = (Val tt, w')
      ∧ schedule (log w') = [Metadata; Pixels; Finish]
      ∧ count is_render_event (log w') = 13%nat.
Proof.
  split; [vm_compute; reflexivity|]. split.
  - intros (e & w' & Hrun & _). vm_compute in Hrun. discriminate.
  - eexists. split; [vm_compute; reflexivity|].
    split; vm_compute; reflexivity.
Qed.

(** * More of the program *)

(** ** The command line *)

Lemma PrintHelp_eq t tg d f l :
  PrintHelp (mkWorld t tg d f l) =
    (Val tt, mkWorld t tg d f (l ++ help_events)).
Proof.
  unfold PrintHelp. do 10 mrun apply emit_eq. rewrite emit_eq.
  by rewrite <-!app_assoc.
Qed.

Section CommandLineCases.
Context (blend : Pixel → Pixel → Pixel) (fs : FileSystem).
Context (GetFlag : list wstring → wstring → bool).
Context (GetFlag_alias : list wstring → wstring → wstring → bool).
Context (GetFlagValue : list wstring → wstring → wstring → wstring).

Local Abbreviation parse := (ParseOptions GetFlag GetFlag_alias GetFlagValue).
Local Abbreviation main := (wmain blend fs GetFlag GetFlag_alias GetFlagValue).

(** What [ParseOptions] returns and prints, case by case. *)
Lemma ParseOptions_cases args options t tg d f l :
  parse args options (mkWorld t tg d f l) =
    if GetFlag args (L "-help") || GetFlag args (L "/?") then
      (Val (Help, options), mkWorld t tg d f (l ++ help_events))
    else if bool_decide (GetFlagValue args (L "-f") (L "/f") = []) then
      (Val (Invalid, options),
       mkWorld t tg d f (l ++ [invalid_path_line "frames"]))
    else if bool_decide (GetFlagValue args (L "-b") (L "/b") = []) then
      (Val (Invalid, options),
       mkWorld t tg d f (l ++ [invalid_path_line "background"]))
    else if bool_decide (GetFlagValue args (L "-o") (L "/o") = []) then
      (Val (Invalid, options),
       mkWorld t tg d f (l ++ [invalid_path_line "output"]))
    else
      (Val (Valid,
            mkOptions (GetFlag_alias args (L "-dxDebug") (L "/dxDebug"))
                      (GetFlagValue args (L "-f") (L "/f"))
                      (GetFlagValue args (L "-b") (L "/b"))
                      (GetFlagValue args (L "-o") (L "/o"))),
       mkWorld t tg d f l).
Proof using Type.
  unfold ParseOptions.
  destruct (_ || _); [by mrun apply PrintHelp_eq|].
  destruct (bool_decide _); [by mrun apply emit_eq|].
  destruct (bool_decide _); [by mrun apply emit_eq|].
  destruct (bool_decide _); [by mrun apply emit_eq|].
  done.
Qed.

(** X1.  A help flag wins over everything else on the command line: with
    [-help] or [/?] among the arguments, whatever the others and whether
    or not the required paths are there, the process prints the eleven
    lines of the help text, does nothing else and exits with code 0. *)
Theorem help_flag_wins argv :
  GetFlag (drop 1 argv) (L "-help") = true
  ∨ GetFlag (drop 1 argv) (L "/?") = true →
  main argv initial_world =
    (Exit 0, mkWorld [] None false false help_events)
  ∧ length help_events = 11%nat
  ∧ Forall (fun e => is_printf e = true) help_events.
Proof using Type.
  intros Hhelp. split; [|split; [done|by repeat constructor]].
  unfold wmain, initial_world. rewrite ParseOptions_cases.
  assert (GetFlag (drop 1 argv) (L "-help") || GetFlag (drop 1 argv) (L "/?")
          = true) as -> by (apply orb_true_iff; tauto).
  done.
Qed.

(** X2.  Without a help flag, a command line that leaves out the frames,
    the background or the output path makes the process print one line,
    which names the first missing one in the order frames, background,
    output, and exit with code 1 before any device or file is touched. *)
Theorem missing_path_exits_1 argv :
  let args := drop 1 argv in
  let framesPath := GetFlagValue args (L "-f") (L "/f") in
  let backgroundPath := GetFlagValue args (L "-b") (L "/b") in
  let outputPath := GetFlagValue args (L "-o") (L "/o") in
  GetFlag args (L "-help") = false →
  GetFlag args (L "/?") = false →
  framesPath = [] ∨ backgroundPath = [] ∨ outputPath = [] →
  main argv initial_world =
    (Exit 1,
     mkWorld [] None false false
       [ invalid_path_line
           (if bool_decide (framesPath = []) then "frames"
            else if bool_decide (backgroundPath = []) then "background"
            else "output") ]).
Proof using Type.
  intros args framesPath backgroundPath outputPath Hh1 Hh2 Hmissing.
  unfold wmain, initial_world. rewrite ParseOptions_cases.
  fold args framesPath backgroundPath outputPath. rewrite Hh1, Hh2. simpl.
  repeat case_bool_decide; try done. by destruct Hmissing as [?|[?|?]].
Qed.

(** X3.  What an exit code tells about the command line.  [wmain]
    returns 1 only when no help flag was given and the frames, the
    background or the output path was missing.  It returns 0 only when a
    help flag was given, and then nothing but the help text was printed, or
    when no help flag was given, all three paths were, and [MainAsync],
    run on them and on the debug switch, returned. *)
Theorem exit_status_meaning argv code w' :
  let args := drop 1 argv in
  let help := GetFlag args (L "-help") || GetFlag args (L "/?") in
  let framesPath := GetFlagValue args (L "-f") (L "/f") in
  let backgroundPath := GetFlagValue args (L "-b") (L "/b") in
  let outputPath := GetFlagValue args (L "-o") (L "/o") in
  main argv initial_world = (Exit code, w') →
  (code = 1 ∧ help = false
   ∧ (framesPath = [] ∨ backgroundPath = [] ∨ outputPath = []))
  ∨ (code = 0 ∧ help = true
     ∧ w' = mkWorld [] None false false help_events)
  ∨ (code = 0 ∧ help = false
     ∧ framesPath ≠ [] ∧ backgroundPath ≠ [] ∧ outputPath ≠ []
     ∧ MainAsync blend fs (GetFlag_alias args (L "-dxDebug") (L "/dxDebug"))
                 framesPath backgroundPath outputPath initial_world =
         (Val tt, w')).
Proof using Type.
  intros args help framesPath backgroundPath outputPath.
  unfold wmain, initial_world. rewrite ParseOptions_cases.
  fold args help framesPath backgroundPath outputPath.
  destruct help.
  { intros [= <- <-]. right; left. by split_and!. }
  case_bool_decide as Hf.
  { intros [= <- <-]. left. split_and!; auto. }
  case_bool_decide as Hb.
  { intros [= <- <-]. left. split_and!; auto. }
  case_bool_decide as Ho.
  { intros [= <- <-]. left. split_and!; auto. }
  cbn [UseDebugLayer FramesPath BackgroundPath OutputPath].
  destruct (MainAsync _ _ _ _ _ _ _) as [[[]|e] w''] eqn:Hrun; [|done].
  intros [= <- <-]. right; right. by split_and!.
Qed.
End CommandLineCases.

(** ** The loader and the ends of a run *)

Lemma GetFileAsync_eq folder filename t tg d f l :
  GetFileAsync folder filename (mkWorld t tg d f l) =
    (match list_find (fun c => c.1 = filename) folder with
     | Some (_, (_, RegularFile image)) => Val image
     | _ => Throw (hresult_error "GetFileAsync")
     end,
     mkWorld t tg d f (l ++ [EvGetFile filename])).
Proof.
  unfold GetFileAsync. mrun apply emit_eq.
  by destruct (list_find _ folder) as [[? [? [image| |]]]|].
Qed.

Lemma LoadTextureFromStreamAsync_none filename t tg d f l :
  LoadTextureFromStreamAsync filename None (mkWorld t tg d f l) =
    (Throw (hresult_error "LoadTextureFromStreamAsync"),
     mkWorld t tg d f (l ++ [EvLoadTextureFromStream filename])).
Proof. done. Qed.

Lemma load_files_appends folder files : ∀ bitmaps t tg d f l,
  ∃ r news evs,
    load_files folder files bitmaps (mkWorld t tg d f l) =
      (r, mkWorld (t ++ news) tg d f (l ++ evs))
    ∧ Forall (fun e => is_loading_event e = true) evs
    ∧ match r with
      | Val bs => bs = bitmaps ++ bitmaps_from (length t) (length news)
      | Throw e => ∃ what, e = hresult_error what
      end.
Proof.
  induction files as [|filename files IH]; intros bitmaps t tg d f l.
  - exists (Val bitmaps), [], []. rewrite !app_nil_r.
    by split_and!.
  - cbn [load_files].
    destruct (list_find (fun c => c.1 = filename) folder)
      as [[? [? [[s|]| |]]]|] eqn:Hfind.
    + mrun (rewrite GetFileAsync_eq, Hfind; reflexivity).
      mrun apply LoadTextureFromStreamAsync_ok.
      mrun (apply CreateBitmapFromTexture_ok, lookup_new_texture).
      destruct (IH (bitmaps ++ [mkBitmap (length t)]) (t ++ [s]) tg d f
                  (((l ++ [EvGetFile filename])
                    ++ [EvLoadTextureFromStream filename])
                   ++ [EvCreateBitmapFromDxgiSurface (length t)]))
        as (r & news & evs & Hrun & Hevs & Hr).
      exists r, (s :: news),
        ([EvGetFile filename; EvLoadTextureFromStream filename;
          EvCreateBitmapFromDxgiSurface (length t)] ++ evs).
      split_and!.
      * rewrite Hrun. by rewrite <-!app_assoc.
      * apply Forall_app. split; [by repeat constructor|done].
      * destruct r as [bs|e]; [|done]. rewrite Hr.
        rewrite length_app, <-app_assoc. simpl. rewrite Nat.add_1_r.
        done.
    + mrun (rewrite GetFileAsync_eq, Hfind; reflexivity).
      mfail apply LoadTextureFromStreamAsync_none.
      exists (Throw (hresult_error "LoadTextureFromStreamAsync")), [],
        [EvGetFile filename; EvLoadTextureFromStream filename].
      rewrite app_nil_r, <-app_assoc. split_and!; [done| |by eexists].
      by repeat constructor.
    + mfail (rewrite GetFileAsync_eq, Hfind; reflexivity).
      exists (Throw (hresult_error "GetFileAsync")), [], [EvGetFile filename].
      rewrite app_nil_r. split_and!; [done| |by eexists].
      by repeat constructor.
    + mfail (rewrite GetFileAsync_eq, Hfind; reflexivity).
      exists (Throw (hresult_error "GetFileAsync")), [], [EvGetFile filename].
      rewrite app_nil_r. split_and!; [done| |by eexists].
      by repeat constructor.
    + mfail (rewrite GetFileAsync_eq, Hfind; reflexivity).
      exists (Throw (hresult_error "GetFileAsync")), [], [EvGetFile filename].
      rewrite app_nil_r. split_and!; [done| |by eexists].
      by repeat constructor.
Qed.

Lemma LoadBitmapsAsync_shape (fs : FileSystem) path t tg d f l :
  ∃ r news evs,
    LoadBitmapsAsync fs path (mkWorld t tg d f l) =
      (r, mkWorld (t ++ news) tg d f (l ++ evs))
    ∧ Forall (fun e => is_loading_event e = true) evs
    ∧ match r with
      | Val bitmaps =>
          bitmaps = bitmaps_from (length t) (length news)
          ∧ NoDup bitmaps
      | Throw e => loader_exception path e
      end.
Proof.
  unfold LoadBitmapsAsync.
  destruct (fs path) as [node|] eqn:Hfs.
  - mrun (by eapply canonical_ok).
    unfold is_directory. rewrite canonical_form_same, Hfs.
    destruct node as [image|entries|].
    + exists (Throw (hresult_invalid_argument (L "Path was not a folder!"))),
        [], [EvCanonical path].
      rewrite app_nil_r. split_and!; [done|by repeat constructor|].
      right. by left.
    + simpl.
      mrun (unfold directory_iterator; mrun apply emit_eq;
            by rewrite canonical_form_same, Hfs).
      mrun apply emit_eq.
      destruct (load_files_appends entries (std_sort (collect_files entries []))
                  [] t tg d f
                  (((l ++ [EvCanonical path])
                    ++ [EvDirectoryIterator (canonical_form fs path)])
                   ++ [EvGetFolderFromPath (canonical_form fs path)]))
        as (r & news & evs & Hrun & Hevs & Hr).
      exists r, news,
        ([EvCanonical path; EvDirectoryIterator (canonical_form fs path);
          EvGetFolderFromPath (canonical_form fs path)] ++ evs).
      split_and!.
      * rewrite Hrun. by rewrite <-!app_assoc.
      * apply Forall_app. split; [by repeat constructor|done].
      * destruct r as [bs|e].
        -- simpl in Hr. subst bs. split; [done|].
           unfold bitmaps_from. apply NoDup_fmap_2; [|apply NoDup_seq].
           by intros ?? [=].
        -- right. by right.
    + exists (Throw (hresult_invalid_argument (L "Path was not a folder!"))),
        [], [EvCanonical path].
      rewrite app_nil_r. split_and!; [done|by repeat constructor|].
      right. by left.
  - mfail (unfold canonical; mrun apply emit_eq; by rewrite Hfs).
    exists (Throw (filesystem_error path)), [], [EvCanonical path].
    rewrite app_nil_r. split_and!; [done|by repeat constructor|].
    by left.
Qed.

(** X4.  [LoadBitmapsAsync] only adds: whatever the path and the state it
    starts in, the textures that were there are still there, unchanged and
    at the same place, the device context is as it was, and the calls it
    made are loading calls.  The bitmaps it returns are views of the
    textures it added, one for each in the order it added them, no two of
    the same texture; and what it throws is a file-system error for the
    path, the not-a-folder error, or an error of the platform. *)
Theorem LoadBitmapsAsync_only_appends (fs : FileSystem) path w :
  ∃ r w' news evs,
    LoadBitmapsAsync fs path w = (r, w')
    ∧ textures w' = textures w ++ news
    ∧ log w' = log w ++ evs
    ∧ Forall (fun e => is_loading_event e = true) evs
    ∧ (target w', drawing w', faulted w') = (target w, drawing w, faulted w)
    ∧ match r with
      | Val bitmaps =>
          bitmaps = bitmaps_from (length (textures w)) (length news)
          ∧ NoDup bitmaps
      | Throw e => loader_exception path e
      end.
Proof.
  destruct w as [t tg d f l].
  destruct (LoadBitmapsAsync_shape fs path t tg d f l)
    as (r & news & evs & Hrun & Hevs & Hr).
  eexists r, _, news, evs. split; [exact Hrun|]. by split_and!.
Qed.

Section Outcomes.
Context (blend : Pixel → Pixel → Pixel) (fs : FileSystem).
Context (useDebugLayer : bool).
Context (framesPath backgroundPath outputPath : wstring).

Local Abbreviation run :=
  (MainAsync blend fs useDebugLayer framesPath backgroundPath outputPath
             initial_world).

(** An exception of the first load is the exception of the run. *)
Lemma MainAsync_frames_throw e w' :
  LoadBitmapsAsync fs framesPath
    (mkWorld [] None false false (startup_events useDebugLayer)) =
    (Throw e, w') →
  run = (Throw e, w').
Proof using Type.
  intros Hload. unfold MainAsync, initial_world.
  do 4 mrun apply emit_eq. by mfail exact Hload.
Qed.

(** So is an exception of the second load, once the frames passed their
    size check. *)
Lemma MainAsync_backgrounds_throw fentries frames frameSize e w' :
  fs framesPath = Some (Folder fentries) →
  load_images fentries = Some frames →
  surface_size <$> head frames = Some frameSize →
  Forall (fun s => surface_size s = frameSize) frames →
  LoadBitmapsAsync fs backgroundPath
    (mkWorld frames None false false
             (startup_events useDebugLayer
              ++ loading_log fs framesPath fentries 0)) =
    (Throw e, w') →
  run = (Throw e, w').
Proof using Type.
  intros Hfs Hframes Hhead Hfsize Hload.
  pose proof (frames_nonempty frames frameSize Hhead) as HN.
  unfold MainAsync, initial_world.
  do 4 mrun apply emit_eq.
  mrun (by eapply LoadBitmapsAsync_ok). rewrite app_nil_l. cbn [length].
  rewrite bool_decide_false.
  2:{ unfold bitmaps_from. destruct (length frames); [lia|done]. }
  mrun (by apply (vector_at_bitmaps_from 0 _ 0)).
  mrun apply GetPixelSize_eq.
  assert (Hsz : from_option surface_size (O, O)
                  (frames !! dxgiSurface (mkBitmap (0 + 0))) = frameSize)
    by (by apply first_frame_size).
  rewrite Hsz.
  mrun (by apply (check_sizes_ok _ frameSize frames 0)).
  by mfail exact Hload.
Qed.
End Outcomes.

Lemma run_log_flush blend fs dbg fp bp op fe be frames backgrounds W H :
  count is_flush (run_log blend fs dbg fp bp op fe be frames backgrounds (W, H))
    = 1%nat.
Proof.
  unfold count. rewrite the_log_filter by (by intros []).
  rewrite encode_events_other by (done || by intros []).
  unfold template_events.
  rewrite !List.filter_app, filter_DrawBitmap_none by done.
  done.
Qed.

Lemma run_log_last blend fs dbg fp bp op fe be frames backgrounds fsz :
  last (run_log blend fs dbg fp bp op fe be frames backgrounds fsz) =
    Some (EvPrintf (L ("Done!" ++ nl))).
Proof.
  unfold run_log, closing_events. cbv zeta.
  change [EvFlush; EvPrintf (L ("Done!" ++ nl))]
    with ([EvFlush] ++ [EvPrintf (L ("Done!" ++ nl))]).
  by rewrite !app_assoc, last_snoc.
Qed.

(** A run throws, returns for want of frames, or encodes them. *)
Lemma MainAsync_cases blend (fs : FileSystem) useDebugLayer
    framesPath backgroundPath outputPath :
  (∀ entries, fs framesPath = Some (Folder entries) →
              size (files_of entries) ≤ INT_MAX) →
  ∃ r w' o,
    MainAsync blend fs useDebugLayer framesPath backgroundPath outputPath
              initial_world = (r, w')
    ∧ match o with
      | Aborted e => r = Throw e
      | NoFrames fentries =>
          r = Val tt
          ∧ w' = mkWorld [] None false false
                   (startup_events useDebugLayer
                    ++ loading_log fs framesPath fentries 0
                    ++ [EvPrintf (L ("No frames found, exiting..." ++ nl))])
      | Encoded fentries bentries frames backgrounds frameSize =>
          r = Val tt ∧ frames ≠ []
          ∧ w' = mkWorld (final_textures blend frames backgrounds frameSize)
                   (Some (mkBitmap (length frames + length backgrounds)))
                   false false
                   (run_log blend fs useDebugLayer framesPath backgroundPath
                            outputPath fentries bentries frames backgrounds
                            frameSize)
      end.
Proof.
  intros Hmax.
  (* the first load *)
  destruct (LoadBitmapsAsync_shape fs framesPath [] None false false
              (startup_events useDebugLayer))
    as (r1 & news1 & evs1 & Hload1 & Hevs1 & Hr1).
  destruct r1 as [bitmaps1|e1].
  2:{ eexists (Throw e1), _, (Aborted e1).
      split; [by eapply MainAsync_frames_throw|done]. }
  destruct (fs framesPath) as [[image|fentries|]|] eqn:Hfs.
  1,3: by erewrite LoadBitmapsAsync_not_folder in Hload1.
  2: by erewrite LoadBitmapsAsync_missing in Hload1.
  destruct (load_images fentries) as [frames|] eqn:Hframes.
  2:{ destruct (LoadBitmapsAsync_undecodable fs framesPath fentries [] None
                  false false (startup_events useDebugLayer) Hfs Hframes)
        as (what & w' & Hthrow).
      rewrite Hthrow in Hload1. done. }
  clear Hload1 Hevs1 Hr1 news1 evs1 bitmaps1.
  specialize (Hmax fentries eq_refl).
  assert (Hsize : size frames ≤ INT_MAX).
  { unfold load_images in Hframes. apply length_mapM in Hframes.
    unfold size in *. by rewrite <-Hframes. }
  (* no frame *)
  destruct frames as [|frame0 frames'] eqn:Hfr.
  { eexists (Val tt), _, (NoFrames fentries).
    split; [by eapply MainAsync_no_frames|]. done. }
  rewrite <-Hfr in *.
  assert (Hhead : surface_size <$> head frames = Some (surface_size frame0))
    by (by rewrite Hfr).
  (* the frames' sizes *)
  destruct (decide (Exists (fun s => surface_size s ≠ surface_size frame0)
                           frames)) as [Hex|Hall].
  { eexists (Throw _), _, (Aborted _).
    split; [by eapply MainAsync_frame_mismatch|done]. }
  apply not_Exists_Forall in Hall; [|intros ?; apply _].
  assert (Hfsize : Forall (fun s => surface_size s = surface_size frame0) frames).
  { eapply Forall_impl; [exact Hall|]. simpl. intros s Hs.
    by destruct (decide (surface_size s = surface_size frame0)). }
  (* the second load *)
  destruct (LoadBitmapsAsync_shape fs backgroundPath frames None false false
              (startup_events useDebugLayer
               ++ loading_log fs framesPath fentries 0))
    as (r2 & news2 & evs2 & Hload2 & Hevs2 & Hr2).
  destruct r2 as [bitmaps2|e2].
  2:{ eexists (Throw e2), _, (Aborted e2).
      split; [by eapply MainAsync_backgrounds_throw|done]. }
  destruct (fs backgroundPath) as [[image|bentries|]|] eqn:Hbs.
  1,3: by erewrite LoadBitmapsAsync_not_folder in Hload2.
  2: by erewrite LoadBitmapsAsync_missing in Hload2.
  destruct (load_images bentries) as [backgrounds|] eqn:Hbackgrounds.
  2:{ destruct (LoadBitmapsAsync_undecodable fs backgroundPath bentries frames
                  None false false
                  (startup_events useDebugLayer
                   ++ loading_log fs framesPath fentries 0) Hbs Hbackgrounds)
        as (what & w' & Hthrow).
      rewrite Hthrow in Hload2. done. }
  clear Hload2 Hevs2 Hr2 news2 evs2 bitmaps2.
  (* the backgrounds' sizes *)
  destruct (decide (Exists (fun s => surface_size s ≠ surface_size frame0)
                           backgrounds)) as [Hex|Hallb].
  { eexists (Throw _), _, (Aborted _).
    split; [by eapply MainAsync_background_mismatch|done]. }
  apply not_Exists_Forall in Hallb; [|intros ?; apply _].
  assert (Hbsize : Forall (fun s => surface_size s = surface_size frame0)
                          backgrounds).
  { eapply Forall_impl; [exact Hallb|]. simpl. intros s Hs.
    by destruct (decide (surface_size s = surface_size frame0)). }
  (* the run goes through *)
  eexists (Val tt), _,
    (Encoded fentries bentries frames backgrounds (surface_size frame0)).
  split; [by eapply MainAsync_ok|].
  split; [done|]. split; [by rewrite Hfr|done].
Qed.

(** What a run that returned has done. *)
Lemma MainAsync_returned blend (fs : FileSystem) useDebugLayer
    framesPath backgroundPath outputPath w' :
  (∀ entries, fs framesPath = Some (Folder entries) →
              size (files_of entries) ≤ INT_MAX) →
  MainAsync blend fs useDebugLayer framesPath backgroundPath outputPath
            initial_world = (Val tt, w') →
  (∃ fentries,
     log w' = startup_events useDebugLayer
              ++ loading_log fs framesPath fentries 0
              ++ [EvPrintf (L ("No frames found, exiting..." ++ nl))])
  ∨ (∃ fentries bentries frames backgrounds frameSize,
       frames ≠ []
       ∧ log w' = run_log blend fs useDebugLayer framesPath backgroundPath
                          outputPath fentries bentries frames backgrounds
                          frameSize).
Proof.
  intros Hmax Hrun.
  destruct (MainAsync_cases blend fs useDebugLayer framesPath backgroundPath
              outputPath Hmax) as (r & w'' & o & Hrun' & Ho).
  rewrite Hrun in Hrun'. injection Hrun' as <- <-.
  destruct o as [e|fentries|fentries bentries frames backgrounds frameSize].
  - done.
  - destruct Ho as (_ & ->). left. by exists fentries.
  - destruct Ho as (_ & Hne & ->). right.
    by exists fentries, bentries, frames, backgrounds, frameSize.
Qed.

(** X5.  A run of [MainAsync] that returns has done one of two things.
    Either it printed that there are no frames, as its last call, and
    neither rendered nor created nor wrote anything.  Or it handed the
    encoder at least one frame, metadata then pixels for each, with an
    advance between two frames and none after the last, flushed the
    encoder once after all of them and printed [Done!] as its last call.
    So a return without the no-frames message means a complete, flushed
    image. *)
Theorem MainAsync_outcomes blend (fs : FileSystem) useDebugLayer
    framesPath backgroundPath outputPath w' :
  (∀ entries, fs framesPath = Some (Folder entries) →
              size (files_of entries) ≤ INT_MAX) →
  MainAsync blend fs useDebugLayer framesPath backgroundPath outputPath
            initial_world = (Val tt, w') →
  (last (log w') = Some (EvPrintf (L ("No frames found, exiting..." ++ nl)))
   ∧ Forall not_rendering (log w'))
  ∨ (∃ N, (0 < N)%nat
          ∧ schedule (log w') = frames_schedule N ++ [Finish]
          ∧ count is_flush (log w') = 1%nat
          ∧ last (log w') = Some (EvPrintf (L ("Done!" ++ nl)))).
Proof.
  intros Hmax Hrun.
  destruct (MainAsync_returned blend fs useDebugLayer framesPath
              backgroundPath outputPath w' Hmax Hrun)
    as [[fentries ->]
       |(fentries & bentries & frames & backgrounds & [W H] & Hne & ->)].
  - left. split; [by rewrite !app_assoc, last_snoc|].
    rewrite !Forall_app. split_and!.
    + eapply Forall_impl; [apply startup_events_loading|].
      apply loading_not_rendering.
    + eapply Forall_impl; [apply loading_log_loading|].
      apply loading_not_rendering.
    + by repeat constructor.
  - right. exists (length frames). split_and!.
    + destruct frames; [done|simpl; lia].
    + apply the_log_schedule.
    + apply run_log_flush.
    + apply run_log_last.
Qed.

Lemma draw_state_app l l' : ∀ drawing,
  draw_state drawing (l ++ l') =
    draw_state drawing l ≫= fun drawing' => draw_state drawing' l'.
Proof.
  induction l as [|e l IH]; intros drawing; [done|].
  cbn [app draw_state]. destruct (draw_step drawing e); [apply IH|done].
Qed.

Lemma draw_state_filter l : ∀ drawing,
  draw_state drawing (List.filter is_render_event l) = draw_state drawing l.
Proof.
  induction l as [|e l IH]; intros drawing; [done|].
  cbn [List.filter]. destruct (is_render_event e) eqn:He.
  - cbn [draw_state]. destruct (draw_step drawing e); [apply IH|done].
  - cbn [draw_state]. rewrite IH. by destruct e, drawing.
Qed.

Lemma draw_state_idle l drawing :
  Forall (fun e => is_render_event e = false) l →
  draw_state drawing l = Some drawing.
Proof.
  intros Hl. rewrite <-draw_state_filter.
  by rewrite filter_none.
Qed.

Lemma draw_state_DrawBitmap bitmaps :
  draw_state true (EvDrawBitmap <$> bitmaps) = Some true.
Proof. induction bitmaps as [|x bitmaps IH]; [done|]. exact IH. Qed.

Lemma draw_state_passes tmplT rtT stT bitmaps :
  draw_state false (bitmaps ≫= pass_events tmplT rtT stT) = Some false.
Proof.
  induction bitmaps as [|x bitmaps IH]; [done|].
  cbn [mbind list_bind]. by rewrite draw_state_app.
Qed.

Lemma draw_state_template N M :
  draw_state false (template_events N M) = Some false.
Proof.
  unfold template_events. rewrite draw_state_app.
  assert (draw_state false [EvSetTarget (mkBitmap (S (N + M))); EvBeginDraw;
                            EvClear white] = Some true) as -> by done.
  cbn [mbind option_bind]. by rewrite draw_state_app, draw_state_DrawBitmap.
Qed.

Lemma loading_not_render l :
  Forall (fun e => is_loading_event e = true) l →
  Forall (fun e => is_render_event e = false) l.
Proof. intros Hl. eapply Forall_impl; [exact Hl|]. by intros []. Qed.

(** X12.  A run that returns, early for want of frames or after encoding
    them, has kept to a draw discipline from its first call to its last:
    draw passes are not nested and none is left open, [Clear] and
    [DrawBitmap] are only called inside a pass, and the target is only
    changed, and textures only copied and read back, outside of one. *)
Theorem draw_discipline blend (fs : FileSystem) useDebugLayer
    framesPath backgroundPath outputPath w' :
  (∀ entries, fs framesPath = Some (Folder entries) →
              size (files_of entries) ≤ INT_MAX) →
  MainAsync blend fs useDebugLayer framesPath backgroundPath outputPath
            initial_world = (Val tt, w') →
  draw_state false (log w') = Some false.
Proof.
  intros Hmax Hrun.
  destruct (MainAsync_returned blend fs useDebugLayer framesPath
              backgroundPath outputPath w' Hmax Hrun)
    as [[fentries ->]
       |(fentries & bentries & frames & backgrounds & [W H] & Hne & ->)].
  - apply draw_state_idle. rewrite !Forall_app. split_and!.
    + apply loading_not_render, startup_events_loading.
    + apply loading_not_render, loading_log_loading.
    + by repeat constructor.
  - rewrite <-draw_state_filter, the_log_render.
    rewrite draw_state_app, draw_state_template.
    cbn [mbind option_bind]. rewrite draw_state_app.
    assert (draw_state false
              [EvSetTarget (mkBitmap (length frames + length backgrounds))]
            = Some false) as -> by done.
    cbn [mbind option_bind]. apply draw_state_passes.
Qed.

(** X6.  Once there is a frame, the backgrounds path has to be a
    directory: when the frames are loaded and of one size and the
    backgrounds path is missing or is not a directory, the run throws the
    invalid-path error right after resolving that path, the frames being
    loaded and nothing else done. *)
Theorem backgrounds_path_required blend (fs : FileSystem) useDebugLayer
    framesPath backgroundPath outputPath fentries frames W H :
  fs framesPath = Some (Folder fentries) →
  load_images fentries = Some frames →
  frames ≠ [] →
  Forall (fun s => surface_size s = (W, H)) frames →
  (∀ children, fs backgroundPath ≠ Some (Folder children)) →
  ∃ e,
    MainAsync blend fs useDebugLayer framesPath backgroundPath outputPath
              initial_world =
      (Throw e,
       mkWorld frames None false false
               (startup_events useDebugLayer
                ++ loading_log fs framesPath fentries 0
                ++ [EvCanonical backgroundPath]))
    ∧ e = match fs backgroundPath with
          | Some _ => hresult_invalid_argument (L "Path was not a folder!")
          | None => filesystem_error backgroundPath
          end
    ∧ classify e = InvalidPathError.
Proof.
  intros Hfs Hframes Hne Hfsize Hbs.
  assert (Hhead : surface_size <$> head frames = Some (W, H)).
  { destruct frames as [|f0 ?]; [done|].
    by apply Forall_cons in Hfsize as [<- _]. }
  destruct (fs backgroundPath) as [node|] eqn:Hnode.
  - eexists. split; [|done].
    eapply MainAsync_backgrounds_throw; try done.
    rewrite app_assoc.
    eapply LoadBitmapsAsync_not_folder; [done|].
    intros children ->. by destruct (Hbs children).
  - eexists. split; [|done].
    eapply MainAsync_backgrounds_throw; try done.
    rewrite app_assoc.
    by eapply LoadBitmapsAsync_missing.
Qed.

(** ** The debug switch *)

Lemma blind_ret {A} (a : A) : log_blind (mret a).
Proof. intros t tg d f l. unfold relog. simpl. by rewrite app_nil_r. Qed.

Lemma blind_throw {A} (e : Exn) : log_blind (@throw A e).
Proof. intros t tg d f l. unfold relog. simpl. by rewrite app_nil_r. Qed.

Lemma blind_emit e : log_blind (emit e).
Proof. by intros t tg d f l. Qed.

Lemma blind_bind {A B} (m : M A) (k : A → M B) :
  log_blind m → (∀ a, log_blind (k a)) → log_blind (m ≫= k).
Proof.
  intros Hm Hk t tg d f l. unfold mbind, M_bind. rewrite (Hm t tg d f l).
  destruct (m (mkWorld t tg d f [])) as [[a|e] [t1 tg1 d1 f1 l1]]; simpl.
  - rewrite (Hk a t1 tg1 d1 f1 (l ++ l1)), (Hk a t1 tg1 d1 f1 l1).
    unfold relog. simpl. by rewrite app_assoc.
  - done.
Qed.

Lemma blind_for_each {A} (xs : list A) (body : A → M unit) :
  (∀ x, log_blind (body x)) → log_blind (for_each xs body).
Proof.
  intros Hbody. induction xs as [|x xs IH]; simpl.
  - apply blind_ret.
  - apply blind_bind; auto.
Qed.

(** A primitive of the platform: unfold it and look at the cases. *)
Ltac blind_primitive :=
  intros t tg d f l;
  unfold relog, mbind, M_bind, mret, M_ret, throw, emit, get_world,
    set_textures, set_context, check_hresult;
  simpl; repeat case_match; simpl; rewrite ?app_nil_r; try done.

Lemma blind_check_hresult ok what : log_blind (check_hresult ok what).
Proof. unfold check_hresult. destruct ok; [apply blind_ret|apply blind_throw]. Qed.

Lemma blind_WINRT_VERIFY cond : log_blind (WINRT_VERIFY cond).
Proof. unfold WINRT_VERIFY. destruct cond; [apply blind_ret|apply blind_throw]. Qed.

Lemma blind_vector_at {A} (v : list A) i : log_blind (vector_at v i).
Proof.
  unfold vector_at. repeat case_match; apply blind_ret || apply blind_throw.
Qed.

Lemma blind_CreateTexture2D desc : log_blind (CreateTexture2D desc).
Proof. unfold CreateTexture2D. blind_primitive. Qed.

Lemma blind_CopyResource dst src : log_blind (CopyResource dst src).
Proof. unfold CopyResource. blind_primitive. Qed.

Lemma blind_CopyBytesFromTexture texture :
  log_blind (CopyBytesFromTexture texture).
Proof. unfold CopyBytesFromTexture. blind_primitive. Qed.

Lemma blind_GetPixelSize bitmap : log_blind (GetPixelSize bitmap).
Proof. unfold GetPixelSize. blind_primitive. Qed.

Lemma blind_SetTarget bitmap : log_blind (SetTarget bitmap).
Proof. unfold SetTarget. blind_primitive. Qed.

Lemma blind_BeginDraw : log_blind BeginDraw.
Proof. unfold BeginDraw. blind_primitive. Qed.

Lemma blind_EndDraw : log_blind EndDraw.
Proof. unfold EndDraw. blind_primitive. Qed.

Lemma blind_Clear c : log_blind (Clear c).
Proof. unfold Clear, draw_on_target. blind_primitive. Qed.

Lemma blind_DrawBitmap blend bitmap : log_blind (DrawBitmap blend bitmap).
Proof. unfold DrawBitmap, draw_on_target. blind_primitive. Qed.

Lemma blind_canonical fs path : log_blind (canonical fs path).
Proof. unfold canonical. blind_primitive. Qed.

Lemma blind_directory_iterator fs path : log_blind (directory_iterator fs path).
Proof. unfold directory_iterator. blind_primitive. Qed.

Lemma blind_GetFileAsync folder filename :
  log_blind (GetFileAsync folder filename).
Proof. unfold GetFileAsync. blind_primitive. Qed.

Lemma blind_LoadTextureFromStreamAsync filename image :
  log_blind (LoadTextureFromStreamAsync filename image).
Proof. unfold LoadTextureFromStreamAsync. blind_primitive. Qed.

Lemma blind_CreateBitmapFromTexture texture :
  log_blind (CreateBitmapFromTexture texture).
Proof.
  intros t tg d f l. unfold CreateBitmapFromTexture, relog, mbind, M_bind.
  simpl. unfold check_hresult.
  destruct (bool_decide (is_Some (t !! texture))); simpl;
    by rewrite ?app_nil_r.
Qed.

Create HintDb blind.
#[local] Hint Resolve blind_ret blind_throw blind_emit blind_check_hresult
  blind_WINRT_VERIFY blind_vector_at blind_CreateTexture2D blind_CopyResource
  blind_CopyBytesFromTexture blind_GetPixelSize blind_SetTarget blind_BeginDraw
  blind_EndDraw blind_Clear blind_DrawBitmap blind_canonical
  blind_directory_iterator blind_GetFileAsync blind_LoadTextureFromStreamAsync
  blind_CreateBitmapFromTexture : blind.

(** A sequence of blind computations is blind. *)
Ltac blind :=
  repeat first
    [ solve [auto with blind]
    | apply blind_bind; [|intros ?]
    | apply blind_for_each; intros ?
    | match goal with
      | |- log_blind (if ?c then _ else _) => destruct c
      end ].

Lemma blind_load_files folder files : ∀ bitmaps,
  log_blind (load_files folder files bitmaps).
Proof.
  induction files as [|filename files IH]; intros bitmaps; simpl; blind.
Qed.

Lemma blind_LoadBitmapsAsync fs path : log_blind (LoadBitmapsAsync fs path).
Proof.
  unfold LoadBitmapsAsync. pose proof blind_load_files. blind.
Qed.

Lemma blind_CreateGifEncoderAsync : log_blind CreateGifEncoderAsync.
Proof. unfold CreateGifEncoderAsync. cbv zeta. blind. Qed.

Lemma blind_encode_frames blend fuel : ∀ i frames frameSize frameDelay
    backgroundTemplate renderTargetTexture stagingTexture,
  log_blind (encode_frames blend fuel i frames frameSize frameDelay
               backgroundTemplate renderTargetTexture stagingTexture).
Proof.
  induction fuel as [|fuel IH]; intros; cbn [encode_frames]; blind.
Qed.

#[local] Hint Resolve blind_load_files blind_LoadBitmapsAsync
  blind_CreateGifEncoderAsync blind_encode_frames : blind.

Lemma blind_MainAsync blend fs useDebugLayer framesPath backgroundPath
    outputPath :
  log_blind (MainAsync blend fs useDebugLayer framesPath backgroundPath
                       outputPath).
Proof. unfold MainAsync. cbv zeta. blind. Qed.

Lemma MainAsync_after_factory blend fs framesPath backgroundPath outputPath :
  ∃ k : M unit, log_blind k ∧ ∀ useDebugLayer w,
    MainAsync blend fs useDebugLayer framesPath backgroundPath outputPath w =
    (emit EvCreateD3DDevice;;
     emit (EvCreateD2DFactory (debug_level useDebugLayer));; k) w.
Proof.
  eexists. split; cycle 1.
  { intros useDebugLayer w. unfold MainAsync, debug_level. cbv zeta.
    reflexivity. }
  cbv beta. blind.
Qed.

(** X7.  The debug switch only sets the debug level the Direct2D factory
    is created with: with and without [-dxDebug] a run returns or throws
    the same, leaves the same textures and makes the same calls but for
    that one argument.  The Direct3D device in particular is created the
    same way, although the program computes a debug flag for it. *)
Theorem debug_layer_only_sets_debug_level blend fs framesPath backgroundPath
    outputPath :
  ∃ r t tg d f rest,
    ∀ useDebugLayer,
      MainAsync blend fs useDebugLayer framesPath backgroundPath outputPath
                initial_world =
      (r, mkWorld t tg d f
            ([EvCreateD3DDevice;
              EvCreateD2DFactory (debug_level useDebugLayer)] ++ rest)).
Proof.
  destruct (MainAsync_after_factory blend fs framesPath backgroundPath
              outputPath) as (k & Hk & Hmain).
  destruct (k (mkWorld [] None false false [])) as [r [t tg d f rest]] eqn:Hrun.
  exists r, t, tg, d, f, rest. intros useDebugLayer.
  rewrite Hmain. unfold initial_world.
  mrun apply emit_eq. mrun apply emit_eq.
  rewrite Hk, Hrun. reflexivity.
Qed.

(** ** What a run reads of its directories *)

Lemma bind_ext {A B} (m m' : M A) (k k' : A → M B) w :
  m w = m' w → (∀ a w', k a w' = k' a w') → (m ≫= k) w = (m' ≫= k') w.
Proof.
  intros Hm Hk. unfold mbind, M_bind. rewrite Hm.
  destruct (m' w) as [[a|e] w']; [apply Hk|done].
Qed.

Lemma list_find_unique (l : list (wstring * FsNode)) name node :
  NoDup l.*1 → (name, node) ∈ l →
  ∃ i, list_find (fun c => c.1 = name) l = Some (i, (name, node)).
Proof.
  induction l as [|[n x] l IH]; intros Hnd Hin.
  - by apply elem_of_nil in Hin.
  - rewrite fmap_cons in Hnd. apply NoDup_cons in Hnd as [Hn Hnd].
    apply elem_of_cons in Hin as [[= <- <-]|Hin].
    + exists 0%nat. cbn [list_find]. by rewrite decide_True.
    + destruct (IH Hnd Hin) as [i Hi].
      exists (S i). cbn [list_find]. rewrite decide_False.
      * by rewrite Hi.
      * simpl. intros ->. apply Hn.
        apply list_elem_of_fmap. by exists (name, node).
Qed.

Lemma GetFileAsync_same entries entries' filename w :
  same_pngs entries entries' → filename ∈ files_of entries →
  GetFileAsync entries filename w = GetFileAsync entries' filename w.
Proof.
  intros (Hnd & Hnd' & Hperm) Hin.
  rewrite files_of_kept, std_sort_Permutation in Hin.
  apply list_elem_of_fmap in Hin as ([name node] & -> & Hin).
  pose proof Hin as Hin'. rewrite Hperm in Hin'.
  apply list_elem_of_filter in Hin as [_ Hin].
  apply list_elem_of_filter in Hin' as [_ Hin'].
  destruct (list_find_unique _ _ _ Hnd Hin) as [i Hi].
  destruct (list_find_unique _ _ _ Hnd' Hin') as [i' Hi'].
  unfold GetFileAsync. simpl. by rewrite Hi, Hi'.
Qed.

Lemma load_files_same entries entries' files :
  same_pngs entries entries' → files ⊆ files_of entries →
  ∀ bitmaps w,
    load_files entries files bitmaps w = load_files entries' files bitmaps w.
Proof.
  intros Hsame. induction files as [|filename files IH]; intros Hsub; [done|].
  intros bitmaps w. cbn [load_files]. apply bind_ext.
  - apply GetFileAsync_same; [done|]. apply Hsub. by left.
  - intros image w1. apply bind_ext; [done|]. intros texture w2.
    apply bind_ext; [done|]. intros bitmap w3.
    apply IH. intros x Hx. apply Hsub. by right.
Qed.

Lemma same_pngs_files entries entries' :
  same_pngs entries entries' → files_of entries' = files_of entries.
Proof.
  intros (_ & _ & Hperm). rewrite !files_of_kept.
  apply std_sort_order_free. by rewrite Hperm.
Qed.

Lemma LoadBitmapsAsync_no_folder (fs : FileSystem) path t tg d f l :
  (∀ children, fs path ≠ Some (Folder children)) →
  LoadBitmapsAsync fs path (mkWorld t tg d f l) =
    (Throw (match fs path with
            | Some _ => hresult_invalid_argument (L "Path was not a folder!")
            | None => filesystem_error path
            end),
     mkWorld t tg d f (l ++ [EvCanonical path])).
Proof.
  intros Hno. destruct (fs path) as [node|] eqn:Hfs.
  - eapply LoadBitmapsAsync_not_folder; [done|]. intros children ->.
    by destruct (Hno children).
  - by apply LoadBitmapsAsync_missing.
Qed.

Lemma LoadBitmapsAsync_same (fs fs' : FileSystem) path w :
  agree_on fs fs' path →
  LoadBitmapsAsync fs path w = LoadBitmapsAsync fs' path w.
Proof.
  unfold agree_on. destruct w as [t tg d f l].
  destruct (fs path) as [[image|entries|]|] eqn:Hfs;
    destruct (fs' path) as [[image'|entries'|]|] eqn:Hfs';
    try (by intros [_ ?]).
  all: try (intros _; rewrite !LoadBitmapsAsync_no_folder by congruence;
            by rewrite Hfs, Hfs').
  intros [Hcanonical Hsame]. unfold LoadBitmapsAsync.
  mrun (by eapply canonical_ok). symmetry. mrun (by eapply canonical_ok).
  unfold is_directory. rewrite !canonical_form_same, Hfs, Hfs'. cbn [negb].
  mrun (unfold directory_iterator; mrun apply emit_eq;
        by rewrite canonical_form_same, Hfs').
  symmetry.
  mrun (unfold directory_iterator; mrun apply emit_eq;
        by rewrite canonical_form_same, Hfs).
  rewrite <-Hcanonical.
  fold (files_of entries) (files_of entries').
  rewrite (same_pngs_files _ _ Hsame).
  apply bind_ext; [done|]. intros _ w'.
  by apply load_files_same.
Qed.

(** X8.  A run reads its two directories only through the regular [.png]
    files directly in them: two file systems whose frames directories hold
    the same such files, and whose backgrounds directories do, listed in
    whatever order and among whatever subdirectories and other files, give
    the same run, call for call and texel for texel. *)
Theorem only_png_files_matter blend (fs fs' : FileSystem) useDebugLayer
    framesPath backgroundPath outputPath :
  agree_on fs fs' framesPath → agree_on fs fs' backgroundPath →
  ∀ w,
    MainAsync blend fs useDebugLayer framesPath backgroundPath outputPath w =
    MainAsync blend fs' useDebugLayer framesPath backgroundPath outputPath w.
Proof.
  intros Hf Hb w. unfold MainAsync. cbv zeta.
  repeat first
    [ reflexivity
    | apply LoadBitmapsAsync_same; assumption
    | apply bind_ext; [|intros ? ?]
    | match goal with
      | |- (if ?c then _ else _) _ = (if ?c then _ else _) _ => destruct c
      end ].
Qed.

(** ** The images handed to the encoder *)

Lemma omap_filter {B} (g : Event → option B) (p : Event → bool) l :
  (∀ e, p e = false → g e = None) →
  omap g (List.filter p l) = omap g l.
Proof.
  intros Hg. induction l as [|e l IH]; [done|].
  cbn [List.filter]. destruct (p e) eqn:Hp.
  - change (omap g (e :: List.filter p l))
      with (match g e with
            | Some b => b :: omap g (List.filter p l)
            | None => omap g (List.filter p l)
            end).
    by rewrite IH.
  - rewrite IH. change (omap g (e :: l))
      with (match g e with Some b => b :: omap g l | None => omap g l end).
    by rewrite (Hg e Hp).
Qed.

Lemma draw_bitmap_well_formed blend W H src dst :
  well_formed W H dst → well_formed W H (draw_bitmap blend src dst).
Proof.
  intros [Hsz Hlen]. split; [done|].
  unfold draw_bitmap. cbn [pixels]. by rewrite length_imap.
Qed.

Lemma draw_bitmap_keeps_opaque blend src dst :
  (∀ s d, px_a d = 255 → px_a (blend s d) = 255) →
  opaque dst → opaque (draw_bitmap blend src dst).
Proof.
  unfold opaque. intros Hblend Hdst. apply Forall_lookup. intros i p.
  unfold draw_bitmap. cbn [pixels]. rewrite list_lookup_imap.
  destruct (pixels dst !! i) as [d|] eqn:Hd; [|done].
  pose proof (Forall_lookup_1 _ _ _ _ Hdst Hd) as Ha. simpl.
  destruct (source_texel _ _ _); intros [= <-]; auto.
Qed.

Lemma draw_bitmap_covers blend W H src dst :
  (∀ s d, px_a s = 255 → blend s d = s) →
  well_formed W H src → well_formed W H dst → opaque src →
  draw_bitmap blend src dst = src.
Proof.
  intros Hblend [Hs Hslen] [Hd Hdlen] Hop.
  assert (Hpx : pixels (draw_bitmap blend src dst) = pixels src).
  { apply list_eq. intros i.
    destruct (pixels src !! i) as [p|] eqn:Hi.
    - apply draw_bitmap_opaque; try done.
      + congruence.
      + injection Hs as -> ->. done.
      + congruence.
      + exact (Forall_lookup_1 _ _ _ _ Hop Hi).
    - apply lookup_ge_None. apply lookup_ge_None in Hi.
      unfold draw_bitmap. cbn [pixels]. rewrite length_imap. lia. }
  destruct src as [ws hs ps]. unfold draw_bitmap in *. cbn [pixels] in Hpx.
  injection Hs as Hws Hhs. injection Hd as Hwd Hhd. simpl in *.
  rewrite Hpx. congruence.
Qed.

Lemma white_canvas_well_formed W H : well_formed W H (white_canvas W H).
Proof. split; [done|]. simpl. by rewrite length_replicate. Qed.

Lemma blank_well_formed W H : well_formed W H (blank W H).
Proof. split; [done|]. simpl. by rewrite length_replicate. Qed.

Lemma white_canvas_opaque W H : opaque (white_canvas W H).
Proof. unfold opaque. simpl. by apply Forall_replicate. Qed.

Lemma flatten_well_formed blend W H backgrounds : ∀ canvas,
  well_formed W H canvas → well_formed W H (flatten blend backgrounds canvas).
Proof.
  induction backgrounds as [|s backgrounds IH]; intros canvas Hc; [done|].
  simpl. by apply IH, draw_bitmap_well_formed.
Qed.

Lemma flatten_opaque blend backgrounds :
  (∀ s d, px_a d = 255 → px_a (blend s d) = 255) →
  ∀ canvas, opaque canvas → opaque (flatten blend backgrounds canvas).
Proof.
  intros Hblend.
  induction backgrounds as [|s backgrounds IH]; intros canvas Hc; [done|].
  simpl. by apply IH, draw_bitmap_keeps_opaque.
Qed.

Lemma rendered_frames_well_formed blend W H template frames : ∀ target,
  well_formed W H target →
  Forall (well_formed W H) (rendered_frames blend template frames target).
Proof.
  induction frames as [|frame frames IH]; intros target Ht; [done|].
  cbn [rendered_frames].
  assert (well_formed W H (render blend template frame target))
    by (by do 2 apply draw_bitmap_well_formed).
  constructor; auto.
Qed.

Lemma rendered_frames_fresh blend W H template frames :
  (∀ s d, px_a s = 255 → blend s d = s) →
  well_formed W H template → opaque template →
  ∀ target, well_formed W H target →
    rendered_frames blend template frames target =
      (fun frame => draw_bitmap blend frame template) <$> frames.
Proof.
  intros Hblend Hwf Hop.
  induction frames as [|frame frames IH]; intros target Ht; [done|].
  cbn [rendered_frames]. unfold render.
  rewrite (draw_bitmap_covers blend W H template target) by done.
  rewrite fmap_cons. f_equal.
  apply IH. by apply draw_bitmap_well_formed.
Qed.

Lemma write_events_pixel_data frameSize (buffers : list (list Z)) :
  omap pixel_data (buffers ≫= write_events frameSize) = buffers.
Proof.
  induction buffers as [|bytes buffers IH]; [done|].
  cbn [mbind list_bind]. unfold write_events at 1. simpl.
  f_equal. exact IH.
Qed.

Lemma write_events_pixel_call frameSize (buffers : list (list Z)) :
  omap pixel_call (buffers ≫= write_events frameSize) =
    (fun bytes => (frameSize.1, frameSize.2, bytes)) <$> buffers.
Proof.
  induction buffers as [|bytes buffers IH]; [done|].
  cbn [mbind list_bind]. unfold write_events at 1. simpl.
  f_equal. exact IH.
Qed.

Lemma surface_bytes_length s :
  length (surface_bytes s) = (4 * length (pixels s))%nat.
Proof.
  unfold surface_bytes. induction (pixels s) as [|p ps IH]; [done|].
  cbn [mbind list_bind]. rewrite length_app, IH. simpl. lia.
Qed.

Section EncodedPixels.
Context (blend : Pixel → Pixel → Pixel) (fs : FileSystem).
Context (useDebugLayer : bool).
Context (framesPath backgroundPath outputPath : wstring).
Context (fentries bentries : list (wstring * FsNode)).
Context (frames backgrounds : list Surface) (W H : nat).
Context (Hfs : fs framesPath = Some (Folder fentries)).
Context (Hframes : load_images fentries = Some frames).
Context (Hne : frames ≠ []).
Context (Hfsize : Forall (fun s => surface_size s = (W, H)) frames).
Context (Hbs : fs backgroundPath = Some (Folder bentries)).
Context (Hbackgrounds : load_images bentries = Some backgrounds).
Context (Hbsize : Forall (fun s => surface_size s = (W, H)) backgrounds).
Context (Hmax : size frames ≤ INT_MAX).

Local Abbreviation the_log :=
  (run_log blend fs useDebugLayer framesPath backgroundPath outputPath
           fentries bentries frames backgrounds (W, H)).
Local Abbreviation template :=
  (flatten blend backgrounds (white_canvas W H)).

Lemma the_log_writes {B} (g : Event → option B) :
  (∀ e, is_write_event e = false → g e = None) →
  omap g the_log =
    omap g ((surface_bytes <$> rendered_frames blend template frames
                                 (blank W H)) ≫= write_events (W, H)).
Proof using Type.
  intros Hg. rewrite <-(omap_filter g is_write_event) by done.
  rewrite the_log_filter by (by intros []).
  rewrite encode_events_write, clear_blank.
  unfold template_events.
  rewrite !List.filter_app, filter_DrawBitmap_none by done.
  simpl. rewrite app_nil_r.
  generalize (surface_bytes <$> rendered_frames blend template frames
                (blank W H)).
  intros buffers. f_equal.
Qed.

(** X9.  The render target is never cleared between two frames, yet no
    frame shows through the next: when the device's blend lets an opaque
    texel cover what is under it and keeps an opaque target opaque, the
    buffers handed to the encoder are, in frame order, each frame drawn
    over the background template and nothing else. *)
Theorem frames_do_not_bleed :
  (∀ s d, px_a s = 255 → blend s d = s) →
  (∀ s d, px_a d = 255 → px_a (blend s d) = 255) →
  ∃ w',
    MainAsync blend fs useDebugLayer framesPath backgroundPath outputPath
              initial_world = (Val tt, w')
    ∧ omap pixel_data (log w') =
        (fun frame => surface_bytes (draw_bitmap blend frame template))
          <$> frames.
Proof using All.
  intros Hcover Hkeep. eexists. split; [by eapply encoded_run|].
  cbn [log]. rewrite the_log_writes by (by intros []).
  rewrite write_events_pixel_data.
  rewrite (rendered_frames_fresh blend W H).
  - by rewrite <-list_fmap_compose.
  - done.
  - apply flatten_well_formed, white_canvas_well_formed.
  - apply flatten_opaque; [done|apply white_canvas_opaque].
  - apply blank_well_formed.
Qed.

(** X10.  Whatever the blend, every [SetPixelData] call of a run carries the
    frame size and a buffer of exactly four bytes for each of its [W * H]
    texels, and there is one such call for each frame. *)
Theorem pixel_buffers_fit :
  ∃ w',
    MainAsync blend fs useDebugLayer framesPath backgroundPath outputPath
              initial_world = (Val tt, w')
    ∧ length (omap pixel_call (log w')) = length frames
    ∧ Forall (fun c => c.1 = (W, H) ∧ length c.2 = (4 * (W * H))%nat)
             (omap pixel_call (log w')).
Proof using All.
  eexists. split; [by eapply encoded_run|].
  cbn [log]. rewrite the_log_writes by (by intros []).
  rewrite write_events_pixel_call. cbn [fst snd].
  split; [by rewrite !length_fmap, rendered_frames_length|].
  rewrite <-list_fmap_compose. apply Forall_fmap.
  eapply Forall_impl;
    [apply (rendered_frames_well_formed blend W H), blank_well_formed|].
  intros image [_ Hlen]. simpl. split; [done|].
  by rewrite surface_bytes_length, Hlen.
Qed.

(** X11.  Under the same two conditions on the blend, every texel of every
    image handed to the encoder is opaque: the white canvas under the
    backgrounds shows wherever backgrounds and frame are transparent. *)
Theorem encoded_frames_opaque :
  (∀ s d, px_a s = 255 → blend s d = s) →
  (∀ s d, px_a d = 255 → px_a (blend s d) = 255) →
  ∃ w' images,
    MainAsync blend fs useDebugLayer framesPath backgroundPath outputPath
              initial_world = (Val tt, w')
    ∧ omap pixel_data (log w') = surface_bytes <$> images
    ∧ length images = length frames
    ∧ Forall opaque images.
Proof using All.
  intros Hcover Hkeep. eexists _, _. split; [by eapply encoded_run|].
  cbn [log]. rewrite the_log_writes by (by intros []).
  rewrite write_events_pixel_data. split; [done|].
  split; [apply rendered_frames_length|].
  rewrite (rendered_frames_fresh blend W H); try done.
  - apply Forall_fmap, Forall_forall. intros frame _. simpl.
    apply draw_bitmap_keeps_opaque; [done|].
    apply flatten_opaque; [done|apply white_canvas_opaque].
  - apply flatten_well_formed, white_canvas_well_formed.
  - apply flatten_opaque; [done|apply white_canvas_opaque].
  - apply blank_well_formed.
Qed.
(** X13.  A run that encodes leaves the images it loaded as they were
    loaded, the frames first and the backgrounds after them, and works on
    three textures of its own whatever the number of frames: the render
    target, the template and the staging texture. *)
Theorem loaded_images_untouched :
  ∃ w',
    MainAsync blend fs useDebugLayer framesPath backgroundPath outputPath
              initial_world = (Val tt, w')
    ∧ take (length frames + length backgrounds) (textures w') =
        frames ++ backgrounds
    ∧ length (textures w') = (length frames + length backgrounds + 3)%nat
    ∧ target w' = Some (mkBitmap (length frames + length backgrounds)).
Proof using All.
  eexists. split; [by eapply encoded_run|].
  cbn [textures target]. unfold final_textures. cbv zeta.
  split_and!; [| |done].
  - rewrite !take_insert_ge by lia.
    rewrite app_assoc, take_app_length'; [done|by rewrite length_app].
  - rewrite !length_insert, !length_app. simpl. lia.
Qed.
End EncodedPixels.

(** ** These statements on the sample inputs *)

Lemma help_flag_wins_witness :
  wmain premultiplied_over sample_fs sample_GetFlag sample_GetFlag_alias
        sample_GetFlagValue help_argv initial_world =
    (Exit 0, mkWorld [] None false false help_events).
Proof.
  destruct (help_flag_wins premultiplied_over sample_fs sample_GetFlag
              sample_GetFlag_alias sample_GetFlagValue help_argv)
    as [Hmain _].
  - right. vm_compute. reflexivity.
  - exact Hmain.
Defined.

Lemma missing_path_exits_1_witness :
  wmain premultiplied_over sample_fs sample_GetFlag sample_GetFlag_alias
        sample_GetFlagValue no_background_argv initial_world =
    (Exit 1, mkWorld [] None false false [invalid_path_line "background"]).
Proof.
  refine (eq_trans
            (missing_path_exits_1 premultiplied_over sample_fs sample_GetFlag
               sample_GetFlag_alias sample_GetFlagValue no_background_argv
               _ _ _) _).
  - vm_compute. reflexivity.
  - vm_compute. reflexivity.
  - right. left. vm_compute. reflexivity.
  - vm_compute. reflexivity.
Defined.

Lemma exit_status_meaning_witness :
  wmain premultiplied_over sample_fs sample_GetFlag sample_GetFlag_alias
        sample_GetFlagValue no_background_argv initial_world =
    (Exit 1, mkWorld [] None false false [invalid_path_line "background"])
  ∧ sample_GetFlag (drop 1 no_background_argv) (L "-help")
    || sample_GetFlag (drop 1 no_background_argv) (L "/?") = false
  ∧ (sample_GetFlagValue (drop 1 no_background_argv) (L "-f") (L "/f") = []
     ∨ sample_GetFlagValue (drop 1 no_background_argv) (L "-b") (L "/b") = []
     ∨ sample_GetFlagValue (drop 1 no_background_argv) (L "-o") (L "/o") = []).
Proof.
  assert (Hmain :
    wmain premultiplied_over sample_fs sample_GetFlag sample_GetFlag_alias
          sample_GetFlagValue no_background_argv initial_world =
      (Exit 1, mkWorld [] None false false [invalid_path_line "background"]))
    by (vm_compute; reflexivity).
  split; [exact Hmain|].
  destruct (exit_status_meaning premultiplied_over sample_fs sample_GetFlag
              sample_GetFlag_alias sample_GetFlagValue no_background_argv
              1 _ Hmain)
    as [(_ & Hhelp & Hmissing)|[(Hcode & _)|(Hcode & _)]].
  - split; assumption.
  - discriminate Hcode.
  - discriminate Hcode.
Defined.

Lemma sample_frame_count entries :
  sample_fs (L "frames") = Some (Folder entries) →
  size (files_of entries) ≤ INT_MAX.
Proof. intros [= <-]. vm_compute. discriminate. Qed.

Lemma sample_run :
  MainAsync premultiplied_over sample_fs false (L "frames") (L "backgrounds")
            (L "out.gif") initial_world = (Val tt, sample_end).
Proof. vm_compute. reflexivity. Qed.

Lemma MainAsync_outcomes_witness :
  MainAsync premultiplied_over sample_fs false (L "frames") (L "backgrounds")
            (L "out.gif") initial_world = (Val tt, sample_end)
  ∧ ∃ N, (0 < N)%nat
         ∧ schedule (log sample_end) = frames_schedule N ++ [Finish]
         ∧ count is_flush (log sample_end) = 1%nat
         ∧ last (log sample_end) = Some (EvPrintf (L ("Done!" ++ nl))).
Proof.
  split; [exact sample_run|].
  destruct (MainAsync_outcomes premultiplied_over sample_fs false (L "frames")
              (L "backgrounds") (L "out.gif") sample_end sample_frame_count
              sample_run) as [[Hlast _]|Hdone].
  - vm_compute in Hlast. discriminate.
  - exact Hdone.
Defined.

Lemma backgrounds_path_required_witness :
  ∃ e,
    MainAsync premultiplied_over sample_fs false (L "frames") (L "file.txt")
              (L "out.gif") initial_world =
      (Throw e,
       mkWorld sample_frames None false false
         [ EvCreateD3DDevice; EvCreateD2DFactory D2D1_DEBUG_LEVEL_NONE;
           EvCreateD2DDevice; EvCreateDeviceContext;
           EvCanonical (L "frames"); EvDirectoryIterator (L "/tmp/gc/frames");
           EvGetFolderFromPath (L "/tmp/gc/frames");
           EvGetFile (L "a.png"); EvLoadTextureFromStream (L "a.png");
           EvCreateBitmapFromDxgiSurface 0;
           EvGetFile (L "b.png"); EvLoadTextureFromStream (L "b.png");
           EvCreateBitmapFromDxgiSurface 1;
           EvCanonical (L "file.txt") ])
    ∧ e = hresult_invalid_argument (L "Path was not a folder!")
    ∧ classify e = InvalidPathError.
Proof.
  apply (backgrounds_path_required premultiplied_over sample_fs false
           (L "frames") (L "file.txt") (L "out.gif") frames_dir sample_frames
           2 1).
  - reflexivity.
  - exact sample_frames_loaded.
  - discriminate.
  - repeat constructor.
  - intros children. vm_compute. discriminate.
Defined.

Lemma sample_names_distinct :
  NoDup frames_dir.*1 ∧ NoDup tidy_frames_dir.*1 ∧ NoDup backgrounds_dir.*1.
Proof.
  split_and!.
  - apply (bool_decide_unpack (NoDup frames_dir.*1)). vm_compute. reflexivity.
  - apply (bool_decide_unpack (NoDup tidy_frames_dir.*1)).
    vm_compute. reflexivity.
  - apply (bool_decide_unpack (NoDup backgrounds_dir.*1)).
    vm_compute. reflexivity.
Qed.

Lemma tidy_fs_frames : agree_on sample_fs tidy_fs (L "frames").
Proof.
  split; [reflexivity|].
  change (same_pngs frames_dir tidy_frames_dir).
  destruct sample_names_distinct as (Hf & Ht & _).
  split; [exact Hf|]. split; [exact Ht|].
  vm_compute. apply perm_swap.
Qed.

Lemma tidy_fs_backgrounds : agree_on sample_fs tidy_fs (L "backgrounds").
Proof.
  split; [reflexivity|].
  change (same_pngs backgrounds_dir backgrounds_dir).
  destruct sample_names_distinct as (_ & _ & Hb).
  split; [exact Hb|]. split; [exact Hb|]. reflexivity.
Qed.

Lemma only_png_files_matter_witness :
  MainAsync premultiplied_over sample_fs false (L "frames") (L "backgrounds")
            (L "out.gif") initial_world =
  MainAsync premultiplied_over tidy_fs false (L "frames") (L "backgrounds")
            (L "out.gif") initial_world.
Proof.
  apply (only_png_files_matter premultiplied_over sample_fs tidy_fs false
           (L "frames") (L "backgrounds") (L "out.gif")).
  - exact tidy_fs_frames.
  - exact tidy_fs_backgrounds.
Defined.

Lemma frames_do_not_bleed_witness :
  ∃ w',
    MainAsync premultiplied_over sample_fs false (L "frames")
              (L "backgrounds") (L "out.gif") initial_world = (Val tt, w')
    ∧ omap pixel_data (log w') =
        [ [177; 49; 49; 255; 177; 49; 49; 255];
          [0; 0; 255; 255; 0; 0; 255; 255] ].
Proof.
  destruct (frames_do_not_bleed premultiplied_over sample_fs false
              (L "frames") (L "backgrounds") (L "out.gif")
              frames_dir backgrounds_dir sample_frames sample_backgrounds 2 1)
    as (w' & Hrun & Hdata).
  - reflexivity.
  - exact sample_frames_loaded.
  - discriminate.
  - repeat constructor.
  - reflexivity.
  - exact sample_backgrounds_loaded.
  - repeat constructor.
  - exact sample_size_ok.
  - exact premultiplied_over_covers.
  - exact premultiplied_over_keeps_opaque.
  - exists w'. split; [assumption|].
    rewrite Hdata. vm_compute. reflexivity.
Defined.

Lemma pixel_buffers_fit_witness :
  ∃ w',
    MainAsync premultiplied_over sample_fs false (L "frames")
              (L "backgrounds") (L "out.gif") initial_world = (Val tt, w')
    ∧ length (omap pixel_call (log w')) = 2%nat
    ∧ Forall (fun c => c.1 = (2, 1)%nat ∧ length c.2 = 8%nat)
             (omap pixel_call (log w')).
Proof.
  destruct (pixel_buffers_fit premultiplied_over sample_fs false
              (L "frames") (L "backgrounds") (L "out.gif")
              frames_dir backgrounds_dir sample_frames sample_backgrounds 2 1)
    as (w' & Hrun & Hlen & Hfit).
  - reflexivity.
  - exact sample_frames_loaded.
  - discriminate.
  - repeat constructor.
  - reflexivity.
  - exact sample_backgrounds_loaded.
  - repeat constructor.
  - exact sample_size_ok.
  - exists w'. repeat split; assumption.
Defined.

Lemma encoded_frames_opaque_witness :
  ∃ w' images,
    MainAsync premultiplied_over sample_fs false (L "frames")
              (L "backgrounds") (L "out.gif") initial_world = (Val tt, w')
    ∧ omap pixel_data (log w') = surface_bytes <$> images
    ∧ length images = 2%nat
    ∧ Forall opaque images.
Proof.
  destruct (encoded_frames_opaque premultiplied_over sample_fs false
              (L "frames") (L "backgrounds") (L "out.gif")
              frames_dir backgrounds_dir sample_frames sample_backgrounds 2 1)
    as (w' & images & Hrun & Hdata & Hlen & Hopaque).
  - reflexivity.
  - exact sample_frames_loaded.
  - discriminate.
  - repeat constructor.
  - reflexivity.
  - exact sample_backgrounds_loaded.
  - repeat constructor.
  - exact sample_size_ok.
  - exact premultiplied_over_covers.
  - exact premultiplied_over_keeps_opaque.
  - exists w', images. repeat split; assumption.
Defined.

Lemma draw_discipline_witness :
  MainAsync premultiplied_over sample_fs false (L "frames") (L "backgrounds")
            (L "out.gif") initial_world = (Val tt, sample_end)
  ∧ draw_state false (log sample_end) = Some false.
Proof.
  split; [exact sample_run|].
  exact (draw_discipline premultiplied_over sample_fs false (L "frames")
           (L "backgrounds") (L "out.gif") sample_end sample_frame_count
           sample_run).
Defined.

Lemma loaded_images_untouched_witness :
  ∃ w',
    MainAsync premultiplied_over sample_fs false (L "frames")
              (L "backgrounds") (L "out.gif") initial_world = (Val tt, w')
    ∧ take 4 (textures w') = sample_frames ++ sample_backgrounds
    ∧ length (textures w') = 7%nat
    ∧ target w' = Some (mkBitmap 4).
Proof.
  destruct (loaded_images_untouched premultiplied_over sample_fs false
              (L "frames") (L "backgrounds") (L "out.gif")
              frames_dir backgrounds_dir sample_frames sample_backgrounds 2 1)
    as (w' & Hrun & Htake & Hlen & Htarget).
  - reflexivity.
  - exact sample_frames_loaded.
  - discriminate.
  - repeat constructor.
  - reflexivity.
  - exact sample_backgrounds_loaded.
  - repeat constructor.
  - exact sample_size_ok.
  - exists w'. repeat split; assumption.
Defined.
